(** * The user-message worker of the agent gateway

    A shallow embedding of [internal/handlers/workers/message_handlers.go]
    and the properties of its per-message pipeline: the queue handler
    ([CreateUserMessageHandler]), the processing function
    ([processUserMessage]), the translation of the engine's reply
    ([transformGoogleAgentMessages] and its helpers) and the formatting pass
    ([applyWhatsAppFormattingToMessages]).

    Go strings are byte sequences and are modelled by [string] (a sequence of
    8-bit [ascii]); a string literal of this file denotes the bytes of its
    UTF-8 encoding, as a literal of the Go source does. *)

From Stdlib Require Import ZArith NArith Ascii String List Lia Bool.
From Stdlib Require Import Floats.SpecFloat.
From stdpp Require Import base strings gmap list.

Set Warnings "-register-all".

(* ===================================================================== *)
(** * Part 1. The functions of Go's [strings] package the worker calls     *)
(* ===================================================================== *)

Module GoStrings.

(** [len(s)]: the number of bytes. *)
Definition len (s : string) : nat := String.length s.

(** [s[n:]]: the string without its first [n] bytes. *)
Fixpoint skip (n : nat) (s : string) : string :=
  match n, s with
  | O, _ => s
  | S n', String _ r => skip n' r
  | S _, EmptyString => EmptyString
  end.

(** [s[:n]]: the first [n] bytes. *)
Fixpoint keep (n : nat) (s : string) : string :=
  match n, s with
  | O, _ => EmptyString
  | S n', String c r => String c (keep n' r)
  | S _, EmptyString => EmptyString
  end.

(** [strings.HasPrefix]:
    [len(s) >= len(prefix) && s[:len(prefix)] == prefix]. *)
Definition HasPrefix (s prefix : string) : bool :=
  (len prefix <=? len s)%nat && String.eqb (keep (len prefix) s) prefix.

(** [strings.HasSuffix]:
    [len(s) >= len(suffix) && s[len(s)-len(suffix):] == suffix]. *)
Definition HasSuffix (s suffix : string) : bool :=
  (len suffix <=? len s)%nat && String.eqb (skip (len s - len suffix) s) suffix.

(** The lower-case mapping of one byte of the ASCII range. *)
Definition lowerByte (c : ascii) : ascii :=
  let n := N_of_ascii c in
  if ((65 <=? n) && (n <=? 90))%N then ascii_of_N (n + 32) else c.

(** [strings.ToLower].  The ASCII letters [A]..[Z] are mapped to [a]..[z]
    and every other byte of the ASCII range is kept, as Go does.  Go also
    lower-cases the runes outside ASCII; their images are again outside
    ASCII except for U+212A and U+0130, which become [k] and [i].  The only
    use of [ToLower] in the worker is a [HasSuffix] test against
    extensions made of ASCII bytes other than [k] and [i], whose result
    depends on the ASCII bytes alone, so the bytes from 0x80 on are kept
    here as they are. *)
Fixpoint ToLower (s : string) : string :=
  match s with
  | EmptyString => EmptyString
  | String c r => String (lowerByte c) (ToLower r)
  end.

(** [strings.ReplaceAll(s, old, "")] for a one-byte [old]: every
    occurrence of the byte is removed. *)
Fixpoint removeByte (old : ascii) (s : string) : string :=
  match s with
  | EmptyString => EmptyString
  | String c r =>
      if Ascii.eqb c old then removeByte old r else String c (removeByte old r)
  end.

(** The UTF-8 encoding of a code point below 0x10000 (one to three
    bytes). *)
Definition utf8 (cp : N) : string :=
  if (cp <? 128)%N then String (ascii_of_N cp) EmptyString
  else if (cp <? 2048)%N then
    String (ascii_of_N (192 + cp / 64))
      (String (ascii_of_N (128 + cp mod 64)) EmptyString)
  else
    String (ascii_of_N (224 + cp / 4096))
      (String (ascii_of_N (128 + (cp / 64) mod 64))
         (String (ascii_of_N (128 + cp mod 64)) EmptyString)).

(** The code points for which [unicode.IsSpace] holds: the table
    [unicode.White_Space]. *)
Definition White_Space : list N :=
  [ 9; 10; 11; 12; 13; 32; 133; 160; 5760;
    8192; 8193; 8194; 8195; 8196; 8197; 8198; 8199; 8200; 8201; 8202;
    8232; 8233; 8239; 8287; 12288 ]%N.

(** The byte sequences that decode to a white-space rune.  Go decodes a
    rune only from its shortest encoding, so these are the only ones. *)
Definition spaceRunes : list string := map utf8 White_Space.

(** [stripPrefix t s]: the rest of [s] after the leading [t], if [s] starts
    with [t]. *)
Fixpoint stripPrefix (t s : string) : option string :=
  match t, s with
  | EmptyString, _ => Some s
  | String a t', String b s' =>
      if Ascii.eqb a b then stripPrefix t' s' else None
  | String _ _, EmptyString => None
  end.

(** [stripSuffix t s]: [s] without the trailing [t], if [s] ends with
    [t]. *)
Definition stripSuffix (t s : string) : option string :=
  if HasSuffix s t then Some (keep (len s - len t) s) else None.

(** The first rune of [s] is white space: the rest of [s] after it
    ([utf8.DecodeRuneInString] followed by [unicode.IsSpace]). *)
Fixpoint leadingSpace (runes : list string) (s : string) : option string :=
  match runes with
  | [] => None
  | t :: ts =>
      match stripPrefix t s with
      | Some r => Some r
      | None => leadingSpace ts s
      end
  end.

(** The last rune of [s] is white space: [s] without it
    ([utf8.DecodeLastRuneInString] followed by [unicode.IsSpace]). *)
Fixpoint trailingSpace (runes : list string) (s : string) : option string :=
  match runes with
  | [] => None
  | t :: ts =>
      match stripSuffix t s with
      | Some r => Some r
      | None => trailingSpace ts s
      end
  end.

(** [strings.TrimLeftFunc(s, unicode.IsSpace)]; the loop runs at most
    [len(s)] times, once per rune. *)
Fixpoint trimLeftLoop (n : nat) (s : string) : string :=
  match n with
  | O => s
  | S n' =>
      match leadingSpace spaceRunes s with
      | Some r => trimLeftLoop n' r
      | None => s
      end
  end.

Definition TrimLeftSpace (s : string) : string := trimLeftLoop (len s) s.

(** [strings.TrimRightFunc(s, unicode.IsSpace)]. *)
Fixpoint trimRightLoop (n : nat) (s : string) : string :=
  match n with
  | O => s
  | S n' =>
      match trailingSpace spaceRunes s with
      | Some r => trimRightLoop n' r
      | None => s
      end
  end.

Definition TrimRightSpace (s : string) : string := trimRightLoop (len s) s.

(** [strings.TrimSpace]: all leading and trailing white space removed.
    (Go runs a fast path over the six ASCII spaces first and falls back to
    the two functions above on the first byte from 0x80 on; the result is
    the same.) *)
Definition TrimSpace (s : string) : string := TrimRightSpace (TrimLeftSpace s).

(** A string made of white-space runes only. *)
Fixpoint concat (l : list string) : string :=
  match l with
  | [] => EmptyString
  | t :: ts => t +:+ concat ts
  end.

Definition WhitespaceOnly (s : string) : Prop :=
  exists runes, Forall (fun t => In t spaceRunes) runes /\ s = concat runes.

End GoStrings.

(* ===================================================================== *)
(** * Part 2. Data model                                                   *)
(* ===================================================================== *)

(** The text of a Go [error] ([err.Error()]); [nil] is [None] where an
    error may be absent. *)
Definition error : Type := string.

(** The outcome of a call that returns a value and an error. *)
Inductive result (A : Type) : Type :=
| Ok (a : A)
| Err (e : error).
Arguments Ok {A} a.
Arguments Err {A} e.

(** Go's [float64], and the conversion [float64(n)] of an [int]: rounding to
    the nearest double, ties to even. *)
Definition float64 : Type := spec_float.
Definition float64_of_int (n : Z) : float64 := binary_normalize 53 1024 n 0 false.

(** The dynamic values held by an [interface{}] in the worker: what
    [encoding/json] decodes into ([nil], [bool], [float64], [string],
    [[]interface{}], [map[string]interface{}]) and what the worker itself
    builds ([int] and [[]string]). *)
Inductive value : Type :=
| VNil
| VBool (b : bool)
| VFloat64 (f : float64)
| VInt (n : Z)
| VString (s : string)
| VSlice (l : list value)
| VStrings (l : list string)
| VMap (m : gmap string value).

(** [m[k]] on a [map[string]interface{}]: the zero value [nil] for a key
    that is absent.  The two-valued form [v, exists := m[k]] is [m !! k]. *)
Definition mapIndex (m : gmap string value) (k : string) : value :=
  default VNil (m !! k).

(** Type assertions [v.(T)] in their two-valued form. *)
Definition assertMap (v : value) : option (gmap string value) :=
  match v with VMap m => Some m | _ => None end.
Definition assertSlice (v : value) : option (list value) :=
  match v with VSlice l => Some l | _ => None end.
Definition assertString (v : value) : option string :=
  match v with VString s => Some s | _ => None end.
Definition assertInt (v : value) : option Z :=
  match v with VInt n => Some n | _ => None end.

(** [v == "..."] between an interface value and a string constant. *)
Definition valueIsString (v : value) (s : string) : bool :=
  match v with VString s' => String.eqb s' s | _ => false end.

Module models.

(** Modelled from the spec: [models.QueueMessage] is declared outside this
    file; the inbound message is [{id, user_number, message,
    previous_message?, provider, type}], with the field names the worker
    reads. *)
Record QueueMessage : Type := {
  ID : string;
  UserNumber : string;
  Message : string;
  PreviousMessage : option string;
  Provider : string;
  Type_ : string
}.

(** Modelled from the spec: [models.AgentResponse], the reply of the
    engine, [{content, messageID, threadID}]. *)
Record AgentResponse : Type := {
  Content : string;
  MessageID : string;
  ThreadID : string
}.

(** Modelled from the spec: [models.ProcessedMessageData], the persisted
    artifact, [{messages, agent_id, processed_at, status}]. *)
Record ProcessedMessageData : Type := {
  Messages : list value;
  AgentID : string;
  ProcessedAt : string;
  Status : string
}.

(** Modelled from the spec: the constants [models.TaskStatusProcessing],
    [models.TaskStatusCompleted] and [models.TaskStatusFailed] are declared
    outside this file; the task status is one of processing, completed,
    failed. *)
Definition TaskStatusProcessing : string := "processing".
Definition TaskStatusCompleted : string := "completed".
Definition TaskStatusFailed : string := "failed".

End models.

Module amqp.
(** [amqp.Delivery], with the fields the handler reads. *)
Record Delivery : Type := {
  DeliveryTag : Z;
  MessageId : string;
  Body : string
}.
End amqp.

Module config.
(** [deps.Config.Redis]: the two times to live, in nanoseconds. *)
Record Config : Type := {
  TaskStatusTTL : Z;
  TaskResultTTL : Z
}.
End config.

(** ** Calls to the outside world

    Every call that leaves the worker is recorded as an event; the run of a
    function is a state transformer over the list of events so far, oldest
    first.  What a call answers is given by its service, as a function of
    the events that came before it and of the arguments: a service may
    answer differently each time. *)
Module Ev.
Inductive Event : Type :=
| SetTaskStatus (id status : string) (ttl : Z)
| Set_ (key val : string) (ttl : Z)
| SetTaskResult (id res : string) (ttl : Z)
| GetOrCreateThread (userNumber : string)
| SendMessage (threadID message : string)
| TranscribeAudio (audioURL : string)
| ValidateMessageContent (content : string)
| FormatForWhatsApp (response : models.AgentResponse)
| RandRead (n : nat)
| TimeNow.
End Ev.

Definition History : Type := list Ev.Event.

Definition M (A : Type) : Type := History -> A * History.

#[global] Instance M_ret : MRet M := fun A (a : A) (h : History) => (a, h).
#[global] Instance M_bind : MBind M :=
  fun A B (f : A -> M B) (m : M A) (h : History) =>
    let '(a, h') := m h in f a h'.

(** One call: the service answers from the history so far, and the event is
    appended to the history. *)
Definition call {A : Type} (ev : Ev.Event) (answer : History -> A) : M A :=
  fun h => (answer h, h ++ [ev]).

(** A computation that stops at the first error ([if err != nil { return
    ..., err }]). *)
Definition try {A B : Type} (m : M (result A)) (k : A -> M (result B))
  : M (result B) :=
  r ← m; match r with Ok a => k a | Err e => mret (Err e) end.

Module services.

Record RedisService : Type := {
  SetTaskStatus : History -> string -> string -> Z -> option error;
  Set_ : History -> string -> string -> Z -> option error;
  SetTaskResult : History -> string -> string -> Z -> option error
}.

Record GoogleAgentEngineService : Type := {
  GetOrCreateThread : History -> string -> result string;
  SendMessage : History -> string -> string -> result models.AgentResponse
}.

(** [services.TranscribeService]: of the result of [TranscribeFromURL] the
    worker reads the field [Text] only. *)
Record TranscribeService : Type := {
  TranscribeFromURL : History -> string -> result string
}.

End services.

Module middleware.

(** The task handed to the tracing wrapper is a closure over the variable
    [response] of the handler: it is run on the current value of the
    variable and gives the error it returns and the new value. *)
Definition Task : Type := string -> M (option error * string).

(** [middleware.OTelWorkerWrapper] is declared outside this file, so
    [WrapWorkerTask] is taken as it comes: any function from the task to
    the run that gives the error the wrapper returns. *)
Record OTelWorkerWrapper : Type := {
  WrapWorkerTask : string -> string -> Task -> Task
}.

(** A wrapper that only observes: it runs the task once and returns the
    task's error. *)
Definition Transparent (w : OTelWorkerWrapper) : Prop :=
  forall workerName operation task response h,
    WrapWorkerTask w workerName operation task response h = task response h.

End middleware.

(** [TranscribeServiceInterface] and [MessageFormatterInterface]: what each
    method answers. *)
Record TranscribeServiceInterface : Type := {
  TranscribeAudio : History -> string -> result string;
  IsAudioURL : string -> bool;
  ValidateAudioURL : string -> option error
}.

Record MessageFormatterInterface : Type := {
  FormatForWhatsApp : History -> models.AgentResponse -> result string;
  FormatErrorMessage : History -> error -> string;
  ValidateMessageContent : History -> string -> option error
}.

(** [MessageHandlerDependencies]; a [nil] service is [None].  The logger is
    left out: logging changes no result.  [RedisService] and [Config] are
    dereferenced without a test by the handler and are taken to be there. *)
Record MessageHandlerDependencies : Type := {
  Config : config.Config;
  RedisService : services.RedisService;
  GoogleAgentService : option services.GoogleAgentEngineService;
  TranscribeService : option TranscribeServiceInterface;
  MessageFormatter : option MessageFormatterInterface;
  OTelWorkerWrapper : option middleware.OTelWorkerWrapper
}.

(** What the worker uses of [encoding/json], [crypto/rand] and [time]. *)
Class GoRuntime : Type := {
  (** [json.Unmarshal] of a delivery body into a [models.QueueMessage]. *)
  json_Unmarshal_QueueMessage : string -> result models.QueueMessage;
  (** The JSON text decoded into an [interface{}], or the syntax error. *)
  json_decode : string -> result value;
  (** [json.Marshal] of a [models.ProcessedMessageData]. *)
  json_Marshal : models.ProcessedMessageData -> result string;
  (** [rand.Read(b)]: the [len(b)] random bytes. *)
  rand_Read : History -> nat -> list ascii;
  (** [time.Now().Format(time.RFC3339)]. *)
  time_Now_RFC3339 : History -> string
}.

Notation "x ←? m ; k" := (try m (fun x => k))
  (at level 20, m at level 100, k at level 200, only parsing).

(* ===================================================================== *)
(** * Part 3. The worker                                                   *)
(* ===================================================================== *)

(** ** The transcription adapter (lines 38-85) *)

Definition audioExtensions : list string :=
  [".mp3"; ".wav"; ".m4a"; ".aac"; ".ogg"; ".flac"; ".wma"].

(** [isAudioURL] (lines 177-185): the loop returns at the first extension
    the lower-cased text ends with. *)
Definition isAudioURL (url : string) : bool :=
  existsb (fun ext => GoStrings.HasSuffix (GoStrings.ToLower url) ext)
    audioExtensions.

(** [TranscribeServiceAdapter] with its three methods; [service] is [None]
    for a [nil] pointer. *)
Definition NewTranscribeServiceAdapter
    (service : option services.TranscribeService) : TranscribeServiceInterface :=
  {| TranscribeAudio := fun h audioURL =>
       match service with
       | None => Err "transcribe service is not available"
       | Some s =>
           match services.TranscribeFromURL s h audioURL with
           | Err err => Err err
           | Ok text => Ok text
           end
       end;
     IsAudioURL := fun url =>
       existsb (fun ext => GoStrings.HasSuffix (GoStrings.ToLower url) ext)
         audioExtensions;
     ValidateAudioURL := fun url =>
       match service with
       | None => Some "transcribe service is not available"
       | Some _ =>
           if String.eqb url "" then Some "audio URL cannot be empty"
           else if negb (GoStrings.HasPrefix url "http://")
                   && negb (GoStrings.HasPrefix url "https://")
           then Some "audio URL must start with http:// or https://"
           else None
       end |}.

(** ** The helpers of the transformation (lines 440-547) *)

Definition extractModelName (msgMap : gmap string value) : value :=
  match assertMap (mapIndex msgMap "response_metadata") with
  | Some responseMetadata =>
      match responseMetadata !! "model_name" with
      | Some modelName => modelName
      | None => VNil
      end
  | None => VNil
  end.

Definition extractFinishReason (msgMap : gmap string value) : value :=
  match assertMap (mapIndex msgMap "response_metadata") with
  | Some responseMetadata =>
      match responseMetadata !! "finish_reason" with
      | Some finishReason => finishReason
      | None => VNil
      end
  | None => VNil
  end.

Definition extractAvgLogprobs (msgMap : gmap string value) : value :=
  match assertMap (mapIndex msgMap "response_metadata") with
  | Some responseMetadata =>
      match responseMetadata !! "avg_logprobs" with
      | Some avgLogprobs => avgLogprobs
      | None => VNil
      end
  | None => VNil
  end.

(** [if v, exists := m[k]; exists { if n, ok := v.(int); ok { result[k'] =
    float64(n) } }]: the step repeated five times by
    [extractUsageMetadata]. *)
Definition setFloatOfInt (m : gmap string value) (k k' : string)
    (result : gmap string value) : gmap string value :=
  match m !! k with
  | Some v =>
      match assertInt v with
      | Some n => <[k' := VFloat64 (float64_of_int n)]> result
      | None => result
      end
  | None => result
  end.

(** [if details, exists := usageMap[field].(map[string]interface{}); exists
    { ... }] around that step, for the two nested counters. *)
Definition setNestedFloatOfInt (usageMap : gmap string value)
    (field k k' : string) (result : gmap string value) : gmap string value :=
  match assertMap (mapIndex usageMap field) with
  | Some details => setFloatOfInt details k k' result
  | None => result
  end.

Definition extractUsageMetadata (msgMap : gmap string value) : value :=
  match assertMap (mapIndex msgMap "response_metadata") with
  | Some responseMetadata =>
      match responseMetadata !! "usage_metadata" with
      | Some usageMetadata =>
          match assertMap usageMetadata with
          | Some usageMap =>
              let result : gmap string value :=
                <["prompt_token_count" := mapIndex usageMap "input_tokens"]>
                (<["candidates_token_count" := mapIndex usageMap "output_tokens"]>
                (<["total_token_count" := mapIndex usageMap "total_tokens"]> ∅)) in
              let result :=
                setNestedFloatOfInt usageMap "output_token_details"
                  "reasoning" "thoughts_token_count" result in
              let result :=
                setNestedFloatOfInt usageMap "input_token_details"
                  "cache_read" "cached_content_token_count" result in
              let result :=
                setFloatOfInt usageMap "input_tokens" "prompt_token_count" result in
              let result :=
                setFloatOfInt usageMap "output_tokens" "candidates_token_count" result in
              let result :=
                setFloatOfInt usageMap "total_tokens" "total_token_count" result in
              VMap result
          | None => VNil
          end
      | None => VNil
      end
  | None => VNil
  end.

Definition mapMessageType (msgMap : gmap string value) : string :=
  match assertString (mapIndex msgMap "type") with
  | None => "user_message"
  | Some msgType =>
      if String.eqb msgType "human" then "user_message"
      else if String.eqb msgType "ai" then
        match assertSlice (mapIndex msgMap "tool_calls") with
        | Some (_ :: _) => "tool_call_message"
        | _ => "assistant_message"
        end
      else if String.eqb msgType "tool" then "tool_return_message"
      else "user_message"
  end.

(** [fmt.Sprintf("%x", b)] on a byte slice: two lower-case hexadecimal
    digits for each byte. *)
Definition hexDigit (n : N) : ascii :=
  ascii_of_N (if (n <? 10)%N then 48 + n else 87 + n).

Definition hexByte (c : ascii) : string :=
  String (hexDigit (N_of_ascii c / 16))
    (String (hexDigit (N_of_ascii c mod 16)) EmptyString).

Definition hex (b : list ascii) : string :=
  foldr (fun c s => hexByte c +:+ s) EmptyString b.

Section Worker.

Context {rt : GoRuntime}.

(** [generateStepID]: [b] starts as sixteen zero bytes and is filled by
    [rand.Read]. *)
Definition generateStepID : M string :=
  b ← call (Ev.RandRead 16)
        (fun h => take 16 (rand_Read h 16 ++ replicate 16 zero));
  mret (hex (take 4 b) +:+ "-" +:+ hex (take 2 (drop 4 b)) +:+ "-" +:+
        hex (take 2 (drop 6 b)) +:+ "-" +:+ hex (take 2 (drop 8 b)) +:+ "-" +:+
        hex (drop 10 b)).

(** ** [transformGoogleAgentMessages] (lines 354-438) *)

(** The message built for one object entry (lines 376-416), given the
    value of ["step-" + generateStepID()]. *)
Definition transformMessage (stepID : string) (msgMap : gmap string value)
  : gmap string value :=
  let transformedMsg : gmap string value :=
    list_to_map
      [ ("id", mapIndex msgMap "id");
        ("date", VNil);
        ("session_id", VNil);
        ("time_since_last_message", VNil);
        ("name", mapIndex msgMap "name");
        ("otid", mapIndex msgMap "id");
        ("sender_id", VNil);
        ("step_id", VString stepID);
        ("is_err", VNil);
        ("model_name", extractModelName msgMap);
        ("finish_reason", extractFinishReason msgMap);
        ("avg_logprobs", extractAvgLogprobs msgMap);
        ("usage_metadata", extractUsageMetadata msgMap);
        ("message_type", VString (mapMessageType msgMap));
        ("content", mapIndex msgMap "content") ] in
  let msgType := mapMessageType msgMap in
  if String.eqb msgType "tool_call_message" then
    match assertSlice (mapIndex msgMap "tool_calls") with
    | Some (first :: _) =>
        match assertMap first with
        | Some toolCall =>
            <["tool_call" :=
                VMap (list_to_map
                        [ ("name", mapIndex toolCall "name");
                          ("arguments", mapIndex toolCall "args");
                          ("tool_call_id", mapIndex toolCall "id") ])]>
              transformedMsg
        | None => transformedMsg
        end
    | _ => transformedMsg
    end
  else if String.eqb msgType "tool_return_message" then
    match msgMap !! "name" with
    | Some name =>
        <["name" := name]>
        (<["stderr" := VNil]>
        (<["stdout" := VNil]>
        (<["tool_call_id" := mapIndex msgMap "tool_call_id"]>
        (<["status" := VString "success"]>
        (<["tool_return" := mapIndex msgMap "content"]> transformedMsg)))))
    | None => transformedMsg
    end
  else transformedMsg.

(** The loop over the entries (lines 370-419): an entry that is not an
    object is skipped, every other one is transformed and appended. *)
Fixpoint transformLoop (messagesList transformedMessages : list value)
  : M (list value) :=
  match messagesList with
  | [] => mret transformedMessages
  | msgData :: rest =>
      match assertMap msgData with
      | None => transformLoop rest transformedMessages
      | Some msgMap =>
          id ← generateStepID;
          transformLoop rest
            (transformedMessages ++
               [VMap (transformMessage ("step-" +:+ id) msgMap)])
      end
  end.

(** The trailing record (lines 422-434). *)
Definition usageStats (stepCount : nat) (processedAt : string)
  : gmap string value :=
  list_to_map
    [ ("message_type", VString "usage_statistics");
      ("completion_tokens", VInt 0);
      ("prompt_tokens", VInt 0);
      ("total_tokens", VInt 0);
      ("step_count", VInt (Z.of_nat stepCount));
      ("steps_messages", VNil);
      ("run_ids", VNil);
      ("agent_id", VString "");
      ("processed_at", VString processedAt);
      ("status", VString "done");
      ("model_names", VStrings []) ].

(** The type switch on [messagesData]: a slice is taken as it is, any
    other value that is not [nil] is a single message, and for [nil]
    (which no [case] of a type switch matches) the [default] branch
    returns the empty [transformedMessages]. *)
Definition transformGoogleAgentMessages (messagesData : value)
  : M (list value) :=
  match messagesData with
  | VNil => mret []
  | _ =>
      let messagesList :=
        match messagesData with
        | VSlice v => v
        | v => [v]
        end in
      transformedMessages ← transformLoop messagesList [];
      now ← call Ev.TimeNow time_Now_RFC3339;
      mret (transformedMessages ++
              [VMap (usageStats (length transformedMessages) now)])
  end.

(** ** [applyWhatsAppFormattingToMessages] (lines 550-580)

    The messages are maps the transformation has just built, each one its
    own object, so that writing [msgMap["content"]] changes the one
    element [messages[i]]. *)
Definition formatMessage (messageFormatter : MessageFormatterInterface)
    (msgInterface : value) : M value :=
  match assertMap msgInterface with
  | Some msgMap =>
      match assertString (mapIndex msgMap "content") with
      | Some content =>
          if String.eqb content "" then mret msgInterface
          else
            let tempResponse :=
              {| models.Content := content;
                 models.MessageID := "temp";
                 models.ThreadID := "temp" |} in
            r ← call (Ev.FormatForWhatsApp tempResponse)
                  (fun h => FormatForWhatsApp messageFormatter h tempResponse);
            let formattedContent :=
              match r with
              | Ok formattedContent => formattedContent
              | Err _ => content
              end in
            mret (VMap (<["content" := VString formattedContent]> msgMap))
      | None => mret msgInterface
      end
  | None => mret msgInterface
  end.

Fixpoint formatLoop (messageFormatter : MessageFormatterInterface)
    (messages : list value) : M (list value) :=
  match messages with
  | [] => mret []
  | msgInterface :: rest =>
      m ← formatMessage messageFormatter msgInterface;
      rest' ← formatLoop messageFormatter rest;
      mret (m :: rest')
  end.

Definition applyWhatsAppFormattingToMessages
    (messageFormatter : option MessageFormatterInterface)
    (messages : list value) : M (list value) :=
  match messageFormatter with
  | None => mret messages
  | Some f => formatLoop f messages
  end.

(** ** [processUserMessage] (lines 188-351) *)

Definition fallbackMessage : string := "Ajuda".
Definition noRecognizableAudio : string := "Áudio sem conteúdo reconhecível".

(** The audio block (lines 212-240): the text sent on, and
    [transcriptText]. *)
Definition resolveAudio (deps : MessageHandlerDependencies)
    (message : string) : M (string * option string) :=
  if isAudioURL message then
    match TranscribeService deps with
    | None => mret (fallbackMessage, None)
    | Some transcribeService =>
        r ← call (Ev.TranscribeAudio message)
              (fun h => TranscribeAudio transcribeService h message);
        match r with
        | Err _ => mret (fallbackMessage, None)
        | Ok transcript =>
            if negb (String.eqb transcript "")
               && negb (String.eqb (GoStrings.TrimSpace transcript) "")
               && negb (String.eqb transcript noRecognizableAudio)
            then mret (transcript, Some transcript)
            else mret (fallbackMessage, None)
        end
    end
  else mret (message, None).

(** The cleaning of the engine's payload (lines 271-273). *)
Definition cleanResponse (content : string) : string :=
  GoStrings.TrimSpace
    (GoStrings.removeByte "013" (GoStrings.removeByte "010" content)).

(** How [encoding/json] names the kind of a JSON value in its errors. *)
Definition jsonKind (v : value) : string :=
  match v with
  | VNil => "null"
  | VBool _ => "bool"
  | VFloat64 _ | VInt _ => "number"
  | VString _ => "string"
  | VSlice _ | VStrings _ => "array"
  | VMap _ => "object"
  end.

(** [json.Unmarshal(data, &m)] for a [nil] [m] of type
    [map[string]interface{}]: an object fills the map, [null] leaves it
    [nil] without an error, any other value is an error. *)
Definition json_Unmarshal_map (data : string) : result (gmap string value) :=
  match json_decode data with
  | Err err => Err err
  | Ok (VMap m) => Ok m
  | Ok VNil => Ok ∅
  | Ok v =>
      Err ("json: cannot unmarshal " +:+ jsonKind v +:+
           " into Go value of type map[string]interface {}")
  end.

(** The parsing of the engine's payload down to [outputMap]
    (lines 270-296). *)
Definition parseAgentResponse (content : string) : result (gmap string value) :=
  let cleanedResponse := cleanResponse content in
  match json_Unmarshal_map cleanedResponse with
  | Err err => Err ("failed to parse AI response JSON: " +:+ err)
  | Ok parsedResponse =>
      match parsedResponse !! "output" with
      | None =>
          Err "invalid Google Agent Engine response format - missing 'output' field"
      | Some output =>
          match assertMap output with
          | None =>
              Err "invalid Google Agent Engine response format - 'output' is not an object"
          | Some outputMap => Ok outputMap
          end
      end
  end.

(** The writing of [agent_id] into the last message (lines 311-318); the
    last message is changed in place. *)
Definition stampAgentID (agentID : string) (transformedMessages : list value)
  : list value :=
  match last transformedMessages with
  | Some lastValue =>
      match assertMap lastValue with
      | Some lastMsg =>
          match lastMsg !! "message_type" with
          | Some msgType =>
              if valueIsString msgType "usage_statistics"
              then <[(length transformedMessages - 1)%nat :=
                       VMap (<["agent_id" := VString agentID]> lastMsg)]>
                     transformedMessages
              else transformedMessages
          | None => transformedMessages
          end
      | None => transformedMessages
      end
  | None => transformedMessages
  end.

(** From [outputMap] to the value [processedData] (lines 298-329): the
    messages are transformed, or there are none without a [messages]
    field; [agent_id] is written; the contents are formatted. *)
Definition buildProcessedData (msg : models.QueueMessage)
    (deps : MessageHandlerDependencies) (outputMap : gmap string value)
  : M models.ProcessedMessageData :=
  transformedMessages ←
    match outputMap !! "messages" with
    | Some messagesArray => transformGoogleAgentMessages messagesArray
    | None => mret []
    end;
  let agentID := "user_" +:+ models.UserNumber msg in
  let transformedMessages := stampAgentID agentID transformedMessages in
  transformedMessages ←
    applyWhatsAppFormattingToMessages (MessageFormatter deps)
      transformedMessages;
  mret {| models.Messages := transformedMessages;
          models.AgentID := agentID;
          models.ProcessedAt := models.ID msg;
          models.Status := "done" |}.

(** The validation of the content (lines 243-248). *)
Definition validateContent (deps : MessageHandlerDependencies)
    (message : string) : M (result unit) :=
  match MessageFormatter deps with
  | Some formatter =>
      e ← call (Ev.ValidateMessageContent message)
            (fun h => ValidateMessageContent formatter h message);
      mret (match e with
            | Some err => Err ("invalid message content: " +:+ err)
            | None => Ok tt
            end)
  | None => mret (Ok tt)
  end.

(** [processUserMessage] up to the value [processedData]
    (lines 188-329). *)
Definition processUserMessageData (msg : models.QueueMessage)
    (deps : MessageHandlerDependencies) : M (result models.ProcessedMessageData) :=
  if negb (String.eqb (models.Provider msg) "google_agent_engine") then
    mret (Err ("unsupported provider: " +:+ models.Provider msg +:+
               " (currently only 'google_agent_engine' is supported)"))
  else
    match GoogleAgentService deps with
    | None =>
        mret (Err "google Agent Engine service is required but not available")
    | Some engine =>
        resolved ← resolveAudio deps (models.Message msg);
        let message := resolved.1 in
        _ ←? validateContent deps message;
        threadID ←?
          (r ← call (Ev.GetOrCreateThread (models.UserNumber msg))
                 (fun h => services.GetOrCreateThread engine h
                             (models.UserNumber msg));
           mret (match r with
                 | Err err => Err ("failed to get thread: " +:+ err)
                 | Ok threadID => Ok threadID
                 end));
        agentResponse ←?
          (r ← call (Ev.SendMessage threadID message)
                 (fun h => services.SendMessage engine h threadID message);
           mret (match r with
                 | Err err => Err ("failed to get AI response: " +:+ err)
                 | Ok agentResponse => Ok agentResponse
                 end));
        outputMap ←? mret (parseAgentResponse (models.Content agentResponse));
        processedData ← buildProcessedData msg deps outputMap;
        mret (Ok processedData)
    end.

(** [processUserMessage]: the value above, serialized (lines 331-350). *)
Definition processUserMessage (msg : models.QueueMessage)
    (deps : MessageHandlerDependencies) : M (string * option error) :=
  r ← processUserMessageData msg deps;
  match r with
  | Err err => mret (EmptyString, Some err)
  | Ok processedData =>
      match json_Marshal processedData with
      | Err err =>
          mret (EmptyString,
                Some ("failed to marshal processed response: " +:+ err))
      | Ok processedBytes => mret (processedBytes, None)
      end
  end.

(** ** [CreateUserMessageHandler] (lines 95-174) *)

(** The closure handed to [WrapWorkerTask] (lines 131-134): it assigns
    [response] and returns the error. *)
Definition processTask (queueMsg : models.QueueMessage)
    (deps : MessageHandlerDependencies) : middleware.Task :=
  fun _ =>
    r ← processUserMessage queueMsg deps;
    mret (r.2, r.1).

(** Lines 125-138: the error [err] and the variable [response] after the
    message has been processed, with or without the tracing wrapper. *)
Definition runProcessing (queueMsg : models.QueueMessage)
    (deps : MessageHandlerDependencies) : M (option error * string) :=
  match OTelWorkerWrapper deps with
  | Some wrapper =>
      middleware.WrapWorkerTask wrapper "user_message_worker"
        "process_user_message" (processTask queueMsg deps) EmptyString
  | None =>
      r ← processUserMessage queueMsg deps;
      mret (r.2, r.1)
  end.

Definition CreateUserMessageHandler (deps : MessageHandlerDependencies)
    (delivery : amqp.Delivery) : M (option error) :=
  match json_Unmarshal_QueueMessage (amqp.Body delivery) with
  | Err err => mret (Some err)
  | Ok queueMsg =>
      let redis := RedisService deps in
      let statusTTL := config.TaskStatusTTL (Config deps) in
      let id := models.ID queueMsg in
      _ ← call (Ev.SetTaskStatus id models.TaskStatusProcessing statusTTL)
            (fun h => services.SetTaskStatus redis h id
                        models.TaskStatusProcessing statusTTL);
      processed ← runProcessing queueMsg deps;
      match processed.1 with
      | Some err =>
          let errorKey := "task:error:" +:+ id in
          _ ← call (Ev.Set_ errorKey err statusTTL)
                (fun h => services.Set_ redis h errorKey err statusTTL);
          _ ← call (Ev.SetTaskStatus id models.TaskStatusFailed statusTTL)
                (fun h => services.SetTaskStatus redis h id
                            models.TaskStatusFailed statusTTL);
          mret None
      | None =>
          let response := processed.2 in
          let resultTTL := config.TaskResultTTL (Config deps) in
          _ ← call (Ev.SetTaskResult id response resultTTL)
                (fun h => services.SetTaskResult redis h id response resultTTL);
          _ ← call (Ev.SetTaskStatus id models.TaskStatusCompleted statusTTL)
                (fun h => services.SetTaskStatus redis h id
                            models.TaskStatusCompleted statusTTL);
          mret None
      end
  end.

End Worker.

(** The events of a history that write to the store, call the engine or
    call the formatter. *)
Definition isResultWrite (e : Ev.Event) : bool :=
  match e with Ev.SetTaskResult _ _ _ => true | _ => false end.

Definition isEngineCall (e : Ev.Event) : bool :=
  match e with
  | Ev.GetOrCreateThread _ | Ev.SendMessage _ _ => true
  | _ => false
  end.

(* ===================================================================== *)
(** * Part 4. Notions of the specification and fixtures                    *)
(* ===================================================================== *)

(** The text ends with [ext] up to the case of the ASCII letters. *)
Definition EndsWithFold (text ext : string) : Prop :=
  exists p x, text = p +:+ x /\ GoStrings.ToLower x = GoStrings.ToLower ext.

(** Two texts of the same length that differ, byte for byte, in nothing but
    the case of ASCII letters: every byte other than an ASCII letter is the
    same in both. *)
Fixpoint sameAsciiCase (a b : string) : bool :=
  match a, b with
  | EmptyString, EmptyString => true
  | String c a', String d b' =>
      Ascii.eqb (GoStrings.lowerByte c) (GoStrings.lowerByte d) &&
      sameAsciiCase a' b'
  | _, _ => false
  end.

(** The text is an audio reference: it ends, case-insensitively, with one of
    the seven extensions. *)
Definition IsAudioReference (text : string) : Prop :=
  exists ext,
    In ext [".mp3"; ".wav"; ".m4a"; ".aac"; ".ogg"; ".flac"; ".wma"] /\
    EndsWithFold text ext.

(** The transcript gives nothing to send on: it is empty, made of white
    space only, or the sentence that reports audio without recognizable
    content. *)
Definition UselessTranscript (transcript : string) : Prop :=
  transcript = "" \/ GoStrings.WhitespaceOnly transcript \/
  transcript = "Áudio sem conteúdo reconhecível".

(** [Emits P m]: a run of [m] keeps the history it starts from and appends
    events that satisfy [P] only. *)
Definition Emits {A : Type} (P : Ev.Event -> Prop) (m : M A) : Prop :=
  forall h, exists evs, (m h).2 = h ++ evs /\ Forall P evs.

Definition isRandRead (e : Ev.Event) : Prop :=
  match e with Ev.RandRead _ => True | _ => False end.

Definition isClock (e : Ev.Event) : Prop :=
  match e with Ev.RandRead _ | Ev.TimeNow => True | _ => False end.

Definition isFormat (e : Ev.Event) : Prop :=
  match e with Ev.FormatForWhatsApp _ => True | _ => False end.

(** The ways a run of [processUserMessageData] can go, from the first
    failing step to the complete run: the result and the history at the
    end, for a message, the dependencies and the history at the start. *)
Section Outcomes.

Context {rt : GoRuntime}.
Variable msg : models.QueueMessage.
Variable deps : MessageHandlerDependencies.
Variable h : History.

(** The text the audio block gives, and the history after it. *)
Definition effectiveMessage : string :=
  (resolveAudio deps (models.Message msg) h).1.1.
Definition afterAudio : History :=
  (resolveAudio deps (models.Message msg) h).2.

Inductive Outcome : result models.ProcessedMessageData -> History -> Prop :=
| stop_provider :
    models.Provider msg <> "google_agent_engine" ->
    Outcome
      (Err ("unsupported provider: " +:+ models.Provider msg +:+
            " (currently only 'google_agent_engine' is supported)")) h
| stop_no_engine :
    models.Provider msg = "google_agent_engine" ->
    GoogleAgentService deps = None ->
    Outcome
      (Err "google Agent Engine service is required but not available") h
| stop_invalid engine err h2 :
    models.Provider msg = "google_agent_engine" ->
    GoogleAgentService deps = Some engine ->
    validateContent deps effectiveMessage afterAudio = (Err err, h2) ->
    Outcome (Err err) h2
| stop_thread engine err h2 :
    models.Provider msg = "google_agent_engine" ->
    GoogleAgentService deps = Some engine ->
    validateContent deps effectiveMessage afterAudio = (Ok tt, h2) ->
    services.GetOrCreateThread engine h2 (models.UserNumber msg) = Err err ->
    Outcome (Err ("failed to get thread: " +:+ err))
      (h2 ++ [Ev.GetOrCreateThread (models.UserNumber msg)])
| stop_send engine threadID err h2 :
    models.Provider msg = "google_agent_engine" ->
    GoogleAgentService deps = Some engine ->
    validateContent deps effectiveMessage afterAudio = (Ok tt, h2) ->
    services.GetOrCreateThread engine h2 (models.UserNumber msg) = Ok threadID ->
    services.SendMessage engine
      (h2 ++ [Ev.GetOrCreateThread (models.UserNumber msg)])
      threadID effectiveMessage = Err err ->
    Outcome (Err ("failed to get AI response: " +:+ err))
      (h2 ++ [Ev.GetOrCreateThread (models.UserNumber msg);
              Ev.SendMessage threadID effectiveMessage])
| stop_parse engine threadID agentResponse err h2 :
    models.Provider msg = "google_agent_engine" ->
    GoogleAgentService deps = Some engine ->
    validateContent deps effectiveMessage afterAudio = (Ok tt, h2) ->
    services.GetOrCreateThread engine h2 (models.UserNumber msg) = Ok threadID ->
    services.SendMessage engine
      (h2 ++ [Ev.GetOrCreateThread (models.UserNumber msg)])
      threadID effectiveMessage = Ok agentResponse ->
    parseAgentResponse (models.Content agentResponse) = Err err ->
    Outcome (Err err)
      (h2 ++ [Ev.GetOrCreateThread (models.UserNumber msg);
              Ev.SendMessage threadID effectiveMessage])
| complete engine threadID agentResponse outputMap h2 :
    models.Provider msg = "google_agent_engine" ->
    GoogleAgentService deps = Some engine ->
    validateContent deps effectiveMessage afterAudio = (Ok tt, h2) ->
    services.GetOrCreateThread engine h2 (models.UserNumber msg) = Ok threadID ->
    services.SendMessage engine
      (h2 ++ [Ev.GetOrCreateThread (models.UserNumber msg)])
      threadID effectiveMessage = Ok agentResponse ->
    parseAgentResponse (models.Content agentResponse) = Ok outputMap ->
    let run :=
      buildProcessedData msg deps outputMap
        (h2 ++ [Ev.GetOrCreateThread (models.UserNumber msg);
                Ev.SendMessage threadID effectiveMessage]) in
    Outcome (Ok run.1) run.2.

End Outcomes.

(** The events of a run of [processUserMessageData] that sends [text] to
    the engine: no write to the store, and no other text sent. *)
Definition processingEvent (text : string) (e : Ev.Event) : Prop :=
  match e with
  | Ev.SendMessage _ message => message = text
  | Ev.SetTaskStatus _ _ _ | Ev.Set_ _ _ _ | Ev.SetTaskResult _ _ _ => False
  | _ => True
  end.

(** The tracing wrapper, if there is one, only observes. *)
Definition wrapperObserves (deps : MessageHandlerDependencies) : Prop :=
  match OTelWorkerWrapper deps with
  | Some wrapper => middleware.Transparent wrapper
  | None => True
  end.

(** ** Fixtures: a small world to run the worker in *)
Module Demo.

Definition human : gmap string value :=
  list_to_map [("type", VString "human"); ("id", VString "m-1");
               ("content", VString "hello")].

Definition ai : gmap string value :=
  list_to_map [("type", VString "ai"); ("id", VString "m-2");
               ("content", VString "hi there")].

(** The payload [A] holds two messages, [B] an [output] without
    [messages], [C] is an array; any other payload is no JSON text. *)
Definition decode (data : string) : result value :=
  if String.eqb data "A" then
    Ok (VMap (list_to_map
                [("output",
                  VMap (list_to_map
                          [("messages", VSlice [VMap human; VMap ai])]))]))
  else if String.eqb data "B" then
    Ok (VMap (list_to_map [("output", VMap ∅)]))
  else if String.eqb data "C" then Ok (VSlice [])
  else Err "invalid character 'o' looking for beginning of value".

(** A delivery body is read as the text of a message for the supported
    provider, the body [other] as a message for another provider, and the
    empty body is malformed. *)
Definition unmarshal (body : string) : result models.QueueMessage :=
  if String.eqb body "" then Err "unexpected end of JSON input"
  else
    Ok {| models.ID := "task-1";
          models.UserNumber := "5521";
          models.Message := body;
          models.PreviousMessage := None;
          models.Provider :=
            if String.eqb body "other" then "other_engine"
            else "google_agent_engine";
          models.Type_ := "user_message" |}.

Definition runtime : GoRuntime :=
  {| json_Unmarshal_QueueMessage := unmarshal;
     json_decode := decode;
     json_Marshal := fun processedData => Ok (models.AgentID processedData);
     rand_Read := fun h n => replicate n (ascii_of_nat (length h));
     time_Now_RFC3339 := fun _ => "2025-01-01T00:00:00Z" |}.

Definition redis : services.RedisService :=
  {| services.SetTaskStatus := fun _ _ _ _ => None;
     services.Set_ := fun _ _ _ _ => None;
     services.SetTaskResult := fun _ _ _ _ => None |}.

(** An engine that answers every message with the payload [payload]. *)
Definition engine (payload : string) : services.GoogleAgentEngineService :=
  {| services.GetOrCreateThread := fun _ userNumber => Ok ("thread-" +:+ userNumber);
     services.SendMessage := fun _ threadID _ =>
       Ok {| models.Content := payload;
             models.MessageID := "r-1";
             models.ThreadID := threadID |} |}.

Definition formatter : MessageFormatterInterface :=
  {| FormatForWhatsApp := fun _ response =>
       if String.eqb (models.Content response) "hello" then Err "no format"
       else Ok ("*" +:+ models.Content response +:+ "*");
     FormatErrorMessage := fun _ err => err;
     ValidateMessageContent := fun _ _ => None |}.

Definition transcriber (transcript : string) : TranscribeServiceInterface :=
  {| TranscribeAudio := fun _ _ => Ok transcript;
     IsAudioURL := isAudioURL;
     ValidateAudioURL := fun _ => None |}.

Definition deps (payload : string) : MessageHandlerDependencies :=
  {| Config := {| config.TaskStatusTTL := 3600; config.TaskResultTTL := 7200 |};
     RedisService := redis;
     GoogleAgentService := Some (engine payload);
     TranscribeService := Some (transcriber "oi");
     MessageFormatter := Some formatter;
     OTelWorkerWrapper := None |}.

Definition delivery (body : string) : amqp.Delivery :=
  {| amqp.DeliveryTag := 1; amqp.MessageId := "d-1"; amqp.Body := body |}.

Definition message (body : string) : models.QueueMessage :=
  match unmarshal body with
  | Ok queueMsg => queueMsg
  | Err _ =>
      {| models.ID := ""; models.UserNumber := ""; models.Message := "";
         models.PreviousMessage := None; models.Provider := "";
         models.Type_ := "" |}
  end.

(** A tool entry without a name, an assistant entry whose first tool call
    is a string, and an assistant entry with a proper tool call. *)
Definition toolWithoutName : gmap string value :=
  list_to_map [("type", VString "tool"); ("id", VString "m-3");
               ("content", VString "42"); ("tool_call_id", VString "call-1")].

Definition toolWithName : gmap string value :=
  <["name" := VString "calculator"]> toolWithoutName.

Definition aiWithStringCall : gmap string value :=
  list_to_map [("type", VString "ai"); ("id", VString "m-4");
               ("tool_calls", VSlice [VString "calculator"])].

Definition aiWithCall : gmap string value :=
  list_to_map
    [("type", VString "ai"); ("id", VString "m-5");
     ("tool_calls",
      VSlice [VMap (list_to_map
                      [("name", VString "calculator");
                       ("args", VMap (list_to_map [("x", VString "6*7")]));
                       ("id", VString "call-1")])])].

(** An assistant entry with usage metadata as [encoding/json] decodes it
    from [{"input_tokens": 10, "output_tokens": 5, "total_tokens": 15,
    "output_token_details": {"reasoning": 3},
    "input_token_details": {"cache_read": 2}}]: every number is a
    [float64]. *)
Definition number (n : Z) : value := VFloat64 (float64_of_int n).

Definition usageMetadata : gmap string value :=
  list_to_map
    [("input_tokens", number 10);
     ("output_tokens", number 5);
     ("total_tokens", number 15);
     ("output_token_details", VMap (list_to_map [("reasoning", number 3)]));
     ("input_token_details", VMap (list_to_map [("cache_read", number 2)]))].

Definition aiWithUsage : gmap string value :=
  list_to_map
    [("type", VString "ai"); ("id", VString "m-6");
     ("content", VString "done");
     ("response_metadata",
      VMap (list_to_map [("usage_metadata", VMap usageMetadata)]))].

(** Dependencies whose transcription goes through an adapter without a
    service, and a formatter that fails on every call. *)
Definition depsWithAdapter : MessageHandlerDependencies :=
  {| Config := {| config.TaskStatusTTL := 3600; config.TaskResultTTL := 7200 |};
     RedisService := redis;
     GoogleAgentService := Some (engine "A");
     TranscribeService := Some (NewTranscribeServiceAdapter None);
     MessageFormatter := None;
     OTelWorkerWrapper := None |}.

Definition failingFormatter : MessageFormatterInterface :=
  {| FormatForWhatsApp := fun _ _ => Err "formatter is down";
     FormatErrorMessage := fun _ err => err;
     ValidateMessageContent := fun _ _ => None |}.

End Demo.

(** The three ways the cleaned payload of the engine is unfit: it is no
    structured object (no JSON text at all, or a JSON value that is not an
    object), it has no top-level [output] field, or its [output] field is
    not a structured object. *)
Section Payload.

Context {rt : GoRuntime}.

Definition NotAnObject (payload : string) : Prop :=
  forall parsed, json_decode payload <> Ok (VMap parsed).

Definition NoOutputField (payload : string) : Prop :=
  exists parsed,
    json_decode payload = Ok (VMap parsed) /\ parsed !! "output" = None.

Definition OutputNotAnObject (payload : string) : Prop :=
  exists parsed output,
    json_decode payload = Ok (VMap parsed) /\
    parsed !! "output" = Some output /\
    forall outputMap, output <> VMap outputMap.

(** The run of [processUserMessageData] from [h] gets a reply of the
    engine and fails to parse it, with the error [err] and the history [h']
    at the end. *)
Definition ParseFails (msg : models.QueueMessage)
    (deps : MessageHandlerDependencies) (h : History) (err : error)
    (h' : History) : Prop :=
  exists engine threadID agentResponse h2,
    models.Provider msg = "google_agent_engine" /\
    GoogleAgentService deps = Some engine /\
    validateContent deps (effectiveMessage msg deps h) (afterAudio msg deps h)
      = (Ok tt, h2) /\
    services.GetOrCreateThread engine h2 (models.UserNumber msg) = Ok threadID /\
    services.SendMessage engine
      (h2 ++ [Ev.GetOrCreateThread (models.UserNumber msg)])
      threadID (effectiveMessage msg deps h) = Ok agentResponse /\
    parseAgentResponse (models.Content agentResponse) = Err err /\
    h' = h2 ++ [Ev.GetOrCreateThread (models.UserNumber msg);
                Ev.SendMessage threadID (effectiveMessage msg deps h)].

End Payload.

(** The bytes that are neither a line feed nor a carriage return. *)
Definition notLineBreak (c : ascii) : bool :=
  negb (Ascii.eqb c "010") && negb (Ascii.eqb c "013").

(** ** The entries of the engine's [messages] value *)

(** The value as a sequence: a sequence as it is, a single value as a
    sequence of one, [null] as no entry. *)
Definition messagesList (messagesData : value) : list value :=
  match messagesData with
  | VSlice v => v
  | VNil => []
  | v => [v]
  end.

(** The object entries, in their order. *)
Definition objectEntries (messagesData : value) : list (gmap string value) :=
  omap assertMap (messagesList messagesData).

(** The role tag of an entry: its field [type], when that is a string. *)
Definition roleTag (entry : gmap string value) : option string :=
  match entry !! "type" with
  | Some (VString tag) => Some tag
  | _ => None
  end.

(** The tool-call list of an entry, when the entry carries one that is not
    empty. *)
Definition toolCallList (entry : gmap string value) : option (list value) :=
  match entry !! "tool_calls" with
  | Some (VSlice (first :: rest)) => Some (first :: rest)
  | _ => None
  end.

(** The field [k] of a value: of an object its entry for [k], or [null]
    without one; a value that is no object has no field. *)
Definition fieldOf (v : value) (k : string) : option value :=
  match v with
  | VMap m => Some (mapIndex m k)
  | _ => None
  end.

(** A message of the client schema is a usage-statistics record. *)
Definition isUsageStatistics (v : value) : Prop :=
  exists m, v = VMap m /\ m !! "message_type" = Some (VString "usage_statistics").

(** The fields of a tool-return message: [tool_return] is the content of
    the entry, [status] is ["success"], [tool_call_id] is that of the entry,
    [stdout] and [stderr] are [null]. *)
Definition toolReturnFields (entry message : gmap string value) : Prop :=
  message !! "tool_return" = Some (mapIndex entry "content") /\
  message !! "status" = Some (VString "success") /\
  message !! "tool_call_id" = Some (mapIndex entry "tool_call_id") /\
  message !! "stdout" = Some VNil /\
  message !! "stderr" = Some VNil.

(** None of the fields of a tool-return message is there. *)
Definition noToolReturnFields (message : gmap string value) : Prop :=
  message !! "tool_return" = None /\
  message !! "status" = None /\
  message !! "tool_call_id" = None /\
  message !! "stdout" = None /\
  message !! "stderr" = None.

(** The field [tool_call] of a message describes the tool call [toolCall]:
    its [name], [arguments] and [tool_call_id] are the [name], [args] and
    [id] of the tool call. *)
Definition toolCallFields (toolCall message : gmap string value) : Prop :=
  exists tc,
    message !! "tool_call" = Some (VMap tc) /\
    tc !! "name" = Some (mapIndex toolCall "name") /\
    tc !! "arguments" = Some (mapIndex toolCall "args") /\
    tc !! "tool_call_id" = Some (mapIndex toolCall "id").

(** The role tag is none of the three the transformation knows. *)
Definition unrecognizedRole (entry : gmap string value) : Prop :=
  exists tag, roleTag entry = Some tag /\
              tag <> "human" /\ tag <> "ai" /\ tag <> "tool".

(** ** The formatting pass *)

(** The content of a message, when the message is an object whose field
    [content] is a string that is not empty. *)
Definition nonEmptyContent (v : value) : option (gmap string value * string) :=
  match v with
  | VMap m =>
      match m !! "content" with
      | Some (VString content) =>
          if String.eqb content "" then None else Some (m, content)
      | _ => None
      end
  | _ => None
  end.

(** The request made to the formatter for a content. *)
Definition formatRequest (content : string) : models.AgentResponse :=
  {| models.Content := content;
     models.MessageID := "temp";
     models.ThreadID := "temp" |}.

(** The calls to the formatter for a sequence of messages: one for each
    message with a content that is a string and not empty, in order. *)
Definition formatCalls (messages : list value) : list Ev.Event :=
  omap (fun v =>
          match nonEmptyContent v with
          | Some (_, content) => Some (Ev.FormatForWhatsApp (formatRequest content))
          | None => None
          end) messages.

(** Two messages that differ in the field [content] at most. *)
Definition sameButContent (v v' : value) : Prop :=
  v' = v \/
  exists m m', v = VMap m /\ v' = VMap m' /\
               forall k, k <> "content" -> m' !! k = m !! k.

(** ** The usage-statistics record *)

(** The record that counts [stepCount] messages and names the agent
    [agentID]: the token counters are zero, the status is ["done"], the list
    of model names is empty. *)
Definition usageRecord (stepCount : nat) (agentID : string)
    (record : gmap string value) : Prop :=
  record !! "message_type" = Some (VString "usage_statistics") /\
  record !! "step_count" = Some (VInt (Z.of_nat stepCount)) /\
  record !! "completion_tokens" = Some (VInt 0) /\
  record !! "prompt_tokens" = Some (VInt 0) /\
  record !! "total_tokens" = Some (VInt 0) /\
  record !! "status" = Some (VString "done") /\
  record !! "model_names" = Some (VStrings []) /\
  record !! "agent_id" = Some (VString agentID).

(** The values [encoding/json] decodes into an [interface{}]: [nil],
    [bool], [float64], [string], and sequences and objects of such values;
    never an [int]. *)
Inductive decoded : value -> Prop :=
| decoded_nil : decoded VNil
| decoded_bool b : decoded (VBool b)
| decoded_float f : decoded (VFloat64 f)
| decoded_string s : decoded (VString s)
| decoded_slice l : Forall decoded l -> decoded (VSlice l)
| decoded_map m :
    (forall k v, m !! k = Some v -> decoded v) -> decoded (VMap m).

(** The usage map of an entry: [response_metadata.usage_metadata], when
    both are objects. *)
Definition usageMapOf (entry : gmap string value) : option (gmap string value) :=
  match entry !! "response_metadata" with
  | Some (VMap responseMetadata) =>
      match responseMetadata !! "usage_metadata" with
      | Some (VMap usageMap) => Some usageMap
      | _ => None
      end
  | _ => None
  end.

(** What holds of the value [processedData] of a message processed with
    success from the history [h].  The reply is the one of this run: the
    provider is the engine's, the content check on the effective text
    passed and left the history [h2], the engine of [deps] gave the thread
    [threadID] for the user number at [h2], and asked next, on that thread
    and with the effective text, it gave the reply [agentResponse], whose
    payload parsed into [outputMap].  Each of the five is fixed by the
    equation that introduces it.  The final sequence of messages is empty
    when [outputMap] has no field [messages] or a [null] one, and is
    otherwise one message for each object entry, none of them a
    usage-statistics record, followed by the usage-statistics record that
    counts them. *)
Definition UsageRecordLast {rt : GoRuntime} (msg : models.QueueMessage)
    (deps : MessageHandlerDependencies) (h : History)
    (processedData : models.ProcessedMessageData) : Prop :=
  exists engine threadID agentResponse outputMap h2,
    models.Provider msg = "google_agent_engine" /\
    GoogleAgentService deps = Some engine /\
    validateContent deps (effectiveMessage msg deps h)
      (afterAudio msg deps h) = (Ok tt, h2) /\
    services.GetOrCreateThread engine h2 (models.UserNumber msg) =
      Ok threadID /\
    services.SendMessage engine
      (h2 ++ [Ev.GetOrCreateThread (models.UserNumber msg)])
      threadID (effectiveMessage msg deps h) = Ok agentResponse /\
    parseAgentResponse (models.Content agentResponse) = Ok outputMap /\
    match outputMap !! "messages" with
    | None | Some VNil => models.Messages processedData = []
    | Some messagesData =>
        exists messages record,
          models.Messages processedData = messages ++ [VMap record] /\
          length messages = length (objectEntries messagesData) /\
          Forall (fun m => ~ isUsageStatistics m) messages /\
          usageRecord (length messages)
            ("user_" +:+ models.UserNumber msg) record
    end.

(** ** Step identifiers *)

(** A lower-case hexadecimal digit. *)
Definition isLowerHex (c : ascii) : bool :=
  let n := N_of_ascii c in
  ((48 <=? n) && (n <=? 57) || (97 <=? n) && (n <=? 102))%N.

(** A group of [n] lower-case hexadecimal digits. *)
Definition hexGroup (n : nat) (s : string) : Prop :=
  GoStrings.len s = n /\ forallb isLowerHex (list_ascii_of_string s) = true.

(** Five groups of 8, 4, 4, 4 and 12 digits, joined by dashes. *)
Definition StepIDShape (id : string) : Prop :=
  exists g1 g2 g3 g4 g5,
    id = g1 +:+ "-" +:+ g2 +:+ "-" +:+ g3 +:+ "-" +:+ g4 +:+ "-" +:+ g5 /\
    hexGroup 8 g1 /\ hexGroup 4 g2 /\ hexGroup 4 g3 /\ hexGroup 4 g4 /\
    hexGroup 12 g5.

(** ** Kinds of events *)

(** A write to the store. *)
Definition isStoreWrite (e : Ev.Event) : bool :=
  match e with
  | Ev.SetTaskStatus _ _ _ | Ev.Set_ _ _ _ | Ev.SetTaskResult _ _ _ => true
  | _ => false
  end.

(** The events of the transformation and of the formatting pass. *)
Definition isTailEvent (e : Ev.Event) : bool :=
  match e with
  | Ev.RandRead _ | Ev.TimeNow | Ev.FormatForWhatsApp _ => true
  | _ => false
  end.

(** The [message_type] of a message of the client schema, when it has
    one. *)
Definition messageTypeOf (v : value) : option string :=
  match v with
  | VMap m =>
      match m !! "message_type" with
      | Some (VString t) => Some t
      | _ => None
      end
  | _ => None
  end.

(** ** The client schema *)

(** The five fields the engine does not provide are there and [null]. *)
Definition placeholdersNull (message : gmap string value) : Prop :=
  message !! "date" = Some VNil /\
  message !! "session_id" = Some VNil /\
  message !! "time_since_last_message" = Some VNil /\
  message !! "sender_id" = Some VNil /\
  message !! "is_err" = Some VNil.

(** The kind of a message and its fields agree: the [message_type] is one
    of the five kinds, a field [tool_call] is found in a
    [tool_call_message] only, and the fields [tool_return], [tool_call_id],
    [stdout] and [stderr] in a [tool_return_message] only. *)
Definition wellKinded (message : gmap string value) : Prop :=
  exists kind,
    message !! "message_type" = Some (VString kind) /\
    In kind ["user_message"; "assistant_message"; "tool_call_message";
             "tool_return_message"; "usage_statistics"] /\
    (is_Some (message !! "tool_call") -> kind = "tool_call_message") /\
    (is_Some (message !! "tool_return") \/ is_Some (message !! "tool_call_id") \/
     is_Some (message !! "stdout") \/ is_Some (message !! "stderr") ->
     kind = "tool_return_message").

(** ** The projected usage metadata *)

(** A count of the usage metadata as it is projected: a Go [int] becomes a
    [float64], any other value is kept, a missing one is [null]. *)
Definition projectedCount (v : option value) : value :=
  match v with
  | Some (VInt n) => VFloat64 (float64_of_int n)
  | Some v => v
  | None => VNil
  end.

(** A nested counter as it is projected: emitted when [details] is an
    object whose field [k] is a Go [int]. *)
Definition projectedNested (details : option value) (k : string) : option value :=
  match details with
  | Some (VMap d) =>
      match d !! k with
      | Some (VInt n) => Some (VFloat64 (float64_of_int n))
      | _ => None
      end
  | _ => None
  end.

(** ** The errors of the processing *)

(** Where an error of [processUserMessageData] comes from, for the user
    number [userNumber] and the effective text [text]: the text of the error
    [err] and the events [evs] of the run up to it.  The provider and the
    missing engine are found before any call; a refused content before any
    call to the engine; a failure of [GetOrCreateThread] before any
    [SendMessage]; a failure of [SendMessage] or of the parsing of its reply
    with [SendMessage] as the last call. *)
Definition ErrorOrigin (provider userNumber text : string) (err : error)
    (evs : list Ev.Event) : Prop :=
  (err = "unsupported provider: " +:+ provider +:+
         " (currently only 'google_agent_engine' is supported)" /\ evs = []) \/
  (err = "google Agent Engine service is required but not available" /\
   evs = []) \/
  (exists cause, err = "invalid message content: " +:+ cause /\
                 Forall (fun e => isEngineCall e = false) evs) \/
  (exists cause before,
      err = "failed to get thread: " +:+ cause /\
      evs = before ++ [Ev.GetOrCreateThread userNumber] /\
      Forall (fun e => isEngineCall e = false) before) \/
  (exists cause threadID before,
      (err = "failed to get AI response: " +:+ cause \/
       err = "failed to parse AI response JSON: " +:+ cause \/
       err = "invalid Google Agent Engine response format - missing 'output' field" \/
       err = "invalid Google Agent Engine response format - 'output' is not an object") /\
      evs = before ++ [Ev.GetOrCreateThread userNumber;
                       Ev.SendMessage threadID text] /\
      Forall (fun e => isEngineCall e = false) before).

(** The run of a computation, unfolded. *)
Ltac run :=
  unfold try, mbind, M_bind, mret, M_ret, call in *; cbn [fst snd] in *.

(* ===================================================================== *)
(** * Part 5. Properties of the string functions                           *)
(* ===================================================================== *)

Module GoStringsFacts.
Import GoStrings.

#[local] Arguments String.append !s1 s2 : simpl nomatch.

Lemma append_nil_r (s : string) : s +:+ "" = s.
Proof. induction s as [|c s IH]; [reflexivity|]. cbn. by rewrite IH. Qed.

Lemma append_assoc (a b c : string) : (a +:+ b) +:+ c = a +:+ (b +:+ c).
Proof. induction a as [|x a IH]; [reflexivity|]. cbn. by rewrite IH. Qed.

Lemma len_append (a b : string) : len (a +:+ b) = len a + len b.
Proof. induction a as [|x a IH]; [reflexivity|]. cbn. unfold len in IH. by rewrite IH. Qed.

Lemma append_inv_head (a b c : string) : a +:+ b = a +:+ c -> b = c.
Proof. induction a as [|x a IH]; cbn; [done|]. intros [= E]. auto. Qed.

Lemma keep_skip (n : nat) (s : string) : keep n s +:+ skip n s = s.
Proof.
  revert s. induction n as [|n IH]; intros [|c s]; cbn; try reflexivity.
  by rewrite IH.
Qed.

Lemma skip_app (p s : string) : skip (len p) (p +:+ s) = s.
Proof. induction p as [|c p IH]; cbn; [reflexivity | exact IH]. Qed.

Lemma keep_app (p s : string) : keep (len p) (p +:+ s) = p.
Proof. induction p as [|c p IH]; cbn; [by destruct s | f_equal; exact IH]. Qed.

(** [HasSuffix] holds exactly of the strings that end with the suffix. *)
Lemma HasSuffix_spec (s suffix : string) :
  HasSuffix s suffix = true <-> exists p, s = p +:+ suffix.
Proof.
  unfold HasSuffix. rewrite andb_true_iff, Nat.leb_le, String.eqb_eq. split.
  - intros [_ E]. exists (keep (len s - len suffix) s).
    pose proof (keep_skip (len s - len suffix) s) as K.
    rewrite E in K. by symmetry.
  - intros [p ->]. rewrite len_append. split; [lia|].
    replace (len p + len suffix - len suffix) with (len p) by lia.
    apply skip_app.
Qed.

Lemma HasPrefix_spec (s prefix : string) :
  HasPrefix s prefix = true <-> exists r, s = prefix +:+ r.
Proof.
  unfold HasPrefix. rewrite andb_true_iff, Nat.leb_le, String.eqb_eq. split.
  - intros [_ E]. exists (skip (len prefix) s).
    pose proof (keep_skip (len prefix) s) as K.
    rewrite E in K. by symmetry.
  - intros [r ->]. rewrite len_append. split; [lia|]. apply keep_app.
Qed.

Lemma stripPrefix_spec (t s r : string) :
  stripPrefix t s = Some r <-> s = t +:+ r.
Proof.
  revert s. induction t as [|a t IH]; intros s; cbn.
  - split; [by intros [= ->] | by intros ->].
  - destruct s as [|b s]; [split; discriminate|].
    destruct (Ascii.eqb_spec a b) as [->|Hne].
    + rewrite IH. split; [by intros -> | by intros [= ->]].
    + split; [discriminate | intros [= -> _]; done].
Qed.

Lemma stripSuffix_spec (t s r : string) :
  stripSuffix t s = Some r <-> s = r +:+ t.
Proof.
  unfold stripSuffix. destruct (HasSuffix s t) eqn:E.
  - apply HasSuffix_spec in E as [p ->]. rewrite len_append.
    replace (len p + len t - len t) with (len p) by lia.
    rewrite keep_app. split; [by intros [= ->]|].
    intros E. f_equal. revert r E. induction p as [|c p IH]; intros [|d r]; cbn.
    + done.
    + intros E. apply (f_equal len) in E. cbn in E. rewrite len_append in E.
      unfold len in *. lia.
    + intros E. apply (f_equal len) in E. cbn in E. rewrite len_append in E.
      unfold len in *. lia.
    + intros [= -> E]. f_equal. auto.
  - split; [discriminate|]. intros ->.
    assert (HasSuffix (r +:+ t) t = true) by (apply HasSuffix_spec; eauto).
    congruence.
Qed.

Lemma leadingSpace_Some (runes : list string) (s r : string) :
  leadingSpace runes s = Some r -> exists t, In t runes /\ s = t +:+ r.
Proof.
  induction runes as [|t ts IH]; cbn; [discriminate|].
  destruct (stripPrefix t s) as [r'|] eqn:E.
  - intros [= ->]. apply stripPrefix_spec in E. eauto.
  - intros Hl. destruct (IH Hl) as (t' & ? & ?). eauto.
Qed.

Lemma leadingSpace_None (runes : list string) (s : string) :
  leadingSpace runes s = None ->
  forall t r, In t runes -> s <> t +:+ r.
Proof.
  induction runes as [|t ts IH]; cbn; [tauto|].
  destruct (stripPrefix t s) as [r'|] eqn:E; [discriminate|].
  intros Hl t' r [<-|Hin] Hs.
  - apply stripPrefix_spec in Hs. congruence.
  - exact (IH Hl t' r Hin Hs).
Qed.

Lemma trailingSpace_Some (runes : list string) (s r : string) :
  trailingSpace runes s = Some r -> exists t, In t runes /\ s = r +:+ t.
Proof.
  induction runes as [|t ts IH]; cbn; [discriminate|].
  destruct (stripSuffix t s) as [r'|] eqn:E.
  - intros [= ->]. apply stripSuffix_spec in E. eauto.
  - intros Hl. destruct (IH Hl) as (t' & ? & ?). eauto.
Qed.

Lemma trailingSpace_None (runes : list string) (s : string) :
  trailingSpace runes s = None ->
  forall t r, In t runes -> s <> r +:+ t.
Proof.
  induction runes as [|t ts IH]; cbn; [tauto|].
  destruct (stripSuffix t s) as [r'|] eqn:E; [discriminate|].
  intros Hl t' r [<-|Hin] Hs.
  - apply stripSuffix_spec in Hs. congruence.
  - exact (IH Hl t' r Hin Hs).
Qed.

(** Every white-space rune takes at least one byte. *)
Lemma spaceRunes_nonempty (t : string) : In t spaceRunes -> 1 <= len t.
Proof.
  assert (Hall : forallb (fun t => 1 <=? len t) spaceRunes = true)
    by (vm_compute; reflexivity).
  rewrite forallb_forall in Hall. intros Hin.
  apply Nat.leb_le. exact (Hall t Hin).
Qed.

Lemma WhitespaceOnly_nil : WhitespaceOnly "".
Proof. exists []. split; [constructor | reflexivity]. Qed.

Lemma concat_app (l1 l2 : list string) :
  concat (l1 ++ l2) = concat l1 +:+ concat l2.
Proof.
  induction l1 as [|t l1 IH]; cbn; [reflexivity|].
  by rewrite IH, append_assoc.
Qed.

Lemma WhitespaceOnly_app (a b : string) :
  WhitespaceOnly a -> WhitespaceOnly b -> WhitespaceOnly (a +:+ b).
Proof.
  intros (la & Ha & ->) (lb & Hb & ->). exists (la ++ lb). split.
  - apply Forall_app; auto.
  - symmetry. apply concat_app.
Qed.

Lemma WhitespaceOnly_rune (t : string) : In t spaceRunes -> WhitespaceOnly t.
Proof.
  intros Hin. exists [t]. split; [constructor; [exact Hin | constructor]|].
  cbn. by rewrite append_nil_r.
Qed.

Lemma trimLeftLoop_S (n : nat) (s : string) :
  trimLeftLoop (S n) s =
  match leadingSpace spaceRunes s with
  | Some r => trimLeftLoop n r
  | None => s
  end.
Proof. reflexivity. Qed.

Lemma trimRightLoop_S (n : nat) (s : string) :
  trimRightLoop (S n) s =
  match trailingSpace spaceRunes s with
  | Some r => trimRightLoop n r
  | None => s
  end.
Proof. reflexivity. Qed.

(** The left trim removes a run of white space and stops in front of a
    rune that is none. *)
Lemma trimLeftLoop_spec (n : nat) (s : string) :
  len s <= n ->
  exists ws, WhitespaceOnly ws /\ s = ws +:+ trimLeftLoop n s /\
             leadingSpace spaceRunes (trimLeftLoop n s) = None.
Proof.
  revert s. induction n as [|n IH]; intros s Hn.
  - destruct s; [|cbn in Hn; lia]. exists "". split; [apply WhitespaceOnly_nil|].
    split; [reflexivity|]. cbn. vm_compute. reflexivity.
  - rewrite trimLeftLoop_S. destruct (leadingSpace spaceRunes s) as [r|] eqn:E.
    + destruct (leadingSpace_Some _ _ _ E) as (t & Hin & ->).
      pose proof (spaceRunes_nonempty t Hin) as Ht. rewrite len_append in Hn.
      destruct (IH r ltac:(lia)) as (ws & Hws & Hr & Hnone).
      exists (t +:+ ws). split; [|split].
      * apply WhitespaceOnly_app; [by apply WhitespaceOnly_rune | done].
      * rewrite append_assoc. by rewrite <- Hr.
      * done.
    + exists "". split; [apply WhitespaceOnly_nil|]. by split.
Qed.

Lemma trimRightLoop_spec (n : nat) (s : string) :
  len s <= n ->
  exists ws, WhitespaceOnly ws /\ s = trimRightLoop n s +:+ ws /\
             trailingSpace spaceRunes (trimRightLoop n s) = None.
Proof.
  revert s. induction n as [|n IH]; intros s Hn.
  - destruct s; [|cbn in Hn; lia]. exists "". split; [apply WhitespaceOnly_nil|].
    split; [reflexivity|]. cbn. vm_compute. reflexivity.
  - rewrite trimRightLoop_S. destruct (trailingSpace spaceRunes s) as [r|] eqn:E.
    + destruct (trailingSpace_Some _ _ _ E) as (t & Hin & ->).
      pose proof (spaceRunes_nonempty t Hin) as Ht. rewrite len_append in Hn.
      destruct (IH r ltac:(lia)) as (ws & Hws & Hr & Hnone).
      exists (ws +:+ t). split; [|split].
      * apply WhitespaceOnly_app; [done | by apply WhitespaceOnly_rune].
      * rewrite <- append_assoc. by rewrite <- Hr.
      * done.
    + exists "". split; [apply WhitespaceOnly_nil|]. by rewrite append_nil_r.
Qed.

Lemma append_comparable (t t' a b : string) :
  t +:+ a = t' +:+ b ->
  (exists c, t' = t +:+ c) \/ (exists c, t = t' +:+ c).
Proof.
  revert t'. induction t as [|x t IH]; intros t'.
  - left. by exists t'.
  - destruct t' as [|y t']; [right; by exists (String x t)|].
    cbn. intros [= -> E]. destruct (IH _ E) as [[c ->]|[c ->]].
    + left. by exists c.
    + right. by exists c.
Qed.

(** No white-space rune is the beginning of another one. *)
Lemma spaceRunes_prefix_free (t t' c : string) :
  In t spaceRunes -> In t' spaceRunes -> t' = t +:+ c -> t' = t.
Proof.
  assert (Hall : forallb (fun t => forallb (fun t' =>
                   match stripPrefix t t' with
                   | Some _ => String.eqb t' t
                   | None => true
                   end) spaceRunes) spaceRunes = true)
    by (vm_compute; reflexivity).
  rewrite forallb_forall in Hall. intros Ht Ht' E.
  specialize (Hall t Ht). rewrite forallb_forall in Hall.
  specialize (Hall t' Ht'). apply stripPrefix_spec in E. rewrite E in Hall.
  by apply String.eqb_eq.
Qed.

Lemma leadingSpace_rune (t r : string) :
  In t spaceRunes -> leadingSpace spaceRunes (t +:+ r) = Some r.
Proof.
  intros Ht. destruct (leadingSpace spaceRunes (t +:+ r)) as [r'|] eqn:E.
  - destruct (leadingSpace_Some _ _ _ E) as (t' & Ht' & E').
    assert (t' = t) as ->.
    { destruct (append_comparable _ _ _ _ E') as [[c Hc]|[c Hc]].
      - by apply (spaceRunes_prefix_free t t' c).
      - symmetry. by apply (spaceRunes_prefix_free t' t c). }
    apply append_inv_head in E'. by subst.
  - exfalso. exact (leadingSpace_None _ _ E t r Ht eq_refl).
Qed.

Lemma leadingSpace_empty : leadingSpace spaceRunes "" = None.
Proof. vm_compute. reflexivity. Qed.

Lemma trailingSpace_empty : trailingSpace spaceRunes "" = None.
Proof. vm_compute. reflexivity. Qed.

Lemma trimLeftLoop_empty (n : nat) : trimLeftLoop n "" = "".
Proof. destruct n; [reflexivity|]. by rewrite trimLeftLoop_S, leadingSpace_empty. Qed.

Lemma trimRightLoop_empty (n : nat) : trimRightLoop n "" = "".
Proof. destruct n; [reflexivity|]. by rewrite trimRightLoop_S, trailingSpace_empty. Qed.

Lemma trimLeftLoop_concat (l : list string) (n : nat) :
  Forall (fun t => In t spaceRunes) l -> len (concat l) <= n ->
  trimLeftLoop n (concat l) = "".
Proof.
  intros Hl. revert n. induction Hl as [|t l Ht Hl IH]; intros n Hn.
  - apply trimLeftLoop_empty.
  - cbn [concat] in *. rewrite len_append in Hn.
    pose proof (spaceRunes_nonempty t Ht).
    destruct n as [|n]; [lia|].
    rewrite trimLeftLoop_S, leadingSpace_rune by done. apply IH. lia.
Qed.

(** What [TrimSpace] gives: the text between a leading and a trailing run
    of white space, itself neither starting nor ending with a white-space
    rune. *)
Lemma TrimSpace_spec (s : string) :
  exists pre suf,
    WhitespaceOnly pre /\ WhitespaceOnly suf /\
    s = pre +:+ TrimSpace s +:+ suf /\
    leadingSpace spaceRunes (TrimSpace s) = None /\
    trailingSpace spaceRunes (TrimSpace s) = None.
Proof.
  unfold TrimSpace, TrimRightSpace, TrimLeftSpace.
  destruct (trimLeftLoop_spec (len s) s (le_n _)) as (pre & Hpre & Hs & Hlead).
  set (u := trimLeftLoop (len s) s) in *.
  destruct (trimRightLoop_spec (len u) u (le_n _)) as (suf & Hsuf & Hu & Htrail).
  set (v := trimRightLoop (len u) u) in *.
  exists pre, suf. repeat split; try done.
  - by rewrite <- Hu.
  - destruct (leadingSpace spaceRunes v) as [r|] eqn:E; [|done].
    destruct (leadingSpace_Some _ _ _ E) as (t & Ht & Hv).
    exfalso. apply (leadingSpace_None _ _ Hlead t (r +:+ suf) Ht).
    by rewrite Hu, Hv, append_assoc.
Qed.

(** [TrimSpace] gives the empty string exactly for the strings made of
    white space only. *)
Lemma TrimSpace_empty_iff (s : string) :
  TrimSpace s = "" <-> WhitespaceOnly s.
Proof.
  split.
  - intros E. destruct (TrimSpace_spec s) as (pre & suf & Hpre & Hsuf & Hs & _).
    rewrite E in Hs. rewrite Hs. by apply WhitespaceOnly_app.
  - intros (l & Hl & ->). unfold TrimSpace, TrimLeftSpace.
    rewrite trimLeftLoop_concat by done. reflexivity.
Qed.

Lemma ToLower_app (a b : string) :
  ToLower (a +:+ b) = ToLower a +:+ ToLower b.
Proof. induction a as [|x a IH]; [reflexivity|]. cbn. by rewrite IH. Qed.

Lemma ToLower_split (s q e : string) :
  ToLower s = q +:+ e ->
  exists p x, s = p +:+ x /\ ToLower p = q /\ ToLower x = e.
Proof.
  revert s. induction q as [|c q IH]; intros s E.
  - by exists "", s.
  - destruct s as [|d s]; [discriminate|]. cbn in E. injection E as Hc E.
    destruct (IH _ E) as (p & x & -> & <- & <-).
    exists (String d p), x. cbn. by rewrite Hc.
Qed.

(** The bytes of [removeByte old s] are those of [s] that differ from
    [old], in their order. *)
Lemma removeByte_spec (old : ascii) (s : string) :
  list_ascii_of_string (removeByte old s) =
  List.filter (fun c => negb (Ascii.eqb c old)) (list_ascii_of_string s).
Proof.
  induction s as [|c s IH]; [reflexivity|]. cbn.
  destruct (Ascii.eqb c old); cbn; by rewrite IH.
Qed.

End GoStringsFacts.

(* ===================================================================== *)
(** * Part 6. Histories                                                    *)
(* ===================================================================== *)

Section Histories.

Context {rt : GoRuntime}.

Lemma Emits_ret {A : Type} (P : Ev.Event -> Prop) (a : A) : Emits P (mret a).
Proof. intros h. exists []. split; [by rewrite app_nil_r | constructor]. Qed.

Lemma Emits_call {A : Type} (P : Ev.Event -> Prop) (ev : Ev.Event)
    (answer : History -> A) :
  P ev -> Emits P (call ev answer).
Proof. intros Hev h. exists [ev]. split; [reflexivity | by repeat constructor]. Qed.

Lemma Emits_bind {A B : Type} (P : Ev.Event -> Prop) (m : M A) (k : A -> M B) :
  Emits P m -> (forall a, Emits P (k a)) -> Emits P (x ← m; k x).
Proof.
  intros Hm Hk h. run. destruct (Hm h) as (e1 & E1 & F1).
  destruct (m h) as [a h1] eqn:Em. cbn in E1. subst h1.
  destruct (Hk a (h ++ e1)) as (e2 & E2 & F2).
  exists (e1 ++ e2). split; [by rewrite E2, app_assoc | by apply Forall_app].
Qed.

Lemma Emits_try {A B : Type} (P : Ev.Event -> Prop) (m : M (result A))
    (k : A -> M (result B)) :
  Emits P m -> (forall a, Emits P (k a)) -> Emits P (try m k).
Proof.
  intros Hm Hk. unfold try. apply Emits_bind; [done|].
  intros [a|e]; [apply Hk | apply Emits_ret].
Qed.

Lemma Emits_weaken {A : Type} (P Q : Ev.Event -> Prop) (m : M A) :
  (forall e, P e -> Q e) -> Emits P m -> Emits Q m.
Proof.
  intros HPQ Hm h. destruct (Hm h) as (evs & E & F). exists evs.
  split; [done|]. eapply Forall_impl; eauto.
Qed.

Lemma generateStepID_emits : Emits isRandRead generateStepID.
Proof.
  unfold generateStepID. apply Emits_bind; [by apply Emits_call|].
  intros b. apply Emits_ret.
Qed.

Lemma transformLoop_emits (messagesList acc : list value) :
  Emits isRandRead (transformLoop messagesList acc).
Proof.
  revert acc. induction messagesList as [|msgData rest IH]; intros acc; cbn.
  - apply Emits_ret.
  - destruct (assertMap msgData); [|apply IH].
    apply Emits_bind; [apply generateStepID_emits | intros id; apply IH].
Qed.

Lemma transformGoogleAgentMessages_emits (messagesData : value) :
  Emits isClock (transformGoogleAgentMessages messagesData).
Proof.
  assert (Hloop : forall l, Emits isClock
            (transformedMessages ← transformLoop l [];
             now ← call Ev.TimeNow time_Now_RFC3339;
             mret (transformedMessages ++
                     [VMap (usageStats (length transformedMessages) now)]))).
  { intros l. apply Emits_bind.
    - eapply Emits_weaken; [|apply transformLoop_emits]. by intros [].
    - intros t. apply Emits_bind; [by apply Emits_call|].
      intros now. apply Emits_ret. }
  destruct messagesData; try apply Hloop. apply Emits_ret.
Qed.

Lemma formatMessage_emits (f : MessageFormatterInterface) (v : value) :
  Emits isFormat (formatMessage f v).
Proof.
  unfold formatMessage. destruct (assertMap v) as [m|]; [|apply Emits_ret].
  destruct (assertString (mapIndex m "content")) as [c|]; [|apply Emits_ret].
  destruct (String.eqb c ""); [apply Emits_ret|].
  apply Emits_bind; [by apply Emits_call|]. intros r. apply Emits_ret.
Qed.

Lemma formatLoop_emits (f : MessageFormatterInterface) (l : list value) :
  Emits isFormat (formatLoop f l).
Proof.
  induction l as [|v l IH]; cbn; [apply Emits_ret|].
  apply Emits_bind; [apply formatMessage_emits|]. intros m.
  apply Emits_bind; [apply IH|]. intros r. apply Emits_ret.
Qed.

Lemma applyWhatsAppFormattingToMessages_emits
    (f : option MessageFormatterInterface) (l : list value) :
  Emits isFormat (applyWhatsAppFormattingToMessages f l).
Proof. destruct f; [apply formatLoop_emits | apply Emits_ret]. Qed.

End Histories.

(* ===================================================================== *)
(** * Part 7. The audio gate                                               *)
(* ===================================================================== *)

Section AudioGate.

Context {rt : GoRuntime}.
Import GoStrings GoStringsFacts.

Lemma audioExtensions_lower (ext : string) :
  In ext audioExtensions -> ToLower ext = ext.
Proof.
  cbn. intros Hin.
  repeat (destruct Hin as [<-|Hin]; [reflexivity|]). destruct Hin.
Qed.

(** [isAudioURL] holds exactly of the audio references. *)
Lemma isAudioURL_spec (url : string) :
  isAudioURL url = true <-> IsAudioReference url.
Proof.
  unfold isAudioURL, IsAudioReference. fold audioExtensions.
  rewrite existsb_exists. split.
  - intros (ext & Hin & Hs). exists ext. split; [done|].
    apply HasSuffix_spec in Hs as [q Hq].
    destruct (ToLower_split _ _ _ Hq) as (p & x & -> & _ & Hx).
    exists p, x. split; [done|]. by rewrite (audioExtensions_lower ext).
  - intros (ext & Hin & p & x & -> & Hx). exists ext. split; [done|].
    apply HasSuffix_spec. exists (ToLower p).
    rewrite ToLower_app, Hx. by rewrite (audioExtensions_lower ext).
Qed.

Lemma isAudioURL_false (url : string) :
  isAudioURL url = false <-> ~ IsAudioReference url.
Proof.
  rewrite <- isAudioURL_spec. destruct (isAudioURL url); split; done.
Qed.

(** The test the code makes on a transcript fails exactly on the useless
    ones. *)
Lemma transcript_test (transcript : string) :
  negb (String.eqb transcript "")
  && negb (String.eqb (TrimSpace transcript) "")
  && negb (String.eqb transcript noRecognizableAudio) = false
  <-> UselessTranscript transcript.
Proof.
  unfold UselessTranscript. fold noRecognizableAudio.
  rewrite <- TrimSpace_empty_iff.
  destruct (String.eqb_spec transcript "") as [E1|E1];
    destruct (String.eqb_spec (TrimSpace transcript) "") as [E2|E2];
    destruct (String.eqb_spec transcript noRecognizableAudio) as [E3|E3];
    cbn; split; try tauto; discriminate.
Qed.

(** Every run of [processUserMessageData] is one of the outcomes. *)
Lemma processUserMessageData_outcome (msg : models.QueueMessage)
    (deps : MessageHandlerDependencies) (h : History) :
  Outcome msg deps h (processUserMessageData msg deps h).1
    (processUserMessageData msg deps h).2.
Proof.
  unfold processUserMessageData.
  destruct (String.eqb_spec (models.Provider msg) "google_agent_engine")
    as [Hp|Hp]; cbn [negb]; [|by apply stop_provider].
  destruct (GoogleAgentService deps) as [engine|] eqn:He;
    [|by apply stop_no_engine].
  run.
  pose proof (eq_refl : effectiveMessage msg deps h = (resolveAudio deps (models.Message msg) h).1.1) as Hm.
  pose proof (eq_refl : afterAudio msg deps h = (resolveAudio deps (models.Message msg) h).2) as Ha.
  destruct (resolveAudio deps (models.Message msg) h) as [resolved h1].
  cbn [fst snd] in *. rewrite <- Hm.
  destruct (validateContent deps (effectiveMessage msg deps h) h1)
    as [[[]|err] h2] eqn:Ev; rewrite <- Ha in Ev;
    [|by eapply stop_invalid].
  destruct (services.GetOrCreateThread engine h2 (models.UserNumber msg))
    as [threadID|err] eqn:Et; [|by eapply stop_thread].
  destruct (services.SendMessage engine
              (h2 ++ [Ev.GetOrCreateThread (models.UserNumber msg)])
              threadID (effectiveMessage msg deps h))
    as [agentResponse|err] eqn:Es; rewrite <- app_assoc; cbn [app];
    [|by eapply stop_send].
  destruct (parseAgentResponse (models.Content agentResponse))
    as [outputMap|err] eqn:Epa; [|by eapply stop_parse].
  pose proof (complete msg deps h engine threadID agentResponse outputMap h2
                Hp He Ev Et Es Epa) as C.
  cbn zeta in C.
  by destruct (buildProcessedData msg deps outputMap _).
Qed.

Lemma resolveAudio_emits (deps : MessageHandlerDependencies)
    (message text : string) :
  Emits (processingEvent text) (resolveAudio deps message).
Proof.
  unfold resolveAudio. destruct (isAudioURL message); [|apply Emits_ret].
  destruct (TranscribeService deps) as [ts|]; [|apply Emits_ret].
  apply Emits_bind; [by apply Emits_call|].
  intros [transcript|err]; [|apply Emits_ret].
  destruct (_ && _); apply Emits_ret.
Qed.

Lemma validateContent_emits (deps : MessageHandlerDependencies)
    (message text : string) :
  Emits (processingEvent text) (validateContent deps message).
Proof.
  unfold validateContent. destruct (MessageFormatter deps); [|apply Emits_ret].
  apply Emits_bind; [by apply Emits_call|]. intros e. apply Emits_ret.
Qed.

Lemma buildProcessedData_emits (msg : models.QueueMessage)
    (deps : MessageHandlerDependencies) (outputMap : gmap string value)
    (text : string) :
  Emits (processingEvent text) (buildProcessedData msg deps outputMap).
Proof.
  unfold buildProcessedData. apply Emits_bind.
  - destruct (outputMap !! "messages"); [|apply Emits_ret].
    eapply Emits_weaken; [|apply transformGoogleAgentMessages_emits].
    by intros [].
  - intros t. apply Emits_bind; [|intros; apply Emits_ret].
    eapply Emits_weaken; [|apply applyWhatsAppFormattingToMessages_emits].
    by intros [].
Qed.

(** A run of [processUserMessageData] appends to the history; it writes
    nothing to the store, and what it sends to the engine is the text the
    audio block gave. *)
Lemma Outcome_events (msg : models.QueueMessage)
    (deps : MessageHandlerDependencies) (h : History)
    (r : result models.ProcessedMessageData) (h' : History) :
  Outcome msg deps h r h' ->
  exists evs, h' = h ++ evs /\
              Forall (processingEvent (effectiveMessage msg deps h)) evs.
Proof.
  set (text := effectiveMessage msg deps h).
  destruct (resolveAudio_emits deps (models.Message msg) text h)
    as (e1 & E1 & F1).
  fold (afterAudio msg deps h) in E1.
  assert (Hv : forall r2 h2,
             validateContent deps text (afterAudio msg deps h) = (r2, h2) ->
             exists e2, h2 = h ++ e2 /\ Forall (processingEvent text) e2).
  { intros r2 h2 Ev.
    destruct (validateContent_emits deps text text (afterAudio msg deps h))
      as (e2 & E2 & F2).
    rewrite Ev in E2. cbn in E2. exists (e1 ++ e2).
    split; [by rewrite E2, E1, app_assoc | by apply Forall_app]. }
  intros Ho. destruct Ho as
    [ | | engine err h2 _ _ Ev | engine err h2 _ _ Ev
      | engine threadID err h2 _ _ Ev | engine threadID agentResponse err h2 _ _ Ev
      | engine threadID agentResponse outputMap h2 _ _ Ev ];
    try (exists []; split; [by rewrite app_nil_r | constructor]);
    destruct (Hv _ _ Ev) as (e2 & -> & F2).
  - by exists e2.
  - exists (e2 ++ [Ev.GetOrCreateThread (models.UserNumber msg)]).
    split; [by rewrite app_assoc|]. apply Forall_app. split; [done|].
    by repeat constructor.
  - eexists. split; [by rewrite <- app_assoc|]. apply Forall_app.
    split; [done|]. by repeat constructor.
  - eexists. split; [by rewrite <- app_assoc|]. apply Forall_app.
    split; [done|]. by repeat constructor.
  - subst run.
    destruct (buildProcessedData_emits msg deps outputMap text
                ((h ++ e2) ++ [Ev.GetOrCreateThread (models.UserNumber msg);
                               Ev.SendMessage threadID text]))
      as (e3 & E3 & F3).
    subst text. rewrite E3. eexists.
    split; [by rewrite <- !app_assoc|].
    repeat (apply Forall_app; split); try done. by repeat constructor.
Qed.

(** C4. For a message text that is an audio reference (it ends,
    case-insensitively, with one of .mp3 .wav .m4a .aac .ogg .flac .wma),
    the text fed to the engine is the literal ["Ajuda"] when the
    transcription service is absent, when the transcription fails, and
    when the transcript is empty, made of white space only or equal to the
    sentence for audio without recognizable content; otherwise it is the
    transcript.  A text that is no audio reference is passed on unchanged.
    Every message that a run of the processing sends to the engine is this
    effective text. *)
Theorem audio_gate_effective_text (msg : models.QueueMessage)
    (deps : MessageHandlerDependencies) (h : History) :
  let text := models.Message msg in
  let effective := effectiveMessage msg deps h in
  (~ IsAudioReference text /\ effective = text \/
   IsAudioReference text /\
   match TranscribeService deps with
   | None => effective = "Ajuda"
   | Some transcribeService =>
       match TranscribeAudio transcribeService h text with
       | Err _ => effective = "Ajuda"
       | Ok transcript =>
           UselessTranscript transcript /\ effective = "Ajuda" \/
           ~ UselessTranscript transcript /\ effective = transcript
       end
   end) /\
  exists evs,
    (processUserMessageData msg deps h).2 = h ++ evs /\
    forall threadID message,
      In (Ev.SendMessage threadID message) evs -> message = effective.
Proof.
  intros text effective. split.
  - unfold effective, effectiveMessage, resolveAudio. fold text.
    destruct (isAudioURL text) eqn:Ea.
    + right. split; [by apply isAudioURL_spec|].
      destruct (TranscribeService deps) as [ts|]; [|reflexivity].
      run. destruct (TranscribeAudio ts h text) as [transcript|err];
        [|reflexivity].
      destruct (_ && _) eqn:Et.
      * right. split; [|reflexivity]. rewrite <- transcript_test. congruence.
      * left. split; [|reflexivity]. by apply transcript_test.
    + left. split; [by apply isAudioURL_false | reflexivity].
  - destruct (Outcome_events _ _ _ _ _ (processUserMessageData_outcome msg deps h))
      as (evs & E & F).
    exists evs. split; [done|]. intros threadID message Hin.
    rewrite Forall_forall in F. exact (F _ (proj2 (list_elem_of_In _ _) Hin)).
Qed.

End AudioGate.

(* ===================================================================== *)
(** * Part 8. The handler                                                  *)
(* ===================================================================== *)

Section Handler.

Context {rt : GoRuntime}.

Lemma runProcessing_plain (queueMsg : models.QueueMessage)
    (deps : MessageHandlerDependencies) (h : History) :
  wrapperObserves deps ->
  runProcessing queueMsg deps h =
  (((processUserMessage queueMsg deps h).1.2,
    (processUserMessage queueMsg deps h).1.1),
   (processUserMessage queueMsg deps h).2).
Proof.
  unfold wrapperObserves, runProcessing.
  destruct (OTelWorkerWrapper deps) as [w|]; intros Hw.
  - rewrite Hw. unfold processTask. run.
    by destruct (processUserMessage queueMsg deps h) as [[] ?].
  - run. by destruct (processUserMessage queueMsg deps h) as [[] ?].
Qed.

(** The run of the handler: the value it returns and the history it
    leaves. *)
Lemma CreateUserMessageHandler_run
    (deps : MessageHandlerDependencies) (delivery : amqp.Delivery)
    (h : History) :
  match json_Unmarshal_QueueMessage (amqp.Body delivery) with
  | Err err => CreateUserMessageHandler deps delivery h = (Some err, h)
  | Ok queueMsg =>
      let id := models.ID queueMsg in
      let statusTTL := config.TaskStatusTTL (Config deps) in
      let resultTTL := config.TaskResultTTL (Config deps) in
      let processed :=
        runProcessing queueMsg deps
          (h ++ [Ev.SetTaskStatus id "processing" statusTTL]) in
      CreateUserMessageHandler deps delivery h =
      (None,
       processed.2 ++
       match processed.1.1 with
       | Some err =>
           [Ev.Set_ ("task:error:" +:+ id) err statusTTL;
            Ev.SetTaskStatus id "failed" statusTTL]
       | None =>
           [Ev.SetTaskResult id processed.1.2 resultTTL;
            Ev.SetTaskStatus id "completed" statusTTL]
       end)
  end.
Proof.
  unfold CreateUserMessageHandler.
  destruct (json_Unmarshal_QueueMessage (amqp.Body delivery))
    as [queueMsg|err]; [|reflexivity].
  cbv beta iota zeta. run.
  unfold models.TaskStatusProcessing, models.TaskStatusFailed,
    models.TaskStatusCompleted.
  destruct (runProcessing queueMsg deps _) as [[[err|] response] h2];
    cbn [fst snd]; by rewrite <- app_assoc.
Qed.

(** C1. A delivery whose body does not deserialize makes the handler
    return the deserialization error, with nothing written.  For every
    delivery whose body deserializes into a queue message the handler
    returns nil, also when the processing fails: it sets the status
    processing, processes the message, and on a processing error writes
    the error text under the key [task:error:<id>] and sets the status
    failed (without an error it writes the result and sets the status
    completed).  So the handler returns an error only when the body fails
    to deserialize. *)
Theorem handler_returns_nil_unless_malformed
    (deps : MessageHandlerDependencies) (delivery : amqp.Delivery)
    (h : History) :
  let run := CreateUserMessageHandler deps delivery h in
  match json_Unmarshal_QueueMessage (amqp.Body delivery) with
  | Err err => run = (Some err, h)
  | Ok queueMsg =>
      let id := models.ID queueMsg in
      let statusTTL := config.TaskStatusTTL (Config deps) in
      let resultTTL := config.TaskResultTTL (Config deps) in
      let processed :=
        runProcessing queueMsg deps
          (h ++ [Ev.SetTaskStatus id "processing" statusTTL]) in
      run.1 = None /\
      (wrapperObserves deps ->
       processed.1.1 =
       (processUserMessage queueMsg deps
          (h ++ [Ev.SetTaskStatus id "processing" statusTTL])).1.2) /\
      match processed.1.1 with
      | Some err =>
          run.2 = processed.2 ++
                  [Ev.Set_ ("task:error:" +:+ id) err statusTTL;
                   Ev.SetTaskStatus id "failed" statusTTL]
      | None =>
          run.2 = processed.2 ++
                  [Ev.SetTaskResult id processed.1.2 resultTTL;
                   Ev.SetTaskStatus id "completed" statusTTL]
      end
  end /\
  (run.1 <> None ->
   exists err, json_Unmarshal_QueueMessage (amqp.Body delivery) = Err err).
Proof.
  intros run. subst run.
  pose proof (CreateUserMessageHandler_run deps delivery h) as Hh.
  destruct (json_Unmarshal_QueueMessage (amqp.Body delivery))
    as [queueMsg|err].
  - cbn zeta in *. rewrite Hh. cbn [fst snd].
    split; [|done]. split; [done|].
    split; [intros Hw; by rewrite (runProcessing_plain _ _ _ Hw)|].
    by destruct (runProcessing queueMsg deps _) as [[[e|] response] h2].
  - rewrite Hh. split; [done|]. eauto.
Qed.

(** C2. A message whose provider is not ["google_agent_engine"] makes the
    processing stop with the error that names the provider, before any
    call: the history is left as it was, so that neither
    [GetOrCreateThread] nor [SendMessage] is called.  The handler then
    records the error text and the status failed, and the engine is not
    called at all while the delivery is handled. *)
Theorem unsupported_provider_fails_before_engine
    (msg : models.QueueMessage) (deps : MessageHandlerDependencies)
    (h : History) :
  models.Provider msg <> "google_agent_engine" ->
  let err :=
    "unsupported provider: " +:+ models.Provider msg +:+
    " (currently only 'google_agent_engine' is supported)" in
  processUserMessage msg deps h = (("", Some err), h) /\
  forall delivery,
    json_Unmarshal_QueueMessage (amqp.Body delivery) = Ok msg ->
    wrapperObserves deps ->
    let id := models.ID msg in
    let statusTTL := config.TaskStatusTTL (Config deps) in
    let evs :=
      [Ev.SetTaskStatus id "processing" statusTTL;
       Ev.Set_ ("task:error:" +:+ id) err statusTTL;
       Ev.SetTaskStatus id "failed" statusTTL] in
    CreateUserMessageHandler deps delivery h = (None, h ++ evs) /\
    Forall (fun e => isEngineCall e = false) evs.
Proof.
  intros Hp err.
  assert (Hrun : forall h, processUserMessage msg deps h = (("", Some err), h)).
  { intros h'. unfold processUserMessage, processUserMessageData. run.
    apply String.eqb_neq in Hp. by rewrite Hp. }
  split; [apply Hrun|]. intros delivery Hd Hw id statusTTL evs.
  split; [|by repeat constructor].
  pose proof (CreateUserMessageHandler_run deps delivery h) as Hh.
  rewrite Hd in Hh. cbn zeta in Hh. rewrite Hh.
  rewrite (runProcessing_plain _ _ _ Hw), Hrun. cbn [fst snd].
  by rewrite <- app_assoc.
Qed.

End Handler.

Lemma unsupported_provider_witness :
  models.Provider (Demo.message "other") <> "google_agent_engine" /\
  processUserMessage (rt := Demo.runtime) (Demo.message "other") (Demo.deps "A") [] =
  (("", Some "unsupported provider: other_engine (currently only 'google_agent_engine' is supported)"), []).
Proof.
  split; [discriminate|].
  exact (proj1 (unsupported_provider_fails_before_engine (rt := Demo.runtime)
                  (Demo.message "other") (Demo.deps "A") []
                  ltac:(discriminate))).
Defined.

(* ===================================================================== *)
(** * Part 9. The payload of the engine                                    *)
(* ===================================================================== *)

Section PayloadFacts.

Context {rt : GoRuntime}.
Import GoStrings GoStringsFacts.

(** The relation [Outcome] is the graph of [processUserMessageData]. *)
Lemma Outcome_run (msg : models.QueueMessage)
    (deps : MessageHandlerDependencies) (h : History)
    (r : result models.ProcessedMessageData) (h' : History) :
  Outcome msg deps h r h' -> processUserMessageData msg deps h = (r, h').
Proof.
  pose proof (processUserMessageData_outcome msg deps h) as Hrun.
  destruct (processUserMessageData msg deps h) as [r0 h0]. cbn in Hrun.
  intros Ho.
  destruct Ho; inversion Hrun; subst; try congruence;
    repeat match goal with
      | A : ?x = _, B : ?x = _ |- _ =>
          rewrite A in B; inversion B; subst; clear B
      end; first [congruence | reflexivity].
Qed.

Lemma list_ascii_of_append (a b : string) :
  list_ascii_of_string (a +:+ b) =
  list_ascii_of_string a ++ list_ascii_of_string b.
Proof. induction a as [|c a IH]; [reflexivity|]. cbn. by rewrite <- IH. Qed.

Lemma filter_line_breaks (l : list ascii) :
  List.filter (fun c => negb (Ascii.eqb c "013"))
    (List.filter (fun c => negb (Ascii.eqb c "010")) l) =
  List.filter notLineBreak l.
Proof.
  unfold notLineBreak. induction l as [|c l IH]; [reflexivity|]. cbn.
  destruct (Ascii.eqb c "010"); cbn; [done|].
  destruct (Ascii.eqb c "013"); cbn; by rewrite IH.
Qed.

(** The cleaning: the line feeds and carriage returns are taken out of
    the payload, all of them and nothing else, and the white space around
    what is left is cut off. *)
Lemma cleanResponse_spec (content : string) :
  exists stripped pre suf,
    list_ascii_of_string stripped =
      List.filter notLineBreak (list_ascii_of_string content) /\
    WhitespaceOnly pre /\ WhitespaceOnly suf /\
    stripped = pre +:+ cleanResponse content +:+ suf /\
    leadingSpace spaceRunes (cleanResponse content) = None /\
    trailingSpace spaceRunes (cleanResponse content) = None /\
    List.Forall (fun c => notLineBreak c = true)
      (list_ascii_of_string (cleanResponse content)).
Proof.
  unfold cleanResponse.
  set (stripped := removeByte "013" (removeByte "010" content)).
  assert (Hs : list_ascii_of_string stripped =
               List.filter notLineBreak (list_ascii_of_string content)).
  { unfold stripped. by rewrite !removeByte_spec, filter_line_breaks. }
  destruct (TrimSpace_spec stripped) as (pre & suf & Hpre & Hsuf & E & Hl & Ht).
  exists stripped, pre, suf. repeat split; try done.
  assert (Hall : List.Forall (fun c => notLineBreak c = true)
                   (list_ascii_of_string stripped)).
  { rewrite Hs. apply List.Forall_forall. intros c Hc.
    by apply List.filter_In in Hc as [_ Hc]. }
  rewrite E, !list_ascii_of_append in Hall.
  apply List.Forall_app in Hall as [_ Hall].
  by apply List.Forall_app in Hall as [Hall _].
Qed.

(** The parsing fails exactly on the three kinds of unfit payload. *)
Lemma parseAgentResponse_fails_iff (content : string) :
  (exists err, parseAgentResponse content = Err err) <->
  NotAnObject (cleanResponse content) \/
  NoOutputField (cleanResponse content) \/
  OutputNotAnObject (cleanResponse content).
Proof.
  unfold parseAgentResponse, json_Unmarshal_map, NotAnObject, NoOutputField,
    OutputNotAnObject.
  destruct (json_decode (cleanResponse content)) as [v|e] eqn:Ed.
  - destruct v as [| | | | | | |parsed];
      try (split; [intros _; left; intros parsed; discriminate
                  | intros _; eauto]).
    destruct (parsed !! "output") as [output|] eqn:Eo.
    + destruct output as [| | | | | | |outputMap]; cbn [assertMap];
          try (split; [|eauto]; intros _; right; right;
               exists parsed; eexists; repeat split; eauto; discriminate).
      split; [intros [err ?]; discriminate|].
      intros [Hn|[(p & Ep & Hn)|(p & o & Ep & Eo' & Hn)]].
      * by destruct (Hn parsed).
      * congruence.
      * injection Ep as <-. rewrite Eo in Eo'. injection Eo' as <-.
        by destruct (Hn outputMap).
    + split; [|eauto]. intros _. right. left. eauto.
  - split; [|eauto]. intros _. left. discriminate.
Qed.

(** C7. Before it is parsed, the payload of the engine loses every line
    feed and carriage return (and nothing else), then the white space
    around it: the cleaned payload holds no line feed or carriage return
    and neither starts nor ends with a white-space rune.  Parsing the
    cleaned payload fails exactly when it is no structured object, or has
    no top-level [output] field, or its [output] field is no structured
    object.  When the run of a message fails at this step, the handler
    returns nil after recording the error text and the status failed, and
    no result is written while the delivery is handled. *)
Theorem payload_is_cleaned_then_parsed (content : string) :
  (exists stripped pre suf,
      list_ascii_of_string stripped =
        List.filter notLineBreak (list_ascii_of_string content) /\
      WhitespaceOnly pre /\ WhitespaceOnly suf /\
      stripped = pre +:+ cleanResponse content +:+ suf /\
      leadingSpace spaceRunes (cleanResponse content) = None /\
      trailingSpace spaceRunes (cleanResponse content) = None /\
      List.Forall (fun c => notLineBreak c = true)
        (list_ascii_of_string (cleanResponse content))) /\
  ((exists err, parseAgentResponse content = Err err) <->
   NotAnObject (cleanResponse content) \/
   NoOutputField (cleanResponse content) \/
   OutputNotAnObject (cleanResponse content)) /\
  (forall deps delivery msg h err h',
      json_Unmarshal_QueueMessage (amqp.Body delivery) = Ok msg ->
      wrapperObserves deps ->
      let id := models.ID msg in
      let statusTTL := config.TaskStatusTTL (Config deps) in
      let h1 := h ++ [Ev.SetTaskStatus id "processing" statusTTL] in
      ParseFails msg deps h1 err h' ->
      CreateUserMessageHandler deps delivery h =
        (None, h' ++ [Ev.Set_ ("task:error:" +:+ id) err statusTTL;
                      Ev.SetTaskStatus id "failed" statusTTL]) /\
      exists evs,
        (CreateUserMessageHandler deps delivery h).2 = h ++ evs /\
        Forall (fun e => isResultWrite e = false) evs).
Proof.
  split; [apply cleanResponse_spec|].
  split; [apply parseAgentResponse_fails_iff|].
  intros deps delivery msg h err h' Hd Hw id statusTTL h1
    (engine & threadID & agentResponse & h2 & Hp & He & Hv & Ht & Hs & Hpa & ->).
  assert (Ho : Outcome msg deps h1 (Err err)
                 (h2 ++ [Ev.GetOrCreateThread (models.UserNumber msg);
                         Ev.SendMessage threadID (effectiveMessage msg deps h1)]))
    by (by eapply stop_parse).
  pose proof (Outcome_run _ _ _ _ _ Ho) as Hrun.
  destruct (Outcome_events _ _ _ _ _ Ho) as (evs & E & F).
  pose proof (CreateUserMessageHandler_run deps delivery h) as Hh.
  rewrite Hd in Hh. cbn zeta in Hh. fold id statusTTL h1 in Hh.
  rewrite (runProcessing_plain _ _ _ Hw) in Hh.
  unfold processUserMessage in Hh. run. rewrite Hrun in Hh. cbn [fst snd] in Hh.
  split; [exact Hh|]. rewrite Hh. cbn [snd]. rewrite E. unfold h1.
  eexists. split; [by rewrite <- !app_assoc|].
  repeat (apply Forall_app; split); try by repeat constructor.
  eapply Forall_impl; [exact F|]. by intros [].
Qed.

End PayloadFacts.

(* ===================================================================== *)
(** * Part 10. The transformation of the engine's messages                 *)
(* ===================================================================== *)

Section Transformation.

Context {rt : GoRuntime}.

Lemma transformLoop_spec (messagesList acc : list value) (h : History) :
  exists stepIDs,
    length stepIDs = length (omap assertMap messagesList) /\
    (transformLoop messagesList acc h).1 =
      acc ++ zip_with (fun stepID e => VMap (transformMessage stepID e)) stepIDs
               (omap assertMap messagesList).
Proof.
  revert acc h. induction messagesList as [|msgData rest IH]; intros acc h.
  - exists []. split; [reflexivity|]. cbn. by rewrite app_nil_r.
  - cbn [transformLoop omap list_omap].
    destruct (assertMap msgData) as [msgMap|]; [|apply IH].
    run. destruct (generateStepID h) as [id h1].
    destruct (IH (acc ++ [VMap (transformMessage ("step-" +:+ id) msgMap)]) h1)
      as (stepIDs & Hlen & E).
    exists (("step-" +:+ id) :: stepIDs). split; [cbn; by rewrite Hlen|].
    rewrite E. cbn. by rewrite <- app_assoc.
Qed.

(** What the transformation gives for a value that is not [null]: one
    message for each object entry, in order, then the usage record that
    counts them. *)
Lemma transformGoogleAgentMessages_spec (messagesData : value) (h : History) :
  messagesData <> VNil ->
  exists stepIDs now,
    length stepIDs = length (objectEntries messagesData) /\
    (transformGoogleAgentMessages messagesData h).1 =
      zip_with (fun stepID e => VMap (transformMessage stepID e)) stepIDs
        (objectEntries messagesData)
      ++ [VMap (usageStats (length (objectEntries messagesData)) now)].
Proof.
  intros Hnil.
  assert (Hloop : forall l,
             exists stepIDs now,
               length stepIDs = length (omap assertMap l) /\
               ((transformedMessages ← transformLoop l [];
                 now ← call Ev.TimeNow time_Now_RFC3339;
                 mret (transformedMessages ++
                         [VMap (usageStats (length transformedMessages) now)]))
                  h).1 =
               zip_with (fun stepID e => VMap (transformMessage stepID e)) stepIDs
                 (omap assertMap l)
               ++ [VMap (usageStats (length (omap assertMap l)) now)]).
  { intros l. destruct (transformLoop_spec l [] h) as (stepIDs & Hlen & E).
    run. destruct (transformLoop l [] h) as [t h1]. cbn in E. subst t.
    exists stepIDs, (time_Now_RFC3339 h1). split; [done|]. cbn.
    by rewrite length_zip_with, Hlen, Nat.min_id. }
  destruct messagesData; try done; apply Hloop.
Qed.

Lemma transformGoogleAgentMessages_nil (h : History) :
  transformGoogleAgentMessages VNil h = ([], h).
Proof. reflexivity. Qed.

(** The message at the place of the [i]-th object entry is the one built
    from this entry. *)
Lemma transformGoogleAgentMessages_lookup (messagesData : value)
    (h : History) (i : nat) (entry : gmap string value) :
  objectEntries messagesData !! i = Some entry ->
  exists stepID,
    (transformGoogleAgentMessages messagesData h).1 !! i =
    Some (VMap (transformMessage stepID entry)).
Proof.
  intros Hi.
  assert (Hnil : messagesData <> VNil) by (intros ->; discriminate).
  destruct (transformGoogleAgentMessages_spec messagesData h Hnil)
    as (stepIDs & now & Hlen & ->).
  destruct (lookup_lt_is_Some_2 stepIDs i) as [stepID Hs].
  { rewrite Hlen. eapply lookup_lt_Some. exact Hi. }
  exists stepID. rewrite lookup_app_l.
  - rewrite lookup_zip_with, Hs. cbn. by rewrite Hi.
  - rewrite length_zip_with, Hlen, Nat.min_id. eapply lookup_lt_Some. exact Hi.
Qed.

(** The fields of the built message that the kind of the message does not
    touch. *)
Lemma transformMessage_id (stepID : string) (e : gmap string value) :
  transformMessage stepID e !! "id" = Some (mapIndex e "id") /\
  transformMessage stepID e !! "otid" = Some (mapIndex e "id") /\
  transformMessage stepID e !! "message_type" =
    Some (VString (mapMessageType e)) /\
  transformMessage stepID e !! "content" = Some (mapIndex e "content").
Proof.
  unfold transformMessage.
  destruct (String.eqb (mapMessageType e) "tool_call_message").
  - destruct (assertSlice (mapIndex e "tool_calls")) as [[|first ?]|];
      try by repeat split.
    destruct (assertMap first); by repeat split.
  - destruct (String.eqb (mapMessageType e) "tool_return_message");
      [|by repeat split].
    destruct (e !! "name"); by repeat split.
Qed.

(** C10. For every object entry of the engine's [messages] value, the
    message built for it carries the field [otid], equal to the field [id]
    of the entry ([null] for an entry without one): the same value as the
    field [id] of the message. *)
Theorem otid_is_entry_id (messagesData : value) (h : History) (i : nat)
    (entry : gmap string value) :
  objectEntries messagesData !! i = Some entry ->
  exists message,
    (transformGoogleAgentMessages messagesData h).1 !! i = Some (VMap message) /\
    message !! "otid" = Some (mapIndex entry "id") /\
    message !! "id" = Some (mapIndex entry "id").
Proof.
  intros Hi.
  destruct (transformGoogleAgentMessages_lookup _ h _ _ Hi) as [stepID E].
  exists (transformMessage stepID entry). split; [done|].
  destruct (transformMessage_id stepID entry) as (Hid & Hotid & _). by split.
Qed.

Lemma mapMessageType_cases (entry : gmap string value) :
  (roleTag entry = Some "human" \/ roleTag entry = None \/
   unrecognizedRole entry -> mapMessageType entry = "user_message") /\
  (roleTag entry = Some "ai" -> toolCallList entry = None ->
   mapMessageType entry = "assistant_message") /\
  (roleTag entry = Some "ai" -> is_Some (toolCallList entry) ->
   mapMessageType entry = "tool_call_message") /\
  (roleTag entry = Some "tool" -> mapMessageType entry = "tool_return_message").
Proof.
  unfold mapMessageType, unrecognizedRole, roleTag, toolCallList, mapIndex.
  destruct (entry !! "type") as [[| | | |tag| | |]|]; cbn;
    try (split_and!; [intros _; reflexivity | discriminate..]).
  destruct (String.eqb_spec tag "human") as [->|Hh];
    [split_and!; [intros _; reflexivity | discriminate..]|].
  destruct (String.eqb_spec tag "ai") as [->|Ha].
  { destruct (entry !! "tool_calls") as [[| | | | |[|first rest]| |]|]; cbn;
      (split_and!;
       [ intros [?|[?|(? & [= <-] & _ & ? & _)]]; done
       | try done; intros _ ?; discriminate
       | try done; intros _ [? ?]; discriminate
       | discriminate ]). }
  destruct (String.eqb_spec tag "tool") as [->|Ht].
  { split_and!; [|discriminate..|done].
    intros [?|[?|(? & [= <-] & _ & _ & ?)]]; done. }
  split_and!; [done | intros [= ->]; done..].
Qed.

Lemma transformMessage_tool_call (stepID : string)
    (entry : gmap string value) (first : value) (rest : list value) :
  roleTag entry = Some "ai" ->
  toolCallList entry = Some (first :: rest) ->
  match first with
  | VMap toolCall => toolCallFields toolCall (transformMessage stepID entry)
  | _ => transformMessage stepID entry !! "tool_call" = None
  end.
Proof.
  intros Hr Ht.
  destruct (mapMessageType_cases entry) as (_ & _ & Hty & _).
  specialize (Hty Hr ltac:(rewrite Ht; eauto)).
  assert (Hs : assertSlice (mapIndex entry "tool_calls") = Some (first :: rest)).
  { unfold toolCallList in Ht. unfold mapIndex.
    by destruct (entry !! "tool_calls") as [[| | | | |[|f r]| |]|]. }
  unfold transformMessage. rewrite Hty, Hs.
  cbn [String.eqb Ascii.eqb Bool.eqb].
  destruct first; cbn [assertMap]; try reflexivity.
  eexists. split; [apply lookup_insert_eq|]. by repeat split.
Qed.

Lemma transformMessage_tool_return (stepID : string)
    (entry : gmap string value) :
  mapMessageType entry = "tool_return_message" ->
  match entry !! "name" with
  | Some _ => toolReturnFields entry (transformMessage stepID entry)
  | None => noToolReturnFields (transformMessage stepID entry)
  end.
Proof.
  intros Hty. unfold transformMessage. rewrite Hty.
  cbn [String.eqb Ascii.eqb Bool.eqb].
  destruct (entry !! "name"); by repeat split.
Qed.

(** C9, as the code has it.  For every entry mapped to
    [tool_return_message] that has a field [name], the message built for
    it carries [tool_return] equal to the content of the entry, [status]
    equal to ["success"], [tool_call_id] equal to that of the entry, and
    [stdout] and [stderr] that are [null]; for an entry without a field
    [name] none of these five fields is added. *)
Theorem tool_return_fields_need_name (messagesData : value) (h : History)
    (i : nat) (entry : gmap string value) :
  objectEntries messagesData !! i = Some entry ->
  mapMessageType entry = "tool_return_message" ->
  exists message,
    (transformGoogleAgentMessages messagesData h).1 !! i = Some (VMap message) /\
    message !! "message_type" = Some (VString "tool_return_message") /\
    (is_Some (entry !! "name") -> toolReturnFields entry message) /\
    (entry !! "name" = None -> noToolReturnFields message).
Proof.
  intros Hi Hty.
  destruct (transformGoogleAgentMessages_lookup _ h _ _ Hi) as [stepID E].
  exists (transformMessage stepID entry). split; [done|].
  destruct (transformMessage_id stepID entry) as (_ & _ & Hmt & _).
  split; [by rewrite Hmt, Hty|].
  pose proof (transformMessage_tool_return stepID entry Hty) as Hf.
  destruct (entry !! "name"); split; try done; by intros [? ?].
Qed.

(** C6, as the code has it.  For every object entry of the engine's
    [messages] value, the [message_type] of the message built for it is
    [user_message] when the role tag is ["human"], missing, not a string
    or not recognized; [assistant_message] when the role tag is ["ai"]
    without a tool-call list that is not empty; [tool_call_message] when
    the role tag is ["ai"] with a tool-call list that is not empty; and
    [tool_return_message] when the role tag is ["tool"].  In a
    [tool_call_message] whose first tool call is an object, the [name],
    [arguments] and [tool_call_id] of the field [tool_call] are the
    [name], [args] and [id] of that tool call; when the first tool call is
    no object the message has no field [tool_call]. *)
Theorem message_type_follows_role (messagesData : value) (h : History)
    (i : nat) (entry : gmap string value) :
  objectEntries messagesData !! i = Some entry ->
  exists message messageType,
    (transformGoogleAgentMessages messagesData h).1 !! i = Some (VMap message) /\
    message !! "message_type" = Some (VString messageType) /\
    (roleTag entry = Some "human" \/ roleTag entry = None \/
     unrecognizedRole entry -> messageType = "user_message") /\
    (roleTag entry = Some "ai" -> toolCallList entry = None ->
     messageType = "assistant_message") /\
    (roleTag entry = Some "ai" ->
     forall first rest, toolCallList entry = Some (first :: rest) ->
       messageType = "tool_call_message" /\
       match first with
       | VMap toolCall => toolCallFields toolCall message
       | _ => message !! "tool_call" = None
       end) /\
    (roleTag entry = Some "tool" -> messageType = "tool_return_message").
Proof.
  intros Hi.
  destruct (transformGoogleAgentMessages_lookup _ h _ _ Hi) as [stepID E].
  exists (transformMessage stepID entry), (mapMessageType entry).
  split; [done|].
  destruct (transformMessage_id stepID entry) as (_ & _ & Hmt & _).
  split; [done|].
  destruct (mapMessageType_cases entry) as (Hu & Ha & Hc & Ht).
  split; [done|]. split; [done|]. split; [|done].
  intros Hr first rest Hl. split.
  - apply Hc; [done|]. rewrite Hl. eauto.
  - by eapply transformMessage_tool_call.
Qed.

End Transformation.

(** The three theorems above at entries of the small world. *)

Lemma otid_is_entry_id_witness :
  objectEntries (VSlice [VMap Demo.human; VString "noise"; VMap Demo.ai]) !! 1%nat
    = Some Demo.ai /\
  exists message,
    (transformGoogleAgentMessages (rt := Demo.runtime)
       (VSlice [VMap Demo.human; VString "noise"; VMap Demo.ai]) []).1 !! 1%nat
      = Some (VMap message) /\
    message !! "otid" = Some (mapIndex Demo.ai "id") /\
    message !! "id" = Some (mapIndex Demo.ai "id").
Proof.
  split; [reflexivity|].
  apply (otid_is_entry_id (rt := Demo.runtime)
           (VSlice [VMap Demo.human; VString "noise"; VMap Demo.ai]) [] 1
           Demo.ai).
  reflexivity.
Defined.

Lemma tool_return_fields_witness :
  objectEntries (VSlice [VMap Demo.toolWithName]) !! 0%nat = Some Demo.toolWithName /\
  mapMessageType Demo.toolWithName = "tool_return_message" /\
  exists message,
    (transformGoogleAgentMessages (rt := Demo.runtime)
       (VSlice [VMap Demo.toolWithName]) []).1 !! 0%nat = Some (VMap message) /\
    message !! "message_type" = Some (VString "tool_return_message") /\
    (is_Some (Demo.toolWithName !! "name") ->
     toolReturnFields Demo.toolWithName message) /\
    (Demo.toolWithName !! "name" = None -> noToolReturnFields message).
Proof.
  split; [reflexivity|]. split; [reflexivity|].
  apply (tool_return_fields_need_name (rt := Demo.runtime)
           (VSlice [VMap Demo.toolWithName]) [] 0 Demo.toolWithName);
    reflexivity.
Defined.

(** A tool entry without a field [name] is mapped to [tool_return_message],
    and the message built for it has none of the fields [tool_return],
    [status], [tool_call_id], [stdout], [stderr]. *)
Lemma tool_return_without_name :
  objectEntries (VSlice [VMap Demo.toolWithoutName]) !! 0%nat
    = Some Demo.toolWithoutName /\
  mapMessageType Demo.toolWithoutName = "tool_return_message" /\
  exists message,
    (transformGoogleAgentMessages (rt := Demo.runtime)
       (VSlice [VMap Demo.toolWithoutName]) []).1 !! 0%nat = Some (VMap message) /\
    message !! "message_type" = Some (VString "tool_return_message") /\
    message !! "tool_return" = None /\
    message !! "status" = None /\
    message !! "tool_call_id" = None /\
    message !! "stdout" = None /\
    message !! "stderr" = None.
Proof.
  split; [reflexivity|]. split; [reflexivity|].
  destruct (transformGoogleAgentMessages_lookup (rt := Demo.runtime)
              (VSlice [VMap Demo.toolWithoutName]) [] 0 Demo.toolWithoutName
              eq_refl) as [stepID E].
  exists (transformMessage stepID Demo.toolWithoutName). split; [exact E|].
  destruct (transformMessage_id stepID Demo.toolWithoutName) as (_ & _ & Hmt & _).
  split; [exact Hmt|].
  exact (transformMessage_tool_return stepID Demo.toolWithoutName eq_refl).
Qed.

Lemma message_type_follows_role_witness :
  objectEntries (VSlice [VMap Demo.aiWithCall]) !! 0%nat = Some Demo.aiWithCall /\
  exists message messageType,
    (transformGoogleAgentMessages (rt := Demo.runtime)
       (VSlice [VMap Demo.aiWithCall]) []).1 !! 0%nat = Some (VMap message) /\
    message !! "message_type" = Some (VString messageType) /\
    (roleTag Demo.aiWithCall = Some "human" \/ roleTag Demo.aiWithCall = None \/
     unrecognizedRole Demo.aiWithCall -> messageType = "user_message") /\
    (roleTag Demo.aiWithCall = Some "ai" -> toolCallList Demo.aiWithCall = None ->
     messageType = "assistant_message") /\
    (roleTag Demo.aiWithCall = Some "ai" ->
     forall first rest, toolCallList Demo.aiWithCall = Some (first :: rest) ->
       messageType = "tool_call_message" /\
       match first with
       | VMap toolCall => toolCallFields toolCall message
       | _ => message !! "tool_call" = None
       end) /\
    (roleTag Demo.aiWithCall = Some "tool" -> messageType = "tool_return_message").
Proof.
  split; [reflexivity|].
  apply (message_type_follows_role (rt := Demo.runtime)
           (VSlice [VMap Demo.aiWithCall]) [] 0 Demo.aiWithCall).
  reflexivity.
Defined.

(** An assistant entry whose tool-call list is not empty and starts with a
    string is mapped to [tool_call_message], and the message built for it
    has no field [tool_call]. *)
Lemma tool_call_that_is_no_object :
  objectEntries (VSlice [VMap Demo.aiWithStringCall]) !! 0%nat
    = Some Demo.aiWithStringCall /\
  roleTag Demo.aiWithStringCall = Some "ai" /\
  toolCallList Demo.aiWithStringCall = Some [VString "calculator"] /\
  exists message,
    (transformGoogleAgentMessages (rt := Demo.runtime)
       (VSlice [VMap Demo.aiWithStringCall]) []).1 !! 0%nat = Some (VMap message) /\
    message !! "message_type" = Some (VString "tool_call_message") /\
    message !! "tool_call" = None.
Proof.
  split; [reflexivity|]. split; [reflexivity|]. split; [reflexivity|].
  destruct (transformGoogleAgentMessages_lookup (rt := Demo.runtime)
              (VSlice [VMap Demo.aiWithStringCall]) [] 0 Demo.aiWithStringCall
              eq_refl) as [stepID E].
  exists (transformMessage stepID Demo.aiWithStringCall). split; [exact E|].
  destruct (transformMessage_id stepID Demo.aiWithStringCall)
    as (_ & _ & Hmt & _).
  split; [exact Hmt|].
  exact (transformMessage_tool_call stepID Demo.aiWithStringCall
           (VString "calculator") [] eq_refl eq_refl).
Qed.

(* ===================================================================== *)
(** * Part 11. The formatting pass                                         *)
(* ===================================================================== *)

Section Formatting.

Context {rt : GoRuntime}.

Lemma formatMessage_spec (f : MessageFormatterInterface) (v : value)
    (h : History) :
  formatMessage f v h =
  match nonEmptyContent v with
  | None => (v, h)
  | Some (m, content) =>
      (VMap (<["content" :=
                 VString match FormatForWhatsApp f h (formatRequest content) with
                         | Ok formatted => formatted
                         | Err _ => content
                         end]> m),
       h ++ [Ev.FormatForWhatsApp (formatRequest content)])
  end.
Proof.
  unfold formatMessage, nonEmptyContent, mapIndex.
  destruct v as [| | | | | | |m]; try reflexivity. cbn [assertMap].
  destruct (m !! "content") as [[| | | |content| | |]|]; try reflexivity.
  cbn. destruct (String.eqb content ""); reflexivity.
Qed.

Lemma formatMessage_history (f : MessageFormatterInterface) (v : value)
    (h : History) :
  (formatMessage f v h).2 = h ++ formatCalls [v].
Proof.
  rewrite formatMessage_spec. unfold formatCalls. cbn.
  destruct (nonEmptyContent v) as [[m content]|]; cbn; [done|].
  by rewrite app_nil_r.
Qed.

Lemma formatMessage_frame (f : MessageFormatterInterface) (v : value)
    (h : History) :
  sameButContent v (formatMessage f v h).1.
Proof.
  rewrite formatMessage_spec.
  destruct (nonEmptyContent v) as [[m content]|] eqn:E; [|by left].
  right. unfold nonEmptyContent in E.
  destruct v as [| | | | | | |m0]; try done.
  destruct (m0 !! "content") as [[| | | |c| | |]|]; try done.
  destruct (String.eqb c ""); [done|]. injection E as -> ->.
  exists m, (<["content" := VString
                 match FormatForWhatsApp f h (formatRequest content) with
                 | Ok formatted => formatted
                 | Err _ => content
                 end]> m).
  repeat split. intros k Hk. by rewrite lookup_insert_ne.
Qed.

Lemma formatCalls_cons (v : value) (l : list value) :
  formatCalls (v :: l) = formatCalls [v] ++ formatCalls l.
Proof.
  unfold formatCalls. cbn. by destruct (nonEmptyContent v) as [[? ?]|].
Qed.

(** The loop: the calls it makes, and each message it gives, formatted
    after the calls for the messages before it. *)
Lemma formatLoop_spec (f : MessageFormatterInterface) (l : list value)
    (h : History) :
  (formatLoop f l h).2 = h ++ formatCalls l /\
  length (formatLoop f l h).1 = length l /\
  forall i v, l !! i = Some v ->
    (formatLoop f l h).1 !! i =
    Some (formatMessage f v (h ++ formatCalls (take i l))).1.
Proof.
  revert h. induction l as [|v0 l IH]; intros h.
  - cbn. split; [by rewrite app_nil_r|]. split; [done|]. intros i v. done.
  - cbn [formatLoop]. run.
    pose proof (formatMessage_history f v0 h) as Hh.
    destruct (formatMessage f v0 h) as [m h1] eqn:Em. cbn [snd] in Hh. subst h1.
    destruct (IH (h ++ formatCalls [v0])) as (IHh & IHl & IHi).
    destruct (formatLoop f l (h ++ formatCalls [v0])) as [rest h2].
    cbn [fst snd] in *. split; [|split].
    + by rewrite IHh, (formatCalls_cons v0 l), app_assoc.
    + cbn. by rewrite IHl.
    + intros [|i] v Hv.
      * injection Hv as ->. cbn. rewrite app_nil_r. by rewrite Em.
      * cbn in Hv. cbn [take].
        rewrite (formatCalls_cons v0 (take i l)), app_assoc.
        by apply IHi.
Qed.

(** Every field other than [content] is kept, for every message. *)
Lemma formatting_frame (formatter : option MessageFormatterInterface)
    (messages : list value) (h : History) :
  Forall2 sameButContent messages
    (applyWhatsAppFormattingToMessages formatter messages h).1.
Proof.
  apply Forall2_same_length_lookup. destruct formatter as [f|]; cbn.
  - destruct (formatLoop_spec f messages h) as (_ & Hl & Hi).
    split; [done|]. intros i v v' Hv Hv'.
    rewrite (Hi i v Hv) in Hv'. injection Hv' as <-.
    apply formatMessage_frame.
  - split; [done|]. intros i v v' Hv Hv'. left. congruence.
Qed.

(** A message without a content to format is left as it is. *)
Lemma formatting_keeps_unformattable
    (formatter : option MessageFormatterInterface) (messages : list value)
    (h : History) (i : nat) (v : value) :
  messages !! i = Some v -> nonEmptyContent v = None ->
  (applyWhatsAppFormattingToMessages formatter messages h).1 !! i = Some v.
Proof.
  intros Hv Hn. destruct formatter as [f|]; cbn; [|done].
  destruct (formatLoop_spec f messages h) as (_ & _ & Hi).
  rewrite (Hi i v Hv), formatMessage_spec. by rewrite Hn.
Qed.

(** C8. Without a formatter every message passes through unchanged and
    nothing is called.  With a formatter, the formatter is called once for
    each message whose content is a string that is not empty, in order,
    and for no other message; such a message gets the formatted text as
    its content, or keeps its content when the formatter fails; every
    other message is left as it is.  For every message, every field other
    than [content] is the same before and after the pass. *)
Theorem formatting_touches_content_only
    (formatter : option MessageFormatterInterface) (messages : list value)
    (h : History) :
  let run := applyWhatsAppFormattingToMessages formatter messages h in
  match formatter with
  | None => run = (messages, h)
  | Some f =>
      run.2 = h ++ formatCalls messages /\
      length run.1 = length messages /\
      forall i v, messages !! i = Some v ->
        match nonEmptyContent v with
        | None => run.1 !! i = Some v
        | Some (m, content) =>
            exists content',
              run.1 !! i = Some (VMap (<["content" := VString content']> m)) /\
              match FormatForWhatsApp f (h ++ formatCalls (take i messages))
                      (formatRequest content) with
              | Ok formatted => content' = formatted
              | Err _ => content' = content
              end
        end
  end /\
  Forall2 sameButContent messages run.1.
Proof.
  intros run. subst run. destruct formatter as [f|]; cbn.
  - destruct (formatLoop_spec f messages h) as (Hh & Hl & Hi).
    split; [split; [done|split; [done|]]|].
    + intros i v Hv. specialize (Hi i v Hv). rewrite formatMessage_spec in Hi.
      destruct (nonEmptyContent v) as [[m content]|]; [|done].
      eexists. split; [exact Hi|].
      by destruct (FormatForWhatsApp f _ _).
    + apply Forall2_same_length_lookup. split; [done|].
      intros i v v' Hv Hv'. rewrite (Hi i v Hv) in Hv'. injection Hv' as <-.
      apply formatMessage_frame.
  - split; [done|]. apply Forall2_same_length_lookup. split; [done|].
    intros i v v' Hv Hv'. left. congruence.
Qed.

End Formatting.

(* ===================================================================== *)
(** * Part 12. The usage metadata                                          *)
(* ===================================================================== *)

Section UsageMetadata.

Lemma setFloatOfInt_lookup_ne (m : gmap string value) (k k' key : string)
    (result : gmap string value) :
  k' <> key -> setFloatOfInt m k k' result !! key = result !! key.
Proof.
  intros Hne. unfold setFloatOfInt.
  destruct (m !! k) as [[| | |n| | | |]|]; try reflexivity.
  cbn. by apply lookup_insert_ne.
Qed.

Lemma setFloatOfInt_lookup_eq (m : gmap string value) (k k' : string)
    (result : gmap string value) :
  setFloatOfInt m k k' result !! k' =
  match m !! k with
  | Some (VInt n) => Some (VFloat64 (float64_of_int n))
  | _ => result !! k'
  end.
Proof.
  unfold setFloatOfInt.
  destruct (m !! k) as [[| | |n| | | |]|]; try reflexivity.
  cbn. apply lookup_insert_eq.
Qed.

Lemma setNestedFloatOfInt_lookup_ne (usageMap : gmap string value)
    (field k k' key : string) (result : gmap string value) :
  k' <> key ->
  setNestedFloatOfInt usageMap field k k' result !! key = result !! key.
Proof.
  intros Hne. unfold setNestedFloatOfInt.
  destruct (assertMap (mapIndex usageMap field)); [|reflexivity].
  by apply setFloatOfInt_lookup_ne.
Qed.

Lemma setNestedFloatOfInt_lookup_eq (usageMap : gmap string value)
    (field k k' : string) (result : gmap string value) :
  setNestedFloatOfInt usageMap field k k' result !! k' =
  match usageMap !! field with
  | Some (VMap details) =>
      match details !! k with
      | Some (VInt n) => Some (VFloat64 (float64_of_int n))
      | _ => result !! k'
      end
  | _ => result !! k'
  end.
Proof.
  unfold setNestedFloatOfInt, mapIndex.
  destruct (usageMap !! field) as [[| | | | | | |details]|]; try reflexivity.
  cbn. apply setFloatOfInt_lookup_eq.
Qed.

Lemma extractUsageMetadata_usageMapOf (entry : gmap string value) :
  extractUsageMetadata entry =
  match usageMapOf entry with
  | Some usageMap =>
      VMap
        (setFloatOfInt usageMap "total_tokens" "total_token_count"
        (setFloatOfInt usageMap "output_tokens" "candidates_token_count"
        (setFloatOfInt usageMap "input_tokens" "prompt_token_count"
        (setNestedFloatOfInt usageMap "input_token_details" "cache_read"
           "cached_content_token_count"
        (setNestedFloatOfInt usageMap "output_token_details" "reasoning"
           "thoughts_token_count"
        (<["prompt_token_count" := mapIndex usageMap "input_tokens"]>
        (<["candidates_token_count" := mapIndex usageMap "output_tokens"]>
        (<["total_token_count" := mapIndex usageMap "total_tokens"]> ∅))))))))
  | None => VNil
  end.
Proof.
  unfold extractUsageMetadata, usageMapOf, mapIndex.
  destruct (entry !! "response_metadata") as [[| | | | | | |rm]|];
    try reflexivity. cbn.
  destruct (rm !! "usage_metadata") as [[| | | | | | |um]|]; reflexivity.
Qed.

(** The two nested counters are emitted for a Go [int] only; for the
    [float64] that [encoding/json] gives for every number they are left
    out. *)
Lemma nested_counters_need_int (entry usageMap projected : gmap string value) :
  usageMapOf entry = Some usageMap ->
  extractUsageMetadata entry = VMap projected ->
  projected !! "thoughts_token_count" =
    match usageMap !! "output_token_details" with
    | Some (VMap details) =>
        match details !! "reasoning" with
        | Some (VInt n) => Some (VFloat64 (float64_of_int n))
        | _ => None
        end
    | _ => None
    end /\
  projected !! "cached_content_token_count" =
    match usageMap !! "input_token_details" with
    | Some (VMap details) =>
        match details !! "cache_read" with
        | Some (VInt n) => Some (VFloat64 (float64_of_int n))
        | _ => None
        end
    | _ => None
    end.
Proof.
  intros Hu. rewrite extractUsageMetadata_usageMapOf, Hu. intros [= <-].
  split.
  - rewrite !setFloatOfInt_lookup_ne, setNestedFloatOfInt_lookup_ne by done.
    rewrite setNestedFloatOfInt_lookup_eq.
    by destruct (usageMap !! "output_token_details") as [[| | | | | | |d]|].
  - rewrite !setFloatOfInt_lookup_ne by done.
    rewrite setNestedFloatOfInt_lookup_eq.
    rewrite setNestedFloatOfInt_lookup_ne by done.
    by destruct (usageMap !! "input_token_details") as [[| | | | | | |d]|].
Qed.

(** For usage metadata that comes out of the JSON decoder the nested
    counters are never emitted, whatever the payload holds. *)
Lemma decoded_usage_has_no_nested_counters
    (entry usageMap projected : gmap string value) :
  decoded (VMap entry) ->
  usageMapOf entry = Some usageMap ->
  extractUsageMetadata entry = VMap projected ->
  projected !! "thoughts_token_count" = None /\
  projected !! "cached_content_token_count" = None.
Proof.
  intros Hd Hu He.
  assert (Hdu : decoded (VMap usageMap)).
  { unfold usageMapOf in Hu. inversion Hd as [| | | | |m Hm]; subst.
    destruct (entry !! "response_metadata") as [[| | | | | | |rm]|] eqn:Er;
      try done.
    pose proof (Hm _ _ Er) as Hrm. inversion Hrm as [| | | | |m' Hm']; subst.
    destruct (rm !! "usage_metadata") as [[| | | | | | |um]|] eqn:Eu;
      try done.
    injection Hu as <-. exact (Hm' _ _ Eu). }
  destruct (nested_counters_need_int _ _ _ Hu He) as [-> ->].
  inversion Hdu as [| | | | |m Hm]; subst.
  assert (Hnoint : forall field k,
             match usageMap !! field with
             | Some (VMap details) =>
                 match details !! k with
                 | Some (VInt n) => Some (VFloat64 (float64_of_int n))
                 | _ => None
                 end
             | _ => None
             end = None).
  { intros field k.
    destruct (usageMap !! field) as [[| | | | | | |details]|] eqn:Ef; try done.
    pose proof (Hm _ _ Ef) as Hdet. inversion Hdet as [| | | | |m' Hm']; subst.
    destruct (details !! k) as [[| | |n| | | |]|] eqn:Ek; try done.
    pose proof (Hm' _ _ Ek) as Hint. inversion Hint. }
  by rewrite !Hnoint.
Qed.

Lemma decoded_list_to_map (l : list (string * value)) :
  Forall (fun kv => decoded kv.2) l ->
  decoded (VMap (list_to_map l)).
Proof.
  intros Hl. constructor. intros k v Hk.
  apply elem_of_list_to_map_2 in Hk. rewrite Forall_forall in Hl.
  exact (Hl _ Hk).
Qed.

End UsageMetadata.

(** C5, at an entry as the JSON decoder gives it.  The usage metadata hold
    [output_token_details.reasoning] and [input_token_details.cache_read];
    the projection renames the three token counts and keeps them as
    floating-point values, and emits neither [thoughts_token_count] nor
    [cached_content_token_count]. *)
Theorem usage_metadata_of_decoded_entry :
  decoded (VMap Demo.aiWithUsage) /\
  usageMapOf Demo.aiWithUsage = Some Demo.usageMetadata /\
  fieldOf (mapIndex Demo.usageMetadata "output_token_details") "reasoning"
    = Some (Demo.number 3) /\
  fieldOf (mapIndex Demo.usageMetadata "input_token_details") "cache_read"
    = Some (Demo.number 2) /\
  exists projected,
    extractUsageMetadata Demo.aiWithUsage = VMap projected /\
    projected !! "prompt_token_count" = Some (Demo.number 10) /\
    projected !! "candidates_token_count" = Some (Demo.number 5) /\
    projected !! "total_token_count" = Some (Demo.number 15) /\
    projected !! "thoughts_token_count" = None /\
    projected !! "cached_content_token_count" = None.
Proof.
  split.
  { unfold Demo.aiWithUsage, Demo.usageMetadata, Demo.number.
    repeat first [apply decoded_list_to_map | constructor]. }
  split; [reflexivity|]. split; [reflexivity|]. split; [reflexivity|].
  eexists. split; [vm_compute; reflexivity|].
  repeat split; vm_compute; reflexivity.
Qed.

(* ===================================================================== *)
(** * Part 13. The usage-statistics record of a processed message          *)
(* ===================================================================== *)

Section UsageRecord.

Context {rt : GoRuntime}.

Lemma mapMessageType_values (entry : gmap string value) :
  mapMessageType entry <> "usage_statistics".
Proof.
  unfold mapMessageType.
  destruct (assertString (mapIndex entry "type")) as [tag|]; [|done].
  destruct (String.eqb tag "human"); [done|].
  destruct (String.eqb tag "ai").
  - by destruct (assertSlice (mapIndex entry "tool_calls")) as [[|? ?]|].
  - by destruct (String.eqb tag "tool").
Qed.

Lemma transformMessage_not_usage (stepID : string) (entry : gmap string value) :
  ~ isUsageStatistics (VMap (transformMessage stepID entry)).
Proof.
  intros (m & [= <-] & Hm).
  destruct (transformMessage_id stepID entry) as (_ & _ & Hmt & _).
  rewrite Hmt in Hm. injection Hm as Hm.
  by apply (mapMessageType_values entry).
Qed.

Lemma sameButContent_usage (v v' : value) :
  sameButContent v v' -> isUsageStatistics v' -> isUsageStatistics v.
Proof.
  intros [->|(m & m' & -> & -> & Hk)]; [done|].
  intros (m0 & [= <-] & Hm). exists m. split; [done|].
  by rewrite <- Hk.
Qed.

Lemma usageStats_record (stepCount : nat) (now agentID : string) :
  usageRecord stepCount agentID
    (<["agent_id" := VString agentID]> (usageStats stepCount now)).
Proof. unfold usageRecord. by repeat split. Qed.

Lemma stampAgentID_snoc (agentID : string) (l : list value)
    (record : gmap string value) :
  record !! "message_type" = Some (VString "usage_statistics") ->
  stampAgentID agentID (l ++ [VMap record]) =
  l ++ [VMap (<["agent_id" := VString agentID]> record)].
Proof.
  intros Hr. unfold stampAgentID. rewrite last_snoc. cbn [assertMap].
  rewrite Hr. cbn [valueIsString].
  replace (String.eqb "usage_statistics" "usage_statistics") with true
    by reflexivity.
  rewrite length_app. cbn [length].
  replace (length l + 1 - 1)%nat with (length l + 0)%nat by lia.
  by rewrite insert_app_r.
Qed.

(** The messages of the value [processedData], by the field [messages] of
    the engine's output. *)
Lemma buildProcessedData_messages (msg : models.QueueMessage)
    (deps : MessageHandlerDependencies) (outputMap : gmap string value)
    (h : History) :
  let processedData := (buildProcessedData msg deps outputMap h).1 in
  match outputMap !! "messages" with
  | None | Some VNil => models.Messages processedData = []
  | Some messagesData =>
      exists messages record,
        models.Messages processedData = messages ++ [VMap record] /\
        length messages = length (objectEntries messagesData) /\
        Forall (fun m => ~ isUsageStatistics m) messages /\
        usageRecord (length messages) ("user_" +:+ models.UserNumber msg) record
  end.
Proof.
  set (agentID := "user_" +:+ models.UserNumber msg).
  assert (Hempty : forall h0,
             models.Messages
               ((transformedMessages ←
                   applyWhatsAppFormattingToMessages (MessageFormatter deps)
                     (stampAgentID agentID []);
                 mret {| models.Messages := transformedMessages;
                         models.AgentID := agentID;
                         models.ProcessedAt := models.ID msg;
                         models.Status := "done" |}) h0).1 = []).
  { intros h0. by destruct (MessageFormatter deps). }
  assert (Hgen : forall messagesData,
             messagesData <> VNil ->
             outputMap !! "messages" = Some messagesData ->
             exists messages record,
               models.Messages (buildProcessedData msg deps outputMap h).1
                 = messages ++ [VMap record] /\
               length messages = length (objectEntries messagesData) /\
               Forall (fun m => ~ isUsageStatistics m) messages /\
               usageRecord (length messages) agentID record).
  { intros messagesData Hnil Hm. unfold buildProcessedData. rewrite Hm. run.
    destruct (transformGoogleAgentMessages_spec messagesData h Hnil)
      as (stepIDs & now & Hlen & E).
    destruct (transformGoogleAgentMessages messagesData h) as [t h1].
    cbn [fst] in E. subst t. fold agentID.
    rewrite stampAgentID_snoc by reflexivity.
    set (zipped := zip_with _ stepIDs _).
    set (record := <["agent_id" := VString agentID]> (usageStats _ now)).
    assert (Hz : length zipped = length (objectEntries messagesData)).
    { unfold zipped. by rewrite length_zip_with, Hlen, Nat.min_id. }
    pose proof (formatting_frame (MessageFormatter deps)
                  (zipped ++ [VMap record]) h1) as Hf.
    pose proof (formatting_keeps_unformattable (MessageFormatter deps)
                  (zipped ++ [VMap record]) h1 (length zipped) (VMap record))
      as Hk.
    destruct (applyWhatsAppFormattingToMessages (MessageFormatter deps)
                (zipped ++ [VMap record]) h1) as [out h2].
    cbn [fst snd models.Messages] in *.
    apply Forall2_app_inv_l in Hf as (out1 & out2 & Hf1 & Hf2 & ->).
    apply Forall2_cons_inv_l in Hf2 as (last & tl & _ & Hnil2 & ->).
    apply Forall2_nil_inv_l in Hnil2 as ->.
    pose proof (Forall2_length _ _ _ Hf1) as Hlen1.
    rewrite lookup_app_r, Hlen1, Nat.sub_diag in Hk by lia.
    rewrite lookup_app_r, Nat.sub_diag in Hk by lia.
    specialize (Hk eq_refl eq_refl). injection Hk as ->.
    exists out1, record. split; [done|]. split; [lia|]. split.
    - apply Forall_forall. intros v' Hv' Hu.
      apply list_elem_of_lookup in Hv' as [i Hi].
      destruct (Forall2_lookup_r _ _ _ _ _ Hf1 Hi) as (v & Hv & Hs).
      apply (sameButContent_usage _ _ Hs) in Hu.
      unfold zipped in Hv. apply lookup_zip_with_Some in Hv
        as (stepID & entry & -> & _ & _).
      by apply transformMessage_not_usage in Hu.
    - unfold record. rewrite <- Hlen1, Hz. apply usageStats_record. }
  intros processedData. subst processedData.
  destruct (outputMap !! "messages") as [messagesData|] eqn:Hm.
  - destruct messagesData; try (by apply Hgen).
    unfold buildProcessedData. rewrite Hm. run. cbn. apply Hempty.
  - unfold buildProcessedData. rewrite Hm. run. apply Hempty.
Qed.

(** C3, as the code has it.  For every message that is processed with
    success, the output is the parsed payload of the reply that the engine
    gave in this run, on the thread the run obtained after its content
    check; when that output has a field [messages] that is not
    [null], the final sequence of messages ends with a usage-statistics
    record and holds no other one; the [step_count] of the record is the
    number of messages before it, its token counters are zero, its status
    is ["done"], its list of model names is empty and its [agent_id] is
    ["user_"] followed by the user number.  When the output has no field
    [messages], or a [null] one, the final sequence is empty. *)
Theorem usage_record_follows_messages_field (msg : models.QueueMessage)
    (deps : MessageHandlerDependencies) (h : History)
    (processedData : models.ProcessedMessageData) (h' : History) :
  processUserMessageData msg deps h = (Ok processedData, h') ->
  UsageRecordLast msg deps h processedData.
Proof.
  intros Hrun. pose proof (processUserMessageData_outcome msg deps h) as Ho.
  rewrite Hrun in Ho. cbn [fst snd] in Ho.
  inversion Ho as [ | | | | |
                    | engine threadID agentResponse outputMap h2
                        Hp He Hv Ht Hs Hpa run Hpd Hh ].
  exists engine, threadID, agentResponse, outputMap, h2.
  split; [exact Hp|]. split; [exact He|]. split; [exact Hv|].
  split; [exact Ht|]. split; [exact Hs|]. split; [exact Hpa|].
  subst run. apply buildProcessedData_messages.
Qed.

End UsageRecord.

(* ===================================================================== *)
(** * Part 14. Runs in the small world                                     *)
(* ===================================================================== *)

(** The message [hello] with an engine that answers the payload [A], two
    messages: the message is processed with success and the theorem on the
    usage record applies. *)
Lemma usage_record_witness :
  exists processedData h',
    processUserMessageData (rt := Demo.runtime) (Demo.message "hello")
      (Demo.deps "A") [] = (Ok processedData, h') /\
    UsageRecordLast (rt := Demo.runtime) (Demo.message "hello") (Demo.deps "A")
      [] processedData.
Proof.
  eexists. eexists. split; [vm_compute; reflexivity|].
  eapply (usage_record_follows_messages_field (rt := Demo.runtime)
            (Demo.message "hello") (Demo.deps "A") []).
  vm_compute. reflexivity.
Defined.

(** The message [hello] with an engine that answers the payload [B], an
    output without a field [messages]: the message is processed with
    success, and the final sequence of messages is empty, without a
    usage-statistics record. *)
Lemma no_usage_record_without_messages_field :
  exists processedData h',
    processUserMessageData (rt := Demo.runtime) (Demo.message "hello")
      (Demo.deps "B") [] = (Ok processedData, h') /\
    parseAgentResponse (rt := Demo.runtime) "B" = Ok ∅ /\
    (∅ : gmap string value) !! "messages" = None /\
    models.Messages processedData = [] /\
    processUserMessage (rt := Demo.runtime) (Demo.message "hello")
      (Demo.deps "B") [] = (("user_5521", None), h').
Proof.
  eexists. eexists. split; [vm_compute; reflexivity|].
  split; [vm_compute; reflexivity|]. split; [reflexivity|].
  split; [reflexivity|]. vm_compute. reflexivity.
Qed.

(** The end-to-end scenario: the delivery [hello] is handled with success;
    the history shows the status processing, the validation, the two calls
    to the engine, the two step identifiers and the clock, the two calls to
    the formatter, the result and the status completed. *)
Example handler_scenario_completed :
  CreateUserMessageHandler (rt := Demo.runtime) (Demo.deps "A")
    (Demo.delivery "hello") [] =
  (None,
   [Ev.SetTaskStatus "task-1" "processing" 3600;
    Ev.ValidateMessageContent "hello";
    Ev.GetOrCreateThread "5521";
    Ev.SendMessage "thread-5521" "hello";
    Ev.RandRead 16; Ev.RandRead 16; Ev.TimeNow;
    Ev.FormatForWhatsApp (formatRequest "hello");
    Ev.FormatForWhatsApp (formatRequest "hi there");
    Ev.SetTaskResult "task-1" "user_5521" 7200;
    Ev.SetTaskStatus "task-1" "completed" 3600]).
Proof. vm_compute. reflexivity. Qed.

(** A reply that is no JSON text: the handler returns nil, records the
    error and the status failed, and writes no result. *)
Example handler_scenario_parse_failure :
  CreateUserMessageHandler (rt := Demo.runtime) (Demo.deps "oops")
    (Demo.delivery "hello") [] =
  (None,
   [Ev.SetTaskStatus "task-1" "processing" 3600;
    Ev.ValidateMessageContent "hello";
    Ev.GetOrCreateThread "5521";
    Ev.SendMessage "thread-5521" "hello";
    Ev.Set_ "task:error:task-1"
      "failed to parse AI response JSON: invalid character 'o' looking for beginning of value"
      3600;
    Ev.SetTaskStatus "task-1" "failed" 3600]).
Proof. vm_compute. reflexivity. Qed.

(** A reply that is a JSON array, and a malformed delivery. *)
Example handler_scenario_array :
  (CreateUserMessageHandler (rt := Demo.runtime) (Demo.deps "C")
     (Demo.delivery "hello") []).1 = None /\
  parseAgentResponse (rt := Demo.runtime) "C" =
    Err "failed to parse AI response JSON: json: cannot unmarshal array into Go value of type map[string]interface {}" /\
  CreateUserMessageHandler (rt := Demo.runtime) (Demo.deps "A")
    (Demo.delivery "") [] = (Some "unexpected end of JSON input", []).
Proof. repeat split; vm_compute; reflexivity. Qed.

(** The audio scenarios: an audio reference whose transcript is empty, is
    white space (a no-break space and a line feed), or is the sentence for
    audio without content gives the fallback; a transcript with a text is
    sent on; a text that is no audio reference is sent as it is. *)
Example audio_scenarios :
  let deps transcript :=
    {| Config := Config (Demo.deps "A");
       RedisService := Demo.redis;
       GoogleAgentService := Some (Demo.engine "A");
       TranscribeService := Some (Demo.transcriber transcript);
       MessageFormatter := None;
       OTelWorkerWrapper := None |} in
  let audio := Demo.message "http://x/Voice.MP3" in
  effectiveMessage audio (deps "") [] = "Ajuda" /\
  effectiveMessage audio (deps (GoStrings.utf8 160 +:+ GoStrings.utf8 10)) []
    = "Ajuda" /\
  effectiveMessage audio (deps "Áudio sem conteúdo reconhecível") [] = "Ajuda" /\
  effectiveMessage audio (deps "bom dia") [] = "bom dia" /\
  effectiveMessage (Demo.message "voice.mp3 please") (deps "bom dia") []
    = "voice.mp3 please".
Proof. repeat split; vm_compute; reflexivity. Qed.

(** The formatting scenarios: [hello] fails to format and is kept, [hi
    there] is formatted, the usage record is not touched. *)
Example formatting_scenario :
  (applyWhatsAppFormattingToMessages (Some Demo.formatter)
     [VMap Demo.human; VMap Demo.ai; VString "noise";
      VMap (list_to_map [("message_type", VString "usage_statistics")])] []).1 =
  [VMap Demo.human;
   VMap (<["content" := VString "*hi there*"]> Demo.ai);
   VString "noise";
   VMap (list_to_map [("message_type", VString "usage_statistics")])].
Proof. vm_compute. reflexivity. Qed.

(** The strings. *)
Example string_scenarios :
  GoStrings.TrimSpace "  a b  " = "a b" /\
  GoStrings.TrimSpace (GoStrings.utf8 160 +:+ "x" +:+ GoStrings.utf8 8195) = "x" /\
  cleanResponse (String "010" (String "123" (String "013" (String "125" " ")))) = "{}" /\
  isAudioURL "http://x/voice.mp3" = true /\
  isAudioURL "http://x/VOICE.Flac" = true /\
  isAudioURL "http://x/voice.mp3?x=1" = false /\
  hex [ascii_of_nat 0; ascii_of_nat 171; ascii_of_nat 255] = "00abff".
Proof. repeat split; vm_compute; reflexivity. Qed.

(** A reply that is no JSON text, by the theorem on the payload: the run
    from the history after the status processing fails at the parsing, so
    the handler returns nil after the error text and the status failed, and
    writes no result. *)
Lemma payload_parse_failure_witness :
  let h1 := [Ev.SetTaskStatus "task-1" "processing" 3600] in
  let err :=
    "failed to parse AI response JSON: invalid character 'o' looking for beginning of value" in
  let h' :=
    h1 ++ [Ev.ValidateMessageContent "hello"; Ev.GetOrCreateThread "5521";
           Ev.SendMessage "thread-5521" "hello"] in
  ParseFails (rt := Demo.runtime) (Demo.message "hello") (Demo.deps "oops")
    h1 err h' /\
  CreateUserMessageHandler (rt := Demo.runtime) (Demo.deps "oops")
    (Demo.delivery "hello") [] =
    (None, h' ++ [Ev.Set_ "task:error:task-1" err 3600;
                  Ev.SetTaskStatus "task-1" "failed" 3600]) /\
  exists evs,
    (CreateUserMessageHandler (rt := Demo.runtime) (Demo.deps "oops")
       (Demo.delivery "hello") []).2 = [] ++ evs /\
    Forall (fun e => isResultWrite e = false) evs.
Proof.
  intros h1 err h'.
  assert (Hpf : ParseFails (rt := Demo.runtime) (Demo.message "hello")
                  (Demo.deps "oops") h1 err h').
  { exists (Demo.engine "oops"), "thread-5521",
      {| models.Content := "oops"; models.MessageID := "r-1";
         models.ThreadID := "thread-5521" |},
      (h1 ++ [Ev.ValidateMessageContent "hello"]).
    repeat split; vm_compute; reflexivity. }
  split; [exact Hpf|].
  exact (proj2 (proj2 (payload_is_cleaned_then_parsed (rt := Demo.runtime) "oops"))
           (Demo.deps "oops") (Demo.delivery "hello") (Demo.message "hello")
           [] err h' eq_refl I Hpf).
Defined.

(** X2. An adapter without a transcription service answers every call
    with an error, so that an audio reference is replaced by the fallback
    text and the message is still processed. *)
Lemma adapter_without_service_falls_back (msg : models.QueueMessage)
    (deps : MessageHandlerDependencies) (h : History) :
  TranscribeService deps = Some (NewTranscribeServiceAdapter None) ->
  IsAudioReference (models.Message msg) ->
  effectiveMessage msg deps h = "Ajuda".
Proof.
  intros Ht Ha. apply isAudioURL_spec in Ha.
  unfold effectiveMessage, resolveAudio. by rewrite Ha, Ht.
Qed.

(* ===================================================================== *)
(** * Part 15. The transcription adapter and the audio test                *)
(* ===================================================================== *)

Section Adapter.

Import GoStrings GoStringsFacts.

(** X1. [ValidateAudioURL] of the adapter accepts a URL exactly when the
    adapter has a service and the URL starts with [http://] or [https://].
    Without a service every URL is refused for that reason, the empty one
    too; with a service the empty URL is refused as empty. *)
Theorem ValidateAudioURL_accepts (service : option services.TranscribeService)
    (url : string) :
  (ValidateAudioURL (NewTranscribeServiceAdapter service) url = None <->
   is_Some service /\
   ((exists rest, url = "http://" +:+ rest) \/
    (exists rest, url = "https://" +:+ rest))) /\
  (service = None ->
   ValidateAudioURL (NewTranscribeServiceAdapter service) url =
   Some "transcribe service is not available") /\
  (is_Some service -> url = "" ->
   ValidateAudioURL (NewTranscribeServiceAdapter service) url =
   Some "audio URL cannot be empty").
Proof.
  cbn [ValidateAudioURL NewTranscribeServiceAdapter].
  destruct service as [svc|].
  - split_and!; [|discriminate|by intros _ ->].
    destruct (String.eqb_spec url "") as [->|Hne].
    { split; [discriminate|]. intros (_ & [[r Hr]|[r Hr]]); discriminate. }
    destruct (HasPrefix url "http://") eqn:E1; cbn [negb andb].
    + split; [|done]. intros _. split; [eauto|]. left.
      by apply HasPrefix_spec.
    + destruct (HasPrefix url "https://") eqn:E2; cbn [negb].
      * split; [|done]. intros _. split; [eauto|]. right.
        by apply HasPrefix_spec.
      * split; [discriminate|]. intros (_ & [Hr|Hr]);
          apply HasPrefix_spec in Hr; congruence.
  - split_and!; [|done|by intros [? ?]].
    split; [discriminate|]. by intros [[? ?] _].
Qed.

Lemma HasSuffix_app (p s suffix : string) :
  HasSuffix s suffix = true -> HasSuffix (p +:+ s) suffix = true.
Proof.
  rewrite !HasSuffix_spec. intros [q ->]. exists (p +:+ q).
  by rewrite append_assoc.
Qed.

Lemma len_ToLower (s : string) : len (ToLower s) = len s.
Proof. induction s as [|c s IH]; [reflexivity|]. cbn. by f_equal. Qed.

Lemma sameAsciiCase_lowered (a b : string) :
  sameAsciiCase a b = true -> ToLower a = ToLower b.
Proof.
  revert b. induction a as [|c a IH]; intros [|d b]; cbn; try done.
  intros [Hc Hr]%andb_true_iff. apply Ascii.eqb_eq in Hc.
  f_equal; [exact Hc | by apply IH].
Qed.

(** X3. Whether a text is an audio URL is decided by its end alone and
    without regard to the case of ASCII letters: a text shorter than four
    bytes is none, an audio URL stays one when any text is put in front of
    it, and two texts that differ in nothing but the case of ASCII letters
    get the same answer. *)
Theorem isAudioURL_by_suffix (url : string) :
  ((len url < 4)%nat -> isAudioURL url = false) /\
  (isAudioURL url = true -> forall p, isAudioURL (p +:+ url) = true) /\
  (forall url', sameAsciiCase url url' = true ->
                isAudioURL url' = isAudioURL url).
Proof.
  split_and!.
  - intros Hlen. unfold isAudioURL. apply not_true_is_false.
    rewrite existsb_exists. intros (ext & Hin & Hs).
    apply HasSuffix_spec in Hs as [q Hq].
    apply (f_equal len) in Hq. rewrite len_ToLower, len_append in Hq.
    cbn in Hin.
    repeat (destruct Hin as [<-|Hin]; [cbn in Hq; lia|]). destruct Hin.
  - unfold isAudioURL. rewrite existsb_exists. intros (ext & Hin & Hs) p.
    apply existsb_exists. exists ext. split; [done|].
    rewrite ToLower_app. by apply HasSuffix_app.
  - intros url' Hsame. unfold isAudioURL.
    by rewrite (sameAsciiCase_lowered url url' Hsame).
Qed.

End Adapter.

(* ===================================================================== *)
(** * Part 16. Step identifiers                                            *)
(* ===================================================================== *)

Section StepIDs.

Context {rt : GoRuntime}.
Import GoStrings GoStringsFacts.

Lemma hexByte_group (c : ascii) : hexGroup 2 (hexByte c).
Proof. by destruct c as [[] [] [] [] [] [] [] []]. Qed.

Lemma hexGroup_app (n m : nat) (a b : string) :
  hexGroup n a -> hexGroup m b -> hexGroup (n + m) (a +:+ b).
Proof.
  intros [Ha1 Ha2] [Hb1 Hb2]. split.
  - by rewrite len_append, Ha1, Hb1.
  - rewrite list_ascii_of_append, forallb_app. by rewrite Ha2, Hb2.
Qed.

Lemma hex_group (b : list ascii) : hexGroup (2 * length b) (hex b).
Proof.
  induction b as [|c b IH]; [by split|]. cbn [hex foldr length].
  replace (2 * S (length b))%nat with (2 + 2 * length b)%nat by lia.
  apply hexGroup_app; [apply hexByte_group | exact IH].
Qed.

(** X4. Whatever the random source gives, [generateStepID] reads sixteen
    bytes once and returns five groups of 8, 4, 4, 4 and 12 lower-case
    hexadecimal digits joined by dashes. *)
Theorem generateStepID_shape (h : History) :
  (generateStepID h).2 = h ++ [Ev.RandRead 16] /\
  StepIDShape (generateStepID h).1.
Proof.
  unfold generateStepID. run. split; [reflexivity|].
  set (b := take 16 (rand_Read h 16 ++ replicate 16 zero)).
  assert (Hb : length b = 16%nat).
  { unfold b. rewrite length_take, length_app, length_replicate. lia. }
  exists (hex (take 4 b)), (hex (take 2 (drop 4 b))), (hex (take 2 (drop 6 b))),
    (hex (take 2 (drop 8 b))), (hex (drop 10 b)).
  split; [reflexivity|].
  assert (Hg : forall n l, (2 * length l)%nat = n -> hexGroup n (hex l))
    by (intros n l <-; apply hex_group).
  split_and!; apply Hg; rewrite ?length_take, ?length_drop, Hb; lia.
Qed.

End StepIDs.

(* ===================================================================== *)
(** * Part 17. More on the transformation                                  *)
(* ===================================================================== *)

Section TransformationMore.

Context {rt : GoRuntime}.

(** The loop, with the step identifiers it draws and the history it
    leaves. *)
Lemma transformLoop_full (messagesList acc : list value) (h : History) :
  exists stepIDs,
    length stepIDs = length (omap assertMap messagesList) /\
    Forall (fun stepID => exists id, stepID = "step-" +:+ id /\ StepIDShape id)
      stepIDs /\
    (transformLoop messagesList acc h).1 =
      acc ++ zip_with (fun stepID e => VMap (transformMessage stepID e)) stepIDs
               (omap assertMap messagesList) /\
    (transformLoop messagesList acc h).2 =
      h ++ replicate (length (omap assertMap messagesList)) (Ev.RandRead 16).
Proof.
  revert acc h. induction messagesList as [|msgData rest IH]; intros acc h.
  - exists []. cbn. by rewrite !app_nil_r.
  - cbn [transformLoop omap list_omap].
    destruct (assertMap msgData) as [msgMap|]; [|apply IH].
    destruct (generateStepID_shape h) as [Hh Hid]. run.
    destruct (generateStepID h) as [id h1]. cbn [fst snd] in Hh, Hid. subst h1.
    destruct (IH (acc ++ [VMap (transformMessage ("step-" +:+ id) msgMap)])
                (h ++ [Ev.RandRead 16]))
      as (stepIDs & Hlen & Hshape & E & Eh).
    exists (("step-" +:+ id) :: stepIDs). split_and!.
    + cbn. by rewrite Hlen.
    + constructor; [eauto | done].
    + rewrite E. cbn. by rewrite <- app_assoc.
    + rewrite Eh. cbn. by rewrite <- app_assoc.
Qed.

Lemma transformGoogleAgentMessages_full (messagesData : value) (h : History) :
  messagesData <> VNil ->
  exists stepIDs now,
    length stepIDs = length (objectEntries messagesData) /\
    Forall (fun stepID => exists id, stepID = "step-" +:+ id /\ StepIDShape id)
      stepIDs /\
    (transformGoogleAgentMessages messagesData h).1 =
      zip_with (fun stepID e => VMap (transformMessage stepID e)) stepIDs
        (objectEntries messagesData)
      ++ [VMap (usageStats (length (objectEntries messagesData)) now)] /\
    (transformGoogleAgentMessages messagesData h).2 =
      h ++ replicate (length (objectEntries messagesData)) (Ev.RandRead 16)
        ++ [Ev.TimeNow].
Proof.
  intros Hnil.
  assert (Hloop : forall l,
             exists stepIDs now,
               length stepIDs = length (omap assertMap l) /\
               Forall (fun stepID =>
                         exists id, stepID = "step-" +:+ id /\ StepIDShape id)
                 stepIDs /\
               ((transformedMessages ← transformLoop l [];
                 now ← call Ev.TimeNow time_Now_RFC3339;
                 mret (transformedMessages ++
                         [VMap (usageStats (length transformedMessages) now)]))
                  h).1 =
               zip_with (fun stepID e => VMap (transformMessage stepID e))
                 stepIDs (omap assertMap l)
               ++ [VMap (usageStats (length (omap assertMap l)) now)] /\
               ((transformedMessages ← transformLoop l [];
                 now ← call Ev.TimeNow time_Now_RFC3339;
                 mret (transformedMessages ++
                         [VMap (usageStats (length transformedMessages) now)]))
                  h).2 =
               h ++ replicate (length (omap assertMap l)) (Ev.RandRead 16)
                 ++ [Ev.TimeNow]).
  { intros l. destruct (transformLoop_full l [] h)
      as (stepIDs & Hlen & Hshape & E & Eh).
    run. destruct (transformLoop l [] h) as [t h1]. cbn [fst snd] in E, Eh.
    subst t h1. exists stepIDs, (time_Now_RFC3339
      (h ++ replicate (length (omap assertMap l)) (Ev.RandRead 16))).
    split_and!; try done.
    - cbn. by rewrite length_zip_with, Hlen, Nat.min_id.
    - cbn. by rewrite <- app_assoc. }
  destruct messagesData; try done; apply Hloop.
Qed.

Lemma transformMessage_fixed (stepID : string) (e : gmap string value) :
  transformMessage stepID e !! "step_id" = Some (VString stepID) /\
  placeholdersNull (transformMessage stepID e) /\
  transformMessage stepID e !! "name" = Some (mapIndex e "name").
Proof.
  unfold transformMessage, placeholdersNull.
  destruct (String.eqb (mapMessageType e) "tool_call_message").
  - destruct (assertSlice (mapIndex e "tool_calls")) as [[|first ?]|];
      try by split_and!.
    destruct (assertMap first); by split_and!.
  - destruct (String.eqb (mapMessageType e) "tool_return_message");
      [|by split_and!].
    destruct (e !! "name") eqn:En; split_and!; try done.
    unfold mapIndex. by rewrite En.
Qed.

(** X5. For every object entry of the engine's [messages] value, the
    message built for it has a [step_id] made of ["step-"] and five groups
    of 8, 4, 4, 4 and 12 lower-case hexadecimal digits joined by dashes; its
    fields [date], [session_id], [time_since_last_message], [sender_id] and
    [is_err] are [null]; its [name] and [content] are those of the entry
    ([null] for an entry without them). *)
Theorem transformed_message_fixed_fields (messagesData : value) (h : History)
    (i : nat) (entry : gmap string value) :
  objectEntries messagesData !! i = Some entry ->
  exists message id,
    (transformGoogleAgentMessages messagesData h).1 !! i = Some (VMap message) /\
    message !! "step_id" = Some (VString ("step-" +:+ id)) /\
    StepIDShape id /\
    placeholdersNull message /\
    message !! "name" = Some (mapIndex entry "name") /\
    message !! "content" = Some (mapIndex entry "content").
Proof.
  intros Hi.
  assert (Hnil : messagesData <> VNil) by (intros ->; discriminate).
  destruct (transformGoogleAgentMessages_full messagesData h Hnil)
    as (stepIDs & now & Hlen & Hshape & -> & _).
  destruct (lookup_lt_is_Some_2 stepIDs i) as [stepID Hs].
  { rewrite Hlen. eapply lookup_lt_Some. exact Hi. }
  destruct (proj1 (Forall_lookup _ _) Hshape i stepID Hs) as (id & -> & Hid).
  exists (transformMessage ("step-" +:+ id) entry), id.
  destruct (transformMessage_fixed ("step-" +:+ id) entry) as (Hstep & Hph & Hname).
  destruct (transformMessage_id ("step-" +:+ id) entry) as (_ & _ & _ & Hcontent).
  split_and!; try done.
  rewrite lookup_app_l.
  - rewrite lookup_zip_with, Hs. cbn. by rewrite Hi.
  - rewrite length_zip_with, Hlen, Nat.min_id. eapply lookup_lt_Some. exact Hi.
Qed.

(** X6. The transformation of a [null] value calls nothing and gives no
    message.  For any other value it reads the random source once for each
    object entry, then the clock once, and gives one message more than
    there are object entries: entries that are no objects are skipped. *)
Theorem transformation_calls (messagesData : value) (h : History) :
  let run := transformGoogleAgentMessages messagesData h in
  let n := length (objectEntries messagesData) in
  match messagesData with
  | VNil => run = ([], h)
  | _ =>
      run.2 = h ++ replicate n (Ev.RandRead 16) ++ [Ev.TimeNow] /\
      length run.1 = S n
  end.
Proof.
  intros run n.
  assert (Hgen : messagesData <> VNil ->
                 run.2 = h ++ replicate n (Ev.RandRead 16) ++ [Ev.TimeNow] /\
                 length run.1 = S n).
  { intros Hnil.
    destruct (transformGoogleAgentMessages_full messagesData h Hnil)
      as (stepIDs & now & Hlen & _ & E & Eh).
    split; [exact Eh|]. unfold run. rewrite E.
    rewrite length_app, length_zip_with, Hlen, Nat.min_id. cbn. unfold n. lia. }
  destruct messagesData; try (by apply Hgen). reflexivity.
Qed.

Lemma messageTypeOf_transformMessage (stepID : string) (e : gmap string value) :
  messageTypeOf (VMap (transformMessage stepID e)) = Some (mapMessageType e).
Proof.
  unfold messageTypeOf.
  destruct (transformMessage_id stepID e) as (_ & _ & -> & _). reflexivity.
Qed.

(** X7. The kinds of the messages the transformation gives for a value that
    is not [null] are, in order, the kinds of the object entries, followed
    by the usage-statistics record. *)
Theorem transformation_kinds (messagesData : value) (h : History) :
  match messagesData with
  | VNil => (transformGoogleAgentMessages messagesData h).1 = []
  | _ =>
      map messageTypeOf (transformGoogleAgentMessages messagesData h).1 =
      map (fun e => Some (mapMessageType e)) (objectEntries messagesData)
      ++ [Some "usage_statistics"]
  end.
Proof.
  assert (Hgen : messagesData <> VNil ->
                 map messageTypeOf (transformGoogleAgentMessages messagesData h).1 =
                 map (fun e => Some (mapMessageType e)) (objectEntries messagesData)
                 ++ [Some "usage_statistics"]).
  { intros Hnil.
    destruct (transformGoogleAgentMessages_full messagesData h Hnil)
      as (stepIDs & now & Hlen & _ & -> & _).
    rewrite map_app. f_equal.
    revert stepIDs Hlen.
    induction (objectEntries messagesData) as [|e es IH];
      intros [|stepID stepIDs] Hlen; try done.
    cbn [map zip_with]. rewrite messageTypeOf_transformMessage. f_equal.
    apply IH. by injection Hlen. }
  destruct messagesData; try (by apply Hgen). reflexivity.
Qed.

Lemma mapMessageType_range (e : gmap string value) :
  In (mapMessageType e)
    ["user_message"; "assistant_message"; "tool_call_message";
     "tool_return_message"; "usage_statistics"].
Proof.
  unfold mapMessageType.
  destruct (assertString (mapIndex e "type")) as [tag|]; [|cbn; tauto].
  destruct (String.eqb tag "human"); [cbn; tauto|].
  destruct (String.eqb tag "ai").
  - destruct (assertSlice (mapIndex e "tool_calls")) as [[|? ?]|]; cbn; tauto.
  - destruct (String.eqb tag "tool"); cbn; tauto.
Qed.

Lemma transformMessage_wellKinded (stepID : string) (e : gmap string value) :
  wellKinded (transformMessage stepID e).
Proof.
  exists (mapMessageType e).
  destruct (transformMessage_id stepID e) as (_ & _ & Hmt & _).
  split; [done|]. split; [apply mapMessageType_range|].
  clear Hmt. unfold transformMessage.
  destruct (String.eqb_spec (mapMessageType e) "tool_call_message") as [Hc|Hc].
  - split; [done|]. rewrite Hc.
    destruct (assertSlice (mapIndex e "tool_calls")) as [[|first ?]|];
      try (intros [[? ?]|[[? ?]|[[? ?]|[? ?]]]]; done).
    destruct (assertMap first);
      intros [[? ?]|[[? ?]|[[? ?]|[? ?]]]]; done.
  - destruct (String.eqb_spec (mapMessageType e) "tool_return_message")
      as [Hr|Hr].
    + split; [|done]. destruct (e !! "name"); intros [? ?]; done.
    + split; [intros [? ?]; done|].
      intros [[? ?]|[[? ?]|[[? ?]|[? ?]]]]; done.
Qed.

(** X8. Every message the transformation gives is an object whose kind and
    fields agree: its [message_type] is one of the five kinds, it has a
    field [tool_call] only when it is a [tool_call_message], and a field
    [tool_return], [tool_call_id], [stdout] or [stderr] only when it is a
    [tool_return_message]. *)
Theorem transformation_well_kinded (messagesData : value) (h : History) :
  Forall (fun v => exists message, v = VMap message /\ wellKinded message)
    (transformGoogleAgentMessages messagesData h).1.
Proof.
  assert (Hgen : messagesData <> VNil ->
                 Forall (fun v => exists message,
                           v = VMap message /\ wellKinded message)
                   (transformGoogleAgentMessages messagesData h).1).
  { intros Hnil.
    destruct (transformGoogleAgentMessages_full messagesData h Hnil)
      as (stepIDs & now & _ & _ & -> & _).
    apply Forall_app. split.
    - apply Forall_forall. intros v Hv.
      apply list_elem_of_lookup in Hv as [i Hi].
      apply lookup_zip_with_Some in Hi as (stepID & e & -> & _ & _).
      eexists. split; [reflexivity|]. apply transformMessage_wellKinded.
    - constructor; [|constructor]. eexists. split; [reflexivity|].
      exists "usage_statistics". split; [reflexivity|].
      split; [cbn; tauto|].
      split; [intros [? ?]; done|].
      intros [[? ?]|[[? ?]|[[? ?]|[? ?]]]]; done. }
  destruct messagesData; try (by apply Hgen). constructor.
Qed.

End TransformationMore.

(* ===================================================================== *)
(** * Part 18. More on the usage metadata                                  *)
(* ===================================================================== *)

Section UsageMetadataMore.

Lemma projectedNested_lookup (usageMap : gmap string value)
    (field k k' : string) (result : gmap string value) :
  result !! k' = None ->
  setNestedFloatOfInt usageMap field k k' result !! k' =
  projectedNested (usageMap !! field) k.
Proof.
  intros Hr. rewrite setNestedFloatOfInt_lookup_eq, Hr. unfold projectedNested.
  destruct (usageMap !! field) as [[| | | | | | |d]|]; try reflexivity;
    by destruct (d !! k) as [[]|].
Qed.

Lemma projectedCount_lookup (usageMap : gmap string value) (k k' : string)
    (result : gmap string value) :
  result !! k' = Some (mapIndex usageMap k) ->
  setFloatOfInt usageMap k k' result !! k' =
  Some (projectedCount (usageMap !! k)).
Proof.
  intros Hr. rewrite setFloatOfInt_lookup_eq, Hr.
  unfold projectedCount, mapIndex. by destruct (usageMap !! k) as [[]|].
Qed.

(** The projected record, key by key. *)
Lemma projected_lookup (entry usageMap projected : gmap string value)
    (key : string) :
  usageMapOf entry = Some usageMap ->
  extractUsageMetadata entry = VMap projected ->
  projected !! key =
  if decide (key = "prompt_token_count")
  then Some (projectedCount (usageMap !! "input_tokens"))
  else if decide (key = "candidates_token_count")
  then Some (projectedCount (usageMap !! "output_tokens"))
  else if decide (key = "total_token_count")
  then Some (projectedCount (usageMap !! "total_tokens"))
  else if decide (key = "thoughts_token_count")
  then projectedNested (usageMap !! "output_token_details") "reasoning"
  else if decide (key = "cached_content_token_count")
  then projectedNested (usageMap !! "input_token_details") "cache_read"
  else None.
Proof.
  intros Hu. rewrite extractUsageMetadata_usageMapOf, Hu. intros [= <-].
  destruct (decide (key = "prompt_token_count")) as [->|H1].
  { rewrite !setFloatOfInt_lookup_ne by done.
    apply projectedCount_lookup.
    by rewrite !setNestedFloatOfInt_lookup_ne. }
  destruct (decide (key = "candidates_token_count")) as [->|H2].
  { rewrite setFloatOfInt_lookup_ne by done.
    apply projectedCount_lookup.
    rewrite setFloatOfInt_lookup_ne by done.
    by rewrite !setNestedFloatOfInt_lookup_ne. }
  destruct (decide (key = "total_token_count")) as [->|H3].
  { apply projectedCount_lookup.
    rewrite !setFloatOfInt_lookup_ne by done.
    by rewrite !setNestedFloatOfInt_lookup_ne. }
  rewrite !setFloatOfInt_lookup_ne by done.
  destruct (decide (key = "thoughts_token_count")) as [->|H4].
  { rewrite setNestedFloatOfInt_lookup_ne by done.
    by apply projectedNested_lookup. }
  destruct (decide (key = "cached_content_token_count")) as [->|H5].
  { apply projectedNested_lookup.
    by rewrite setNestedFloatOfInt_lookup_ne. }
  rewrite !setNestedFloatOfInt_lookup_ne by done.
  by rewrite !lookup_insert_ne.
Qed.

Lemma projectedCount_not_int (v : option value) (n : Z) :
  projectedCount v <> VInt n.
Proof. by destruct v as [[]|]. Qed.

Lemma projectedNested_not_int (details : option value) (k : string) (n : Z) :
  projectedNested details k <> Some (VInt n).
Proof.
  unfold projectedNested. destruct details as [[| | | | | | |d]|]; try done.
  by destruct (d !! k) as [[]|].
Qed.

(** X9. [extractUsageMetadata] gives [nil] unless the entry holds
    [response_metadata.usage_metadata], both objects.  Otherwise it gives a
    record that always holds the three counts [prompt_token_count],
    [candidates_token_count] and [total_token_count], taken from
    [input_tokens], [output_tokens] and [total_tokens]: a Go [int] is
    converted to [float64], any other value is kept as it is and a missing
    one is [null].  The record holds no other key than these three and
    the two nested counters, and none of its fields is a Go [int]. *)
Theorem usage_metadata_projection (entry : gmap string value) :
  match usageMapOf entry with
  | None => extractUsageMetadata entry = VNil
  | Some usageMap =>
      exists projected,
        extractUsageMetadata entry = VMap projected /\
        projected !! "prompt_token_count"
          = Some (projectedCount (usageMap !! "input_tokens")) /\
        projected !! "candidates_token_count"
          = Some (projectedCount (usageMap !! "output_tokens")) /\
        projected !! "total_token_count"
          = Some (projectedCount (usageMap !! "total_tokens")) /\
        (forall key, is_Some (projected !! key) ->
           In key ["prompt_token_count"; "candidates_token_count";
                   "total_token_count"; "thoughts_token_count";
                   "cached_content_token_count"]) /\
        (forall key n, projected !! key <> Some (VInt n))
  end.
Proof.
  destruct (usageMapOf entry) as [usageMap|] eqn:Hu.
  - pose proof (extractUsageMetadata_usageMapOf entry) as He.
    rewrite Hu in He. eexists. split; [exact He|].
    pose proof (fun key => projected_lookup entry usageMap _ key Hu He) as Hl.
    split_and!.
    + by rewrite Hl.
    + by rewrite Hl.
    + by rewrite Hl.
    + intros key. rewrite Hl. cbn [In].
      repeat (case_decide; [subst; intros _; auto 10|]). by intros [? ?].
    + intros key n. rewrite Hl.
      repeat (case_decide;
              [first [ intros [= Hc]; by apply projectedCount_not_int in Hc
                     | apply projectedNested_not_int ]|]).
      done.
  - by rewrite extractUsageMetadata_usageMapOf, Hu.
Qed.

End UsageMetadataMore.

(* ===================================================================== *)
(** * Part 19. More on cleaning, stamping and formatting                   *)
(* ===================================================================== *)

Section CleaningMore.

Import GoStrings GoStringsFacts.

Lemma removeByte_absent (old : ascii) (s : string) :
  List.Forall (fun c => Ascii.eqb c old = false) (list_ascii_of_string s) ->
  removeByte old s = s.
Proof.
  induction s as [|c s IH]; [reflexivity|]. cbn. intros Hs.
  inversion Hs as [|? ? Hc Hs']; subst. rewrite Hc. by rewrite IH.
Qed.

Lemma TrimSpace_trimmed (s : string) :
  leadingSpace spaceRunes s = None -> trailingSpace spaceRunes s = None ->
  TrimSpace s = s.
Proof.
  intros Hl Ht. unfold TrimSpace, TrimLeftSpace, TrimRightSpace.
  assert (El : trimLeftLoop (len s) s = s).
  { destruct (len s); [reflexivity|]. by rewrite trimLeftLoop_S, Hl. }
  rewrite El. destruct (len s); [reflexivity|]. by rewrite trimRightLoop_S, Ht.
Qed.

(** X13. Cleaning the payload of the engine twice is cleaning it once: a
    cleaned payload holds no line break and no white space around it, so
    that cleaning leaves it as it is. *)
Theorem cleanResponse_idempotent (content : string) :
  cleanResponse (cleanResponse content) = cleanResponse content.
Proof.
  destruct (cleanResponse_spec content)
    as (stripped & pre & suf & _ & _ & _ & _ & Hl & Ht & Hall).
  set (cleaned := cleanResponse content) in *.
  unfold cleanResponse at 1. fold cleaned.
  assert (H10 : removeByte "010" cleaned = cleaned).
  { apply removeByte_absent. eapply List.Forall_impl; [|exact Hall].
    intros c Hc. unfold notLineBreak in Hc.
    apply andb_true_iff in Hc as [Hc _]. by apply negb_true_iff. }
  assert (H13 : removeByte "013" cleaned = cleaned).
  { apply removeByte_absent. eapply List.Forall_impl; [|exact Hall].
    intros c Hc. unfold notLineBreak in Hc.
    apply andb_true_iff in Hc as [_ Hc]. by apply negb_true_iff. }
  rewrite H10, H13. by apply TrimSpace_trimmed.
Qed.

End CleaningMore.

Section StampingMore.

Context {rt : GoRuntime}.

Lemma valueIsString_true (v : value) (s : string) :
  valueIsString v s = true <-> v = VString s.
Proof.
  destruct v; cbn; try (split; discriminate).
  rewrite String.eqb_eq. split; [by intros -> | by intros [= ->]].
Qed.

(** X10. The writing of [agent_id] keeps the number of messages and every
    message but the last.  When the last message is a usage-statistics
    record, it becomes the same record with [agent_id] set to the agent;
    when it is none, and when there is no message, the sequence is left as
    it is. *)
Theorem stampAgentID_frame (agentID : string) (l : list value) :
  length (stampAgentID agentID l) = length l /\
  (forall i, (S i < length l)%nat -> stampAgentID agentID l !! i = l !! i) /\
  match last l with
  | Some v =>
      (forall record,
          v = VMap record ->
          record !! "message_type" = Some (VString "usage_statistics") ->
          last (stampAgentID agentID l)
          = Some (VMap (<["agent_id" := VString agentID]> record))) /\
      (~ isUsageStatistics v -> stampAgentID agentID l = l)
  | None => stampAgentID agentID l = []
  end.
Proof.
  unfold stampAgentID.
  destruct (last l) as [v|] eqn:Hlast.
  - apply last_Some in Hlast as [l' ->].
    assert (Hins : forall x : value,
               <[(length (l' ++ [v]) - 1)%nat := x]> (l' ++ [v]) = l' ++ [x]).
    { intros x. rewrite length_app. cbn [length].
      replace (length l' + 1 - 1)%nat with (length l' + 0)%nat by lia.
      by rewrite insert_app_r. }
    destruct v as [| | | | | | |record]; cbn [assertMap];
      try (split_and!; [done | done | done
                        | done ]).
    destruct (record !! "message_type") as [msgType|] eqn:Hmt.
    + destruct (valueIsString msgType "usage_statistics") eqn:Hv.
      * apply valueIsString_true in Hv as ->. rewrite Hins.
        split_and!.
        -- by rewrite !length_app.
        -- intros i Hi. rewrite length_app in Hi. cbn in Hi.
           by rewrite !lookup_app_l by lia.
        -- intros r [= <-] _. by rewrite last_snoc.
        -- intros Hn. destruct Hn. by exists record.
      * split_and!; try done.
        intros r [= <-] Hr. rewrite Hmt in Hr. injection Hr as ->.
        by rewrite (proj2 (valueIsString_true _ _) eq_refl) in Hv.
    + split_and!; try done. intros r [= <-] Hr. congruence.
  - apply last_None in Hlast as ->. by split_and!.
Qed.

End StampingMore.

Section FormattingMore.

Context {rt : GoRuntime}.

Lemma nonEmptyContent_Some (v : value) (m : gmap string value) (c : string) :
  nonEmptyContent v = Some (m, c) ->
  v = VMap m /\ m !! "content" = Some (VString c) /\ c <> "".
Proof.
  unfold nonEmptyContent. destruct v as [| | | | | | |m0]; try done.
  destruct (m0 !! "content") as [[| | | |c0| | |]|] eqn:Hc; try done.
  destruct (String.eqb_spec c0 ""); [done|]. by intros [= <- <-].
Qed.

(** X11. A formatter that fails on every call changes nothing: the pass
    gives back the messages as they were. *)
Theorem failing_formatter_keeps_messages (f : MessageFormatterInterface)
    (messages : list value) (h : History) :
  (forall h' response, exists err, FormatForWhatsApp f h' response = Err err) ->
  (applyWhatsAppFormattingToMessages (Some f) messages h).1 = messages.
Proof.
  intros Hfail. cbn [applyWhatsAppFormattingToMessages].
  destruct (formatLoop_spec f messages h) as (_ & Hlen & Hi).
  apply list_eq. intros i.
  destruct (messages !! i) as [v|] eqn:Hv.
  - rewrite (Hi i v Hv), formatMessage_spec.
    destruct (nonEmptyContent v) as [[m c]|] eqn:Hn; [|done].
    apply nonEmptyContent_Some in Hn as (-> & Hc & _).
    destruct (Hfail (h ++ formatCalls (take i messages)) (formatRequest c))
      as [err ->].
    cbn [fst]. by rewrite insert_id.
  - apply lookup_ge_None. rewrite Hlen. by apply lookup_ge_None.
Qed.

End FormattingMore.

(* ===================================================================== *)
(** * Part 20. More on the processing and the handler                      *)
(* ===================================================================== *)

Section ProcessingMore.

Context {rt : GoRuntime}.

Lemma resolveAudio_history (deps : MessageHandlerDependencies)
    (text : string) (h : History) :
  (resolveAudio deps text h).2 = h \/
  (resolveAudio deps text h).2 = h ++ [Ev.TranscribeAudio text] /\
  IsAudioReference text /\ is_Some (TranscribeService deps).
Proof.
  unfold resolveAudio. destruct (isAudioURL text) eqn:Ea; [|by left].
  destruct (TranscribeService deps) as [ts|]; [|by left].
  right. split; [|split; [by apply isAudioURL_spec | eauto]].
  run. destruct (TranscribeAudio ts h text) as [transcript|err]; [|done].
  by destruct (_ && _).
Qed.

Lemma validateContent_history (deps : MessageHandlerDependencies)
    (message : string) (h : History) :
  (validateContent deps message h).2 = h /\
  (validateContent deps message h).1 = Ok tt \/
  (validateContent deps message h).2 = h ++ [Ev.ValidateMessageContent message] /\
  is_Some (MessageFormatter deps) /\
  ((validateContent deps message h).1 = Ok tt \/
   exists cause,
     (validateContent deps message h).1 =
     Err ("invalid message content: " +:+ cause)).
Proof.
  unfold validateContent. destruct (MessageFormatter deps) as [f|]; [|by left].
  right. run. split; [done|]. split; [eauto|].
  destruct (ValidateMessageContent f h message); eauto.
Qed.

Lemma parseAgentResponse_error (content : string) (err : error) :
  parseAgentResponse content = Err err ->
  (exists cause, err = "failed to parse AI response JSON: " +:+ cause) \/
  err = "invalid Google Agent Engine response format - missing 'output' field" \/
  err = "invalid Google Agent Engine response format - 'output' is not an object".
Proof.
  unfold parseAgentResponse.
  destruct (json_Unmarshal_map (cleanResponse content)) as [parsed|e].
  - destruct (parsed !! "output") as [output|].
    + destruct (assertMap output); [done|]. intros [= <-]. auto.
    + intros [= <-]. auto.
  - intros [= <-]. eauto.
Qed.

Lemma buildProcessedData_tail (msg : models.QueueMessage)
    (deps : MessageHandlerDependencies) (outputMap : gmap string value) :
  Emits (fun e => isTailEvent e = true) (buildProcessedData msg deps outputMap).
Proof.
  unfold buildProcessedData. apply Emits_bind.
  - destruct (outputMap !! "messages"); [|apply Emits_ret].
    eapply Emits_weaken; [|apply transformGoogleAgentMessages_emits].
    by intros [].
  - intros t. apply Emits_bind; [|intros; apply Emits_ret].
    eapply Emits_weaken; [|apply applyWhatsAppFormattingToMessages_emits].
    by intros [].
Qed.

(** The events of the audio block and of the validation, in a run from
    [h]. *)
Lemma before_engine (msg : models.QueueMessage)
    (deps : MessageHandlerDependencies) (h : History)
    (r : result unit) (h2 : History) :
  validateContent deps (effectiveMessage msg deps h) (afterAudio msg deps h)
    = (r, h2) ->
  exists audio validation,
    h2 = h ++ audio ++ validation /\
    (audio = [] \/
     audio = [Ev.TranscribeAudio (models.Message msg)] /\
     IsAudioReference (models.Message msg) /\ is_Some (TranscribeService deps)) /\
    (validation = [] /\ r = Ok tt \/
     validation = [Ev.ValidateMessageContent (effectiveMessage msg deps h)] /\
     is_Some (MessageFormatter deps) /\
     (r = Ok tt \/ exists cause, r = Err ("invalid message content: " +:+ cause))).
Proof.
  intros Hv.
  pose proof (validateContent_history deps (effectiveMessage msg deps h)
                (afterAudio msg deps h)) as Hvh.
  rewrite Hv in Hvh. cbn [fst snd] in Hvh.
  pose proof (resolveAudio_history deps (models.Message msg) h) as Hah.
  fold (afterAudio msg deps h) in Hah.
  destruct Hah as [Ea|(Ea & Hau & Hts)]; rewrite Ea in Hvh.
  - exists []. destruct Hvh as [[-> ->]|(-> & Hf & Hr)].
    + exists []. split; [by rewrite !app_nil_r|]. split; [by left|by left].
    + eexists. split; [reflexivity|]. split; [by left|by right].
  - exists [Ev.TranscribeAudio (models.Message msg)].
    destruct Hvh as [[-> ->]|(-> & Hf & Hr)].
    + exists []. split; [by rewrite !app_nil_r|]. split; [by right|by left].
    + eexists. split; [by rewrite <- app_assoc|]. split; by right.
Qed.

(** X14. The calls of a run of the processing come in one order: at most
    one transcription, of the text of the message (only for an audio
    reference, with a transcription service); then at most one validation,
    of the effective text; then at most one [GetOrCreateThread], for the
    user number, followed by at most one [SendMessage], of the effective
    text; and only after a [SendMessage] the calls of the transformation and
    of the formatting. *)
Theorem processing_calls_in_order (msg : models.QueueMessage)
    (deps : MessageHandlerDependencies) (h : History) :
  exists audio validation engine tail,
    (processUserMessageData msg deps h).2
      = h ++ audio ++ validation ++ engine ++ tail /\
    (audio = [] \/
     audio = [Ev.TranscribeAudio (models.Message msg)] /\
     IsAudioReference (models.Message msg) /\ is_Some (TranscribeService deps)) /\
    (validation = [] \/
     validation = [Ev.ValidateMessageContent (effectiveMessage msg deps h)]) /\
    (engine = [] /\ tail = [] \/
     engine = [Ev.GetOrCreateThread (models.UserNumber msg)] /\ tail = [] \/
     exists threadID,
       engine = [Ev.GetOrCreateThread (models.UserNumber msg);
                 Ev.SendMessage threadID (effectiveMessage msg deps h)]) /\
    Forall (fun e => isTailEvent e = true) tail.
Proof.
  pose proof (processUserMessageData_outcome msg deps h) as Ho.
  destruct Ho as
    [ | | engine err h2 _ _ Hv | engine err h2 _ _ Hv
      | engine threadID err h2 _ _ Hv | engine threadID agentResponse err h2 _ _ Hv
      | engine threadID agentResponse outputMap h2 _ _ Hv ];
    try (exists [], [], [], []; rewrite !app_nil_r;
         split_and!; by eauto);
    destruct (before_engine _ _ _ _ _ Hv) as (audio & validation & -> & Ha & Hva);
    assert (Hva' : validation = [] \/
                   validation = [Ev.ValidateMessageContent
                                   (effectiveMessage msg deps h)])
      by (destruct Hva as [[-> _]|(-> & _)]; auto).
  - exists audio, validation, [], []. rewrite !app_nil_r. split_and!; eauto.
  - exists audio, validation, [Ev.GetOrCreateThread (models.UserNumber msg)], [].
    rewrite <- !app_assoc. split_and!; eauto.
  - exists audio, validation,
      [Ev.GetOrCreateThread (models.UserNumber msg);
       Ev.SendMessage threadID (effectiveMessage msg deps h)], [].
    rewrite <- !app_assoc. split_and!; eauto.
  - exists audio, validation,
      [Ev.GetOrCreateThread (models.UserNumber msg);
       Ev.SendMessage threadID (effectiveMessage msg deps h)], [].
    rewrite <- !app_assoc. split_and!; eauto.
  - subst run.
    destruct (buildProcessedData_tail msg deps outputMap
                ((h ++ audio ++ validation) ++
                 [Ev.GetOrCreateThread (models.UserNumber msg);
                  Ev.SendMessage threadID (effectiveMessage msg deps h)]))
      as (tail & -> & Ht).
    exists audio, validation,
      [Ev.GetOrCreateThread (models.UserNumber msg);
       Ev.SendMessage threadID (effectiveMessage msg deps h)], tail.
    rewrite <- !app_assoc. split_and!; eauto.
Qed.

End ProcessingMore.

Section ProcessingErrors.

Context {rt : GoRuntime}.

Lemma no_engine_call_before (audio validation : list Ev.Event) (text content : string) :
  (audio = [] \/ audio = [Ev.TranscribeAudio text]) ->
  (validation = [] \/ validation = [Ev.ValidateMessageContent content]) ->
  Forall (fun e => isEngineCall e = false) (audio ++ validation).
Proof.
  intros [->| ->] [->| ->]; by repeat constructor.
Qed.

(** X15. Every error of a run of the processing has one of the texts of the
    code, and the calls made up to it tell where it comes from: the
    provider and the missing engine are refused before any call, a content
    is refused before any call to the engine, a failure of
    [GetOrCreateThread] comes before any [SendMessage], and a failure of
    [SendMessage] or of the parsing of its reply has [SendMessage] as the
    last call.  A run that fails calls neither the random source, nor the
    clock, nor the formatter. *)
Theorem processing_error_origin (msg : models.QueueMessage)
    (deps : MessageHandlerDependencies) (h : History) (err : error) :
  (processUserMessageData msg deps h).1 = Err err ->
  exists evs,
    (processUserMessageData msg deps h).2 = h ++ evs /\
    Forall (fun e => isTailEvent e = false) evs /\
    ErrorOrigin (models.Provider msg) (models.UserNumber msg)
      (effectiveMessage msg deps h) err evs.
Proof.
  pose proof (processUserMessageData_outcome msg deps h) as Ho.
  destruct (processUserMessageData msg deps h) as [r h']. cbn [fst snd] in *.
  intros ->. unfold ErrorOrigin.
  inversion Ho as
    [ Hp E1 E2 | Hp Hn E1 E2 | engine e h2 Hp Hn Hv E1 E2
      | engine e h2 Hp Hn Hv Ht E1 E2
      | engine threadID e h2 Hp Hn Hv Ht Hs E1 E2
      | engine threadID agentResponse e h2 Hp Hn Hv Ht Hs Hpa E1 E2
      | ]; subst.
  - exists []. rewrite app_nil_r. split_and!; [done|constructor|]. by left.
  - exists []. rewrite app_nil_r. split_and!; [done|constructor|].
    right. by left.
  - destruct (before_engine _ _ _ _ _ Hv) as (audio & validation & -> & Ha & Hva).
    exists (audio ++ validation). split; [done|].
    assert (Ha' : audio = [] \/ audio = [Ev.TranscribeAudio (models.Message msg)])
      by (destruct Ha as [->|(-> & _)]; auto).
    destruct Hva as [[_ ?]|(-> & _ & [?|[cause [= ->]]])]; try done.
    split.
    + destruct Ha' as [->| ->]; by repeat constructor.
    + right. right. left. exists cause. split; [done|].
      by eapply no_engine_call_before; eauto.
  - destruct (before_engine _ _ _ _ _ Hv) as (audio & validation & -> & Ha & Hva).
    assert (Ha' : audio = [] \/ audio = [Ev.TranscribeAudio (models.Message msg)])
      by (destruct Ha as [->|(-> & _)]; auto).
    assert (Hva' : validation = [] \/
                   validation = [Ev.ValidateMessageContent
                                   (effectiveMessage msg deps h)])
      by (destruct Hva as [[-> _]|(-> & _)]; auto).
    exists ((audio ++ validation) ++ [Ev.GetOrCreateThread (models.UserNumber msg)]).
    split; [by rewrite <- !app_assoc|]. split.
    + destruct Ha' as [->| ->]; destruct Hva' as [->| ->]; by repeat constructor.
    + do 3 right. left. exists e, (audio ++ validation).
      split_and!; try done. by eapply no_engine_call_before.
  - destruct (before_engine _ _ _ _ _ Hv) as (audio & validation & -> & Ha & Hva).
    assert (Ha' : audio = [] \/ audio = [Ev.TranscribeAudio (models.Message msg)])
      by (destruct Ha as [->|(-> & _)]; auto).
    assert (Hva' : validation = [] \/
                   validation = [Ev.ValidateMessageContent
                                   (effectiveMessage msg deps h)])
      by (destruct Hva as [[-> _]|(-> & _)]; auto).
    exists ((audio ++ validation) ++
            [Ev.GetOrCreateThread (models.UserNumber msg);
             Ev.SendMessage threadID (effectiveMessage msg deps h)]).
    split; [by rewrite <- !app_assoc|]. split.
    + destruct Ha' as [->| ->]; destruct Hva' as [->| ->]; by repeat constructor.
    + do 4 right. exists e, threadID, (audio ++ validation).
      split_and!; [by left | done | by eapply no_engine_call_before].
  - destruct (before_engine _ _ _ _ _ Hv) as (audio & validation & -> & Ha & Hva).
    assert (Ha' : audio = [] \/ audio = [Ev.TranscribeAudio (models.Message msg)])
      by (destruct Ha as [->|(-> & _)]; auto).
    assert (Hva' : validation = [] \/
                   validation = [Ev.ValidateMessageContent
                                   (effectiveMessage msg deps h)])
      by (destruct Hva as [[-> _]|(-> & _)]; auto).
    exists ((audio ++ validation) ++
            [Ev.GetOrCreateThread (models.UserNumber msg);
             Ev.SendMessage threadID (effectiveMessage msg deps h)]).
    split; [by rewrite <- !app_assoc|]. split.
    + destruct Ha' as [->| ->]; destruct Hva' as [->| ->]; by repeat constructor.
    + do 4 right.
      destruct (parseAgentResponse_error _ _ Hpa) as [[cause ->]|[->| ->]].
      * exists cause, threadID, (audio ++ validation).
        split_and!; [by right; left | done | by eapply no_engine_call_before].
      * exists "", threadID, (audio ++ validation).
        split_and!; [by right; right; left | done
                    | by eapply no_engine_call_before].
      * exists "", threadID, (audio ++ validation).
        split_and!; [by right; right; right | done
                    | by eapply no_engine_call_before].
Qed.

Lemma processUserMessage_history (msg : models.QueueMessage)
    (deps : MessageHandlerDependencies) (h : History) :
  (processUserMessage msg deps h).2 = (processUserMessageData msg deps h).2.
Proof.
  unfold processUserMessage. run.
  destruct (processUserMessageData msg deps h) as [[pd|e] h1]; [|done].
  by destruct (json_Marshal pd).
Qed.

(** X16. With a tracing wrapper that is absent or only observes, handling a
    delivery that deserializes writes to the store in one way: first the
    status processing, then nothing while the message is processed, and at
    the end either the error text followed by the status failed, or the
    result followed by the status completed.  So the status is written
    twice, a result at most once, and never together with an error. *)
Theorem handler_store_writes (deps : MessageHandlerDependencies)
    (delivery : amqp.Delivery) (queueMsg : models.QueueMessage) (h : History) :
  json_Unmarshal_QueueMessage (amqp.Body delivery) = Ok queueMsg ->
  wrapperObserves deps ->
  let id := models.ID queueMsg in
  let statusTTL := config.TaskStatusTTL (Config deps) in
  let resultTTL := config.TaskResultTTL (Config deps) in
  exists evs terminal,
    (CreateUserMessageHandler deps delivery h).2 =
      h ++ [Ev.SetTaskStatus id "processing" statusTTL] ++ evs ++ terminal /\
    Forall (fun e => isStoreWrite e = false) evs /\
    ((exists err,
         terminal = [Ev.Set_ ("task:error:" +:+ id) err statusTTL;
                     Ev.SetTaskStatus id "failed" statusTTL]) \/
     (exists response,
         terminal = [Ev.SetTaskResult id response resultTTL;
                     Ev.SetTaskStatus id "completed" statusTTL])).
Proof.
  intros Hd Hw id statusTTL resultTTL.
  pose proof (CreateUserMessageHandler_run deps delivery h) as Hh.
  rewrite Hd in Hh. cbn zeta in Hh. fold id statusTTL resultTTL in Hh.
  rewrite (runProcessing_plain _ _ _ Hw) in Hh. cbn [fst snd] in Hh.
  rewrite processUserMessage_history in Hh.
  set (h1 := h ++ [Ev.SetTaskStatus id "processing" statusTTL]) in *.
  destruct (Outcome_events _ _ _ _ _ (processUserMessageData_outcome queueMsg deps h1))
    as (evs & E & F).
  rewrite E in Hh. rewrite Hh. cbn [snd].
  exists evs,
    (match (processUserMessage queueMsg deps h1).1.2 with
     | Some err =>
         [Ev.Set_ ("task:error:" +:+ id) err statusTTL;
          Ev.SetTaskStatus id "failed" statusTTL]
     | None =>
         [Ev.SetTaskResult id (processUserMessage queueMsg deps h1).1.1 resultTTL;
          Ev.SetTaskStatus id "completed" statusTTL]
     end).
  split; [unfold h1; by rewrite <- !app_assoc|].
  split.
  - eapply Forall_impl; [exact F|]. by intros [].
  - destruct ((processUserMessage queueMsg deps h1).1.2); eauto.
Qed.

Lemma buildProcessedData_fields (msg : models.QueueMessage)
    (deps : MessageHandlerDependencies) (outputMap : gmap string value)
    (h : History) :
  models.AgentID (buildProcessedData msg deps outputMap h).1
    = "user_" +:+ models.UserNumber msg /\
  models.ProcessedAt (buildProcessedData msg deps outputMap h).1 = models.ID msg /\
  models.Status (buildProcessedData msg deps outputMap h).1 = "done".
Proof.
  unfold buildProcessedData. run.
  repeat match goal with
         | |- context [let '(_, _) := ?x in _] => destruct x
         end.
  done.
Qed.

(** X17. When [processUserMessage] returns without an error, the string it
    returns is the serialization of a value whose [agent_id] is ["user_"]
    followed by the user number, whose [processed_at] is the identifier of
    the queue message (not a time) and whose status is ["done"]. *)
Theorem processed_response_fields (msg : models.QueueMessage)
    (deps : MessageHandlerDependencies) (h : History) (response : string)
    (h' : History) :
  processUserMessage msg deps h = ((response, None), h') ->
  exists processedData,
    processUserMessageData msg deps h = (Ok processedData, h') /\
    json_Marshal processedData = Ok response /\
    models.AgentID processedData = "user_" +:+ models.UserNumber msg /\
    models.ProcessedAt processedData = models.ID msg /\
    models.Status processedData = "done".
Proof.
  unfold processUserMessage. run.
  pose proof (processUserMessageData_outcome msg deps h) as Ho.
  destruct (processUserMessageData msg deps h) as [[pd|e] h1]; [|done].
  destruct (json_Marshal pd) as [bytes|e] eqn:Em; [|done].
  intros [= <- <-]. exists pd. split; [done|]. split; [done|].
  cbn [fst snd] in Ho.
  inversion Ho as [ | | | | | | engine threadID agentResponse outputMap h2
                                  Hp He Hv Ht Hs Hpa run Hpd Hh ].
  subst run. apply buildProcessedData_fields.
Qed.

End ProcessingErrors.

(* ===================================================================== *)
(** * Part 21. Further runs in the small world                             *)
(* ===================================================================== *)

Lemma adapter_without_service_witness :
  TranscribeService Demo.depsWithAdapter = Some (NewTranscribeServiceAdapter None) /\
  IsAudioReference (models.Message (Demo.message "http://x/voice.mp3")) /\
  effectiveMessage (Demo.message "http://x/voice.mp3") Demo.depsWithAdapter []
    = "Ajuda".
Proof.
  assert (Ha : IsAudioReference (models.Message (Demo.message "http://x/voice.mp3")))
    by (apply isAudioURL_spec; vm_compute; reflexivity).
  split; [reflexivity|]. split; [exact Ha|].
  exact (adapter_without_service_falls_back (Demo.message "http://x/voice.mp3")
           Demo.depsWithAdapter [] eq_refl Ha).
Defined.

Lemma transformed_message_fixed_fields_witness :
  objectEntries (VSlice [VMap Demo.human; VString "noise"; VMap Demo.ai]) !! 1%nat
    = Some Demo.ai /\
  exists message id,
    (transformGoogleAgentMessages (rt := Demo.runtime)
       (VSlice [VMap Demo.human; VString "noise"; VMap Demo.ai]) []).1 !! 1%nat
      = Some (VMap message) /\
    message !! "step_id" = Some (VString ("step-" +:+ id)) /\
    StepIDShape id /\
    placeholdersNull message /\
    message !! "name" = Some (mapIndex Demo.ai "name") /\
    message !! "content" = Some (mapIndex Demo.ai "content").
Proof.
  split; [reflexivity|].
  apply (transformed_message_fixed_fields (rt := Demo.runtime)
           (VSlice [VMap Demo.human; VString "noise"; VMap Demo.ai]) [] 1
           Demo.ai).
  reflexivity.
Defined.

Lemma failing_formatter_witness :
  (forall h' response,
      exists err, FormatForWhatsApp Demo.failingFormatter h' response = Err err) /\
  (applyWhatsAppFormattingToMessages (Some Demo.failingFormatter)
     [VMap Demo.human; VString "noise"; VMap Demo.ai] []).1
  = [VMap Demo.human; VString "noise"; VMap Demo.ai].
Proof.
  assert (Hf : forall (h' : History) (response : models.AgentResponse),
             exists err,
               FormatForWhatsApp Demo.failingFormatter h' response = Err err)
    by (intros h' response; by exists "formatter is down").
  split; [exact Hf|].
  exact (failing_formatter_keeps_messages Demo.failingFormatter
           [VMap Demo.human; VString "noise"; VMap Demo.ai] [] Hf).
Defined.

Lemma processing_error_origin_witness :
  (processUserMessageData (rt := Demo.runtime) (Demo.message "hello")
     (Demo.deps "oops") []).1 =
  Err "failed to parse AI response JSON: invalid character 'o' looking for beginning of value" /\
  exists evs,
    (processUserMessageData (rt := Demo.runtime) (Demo.message "hello")
       (Demo.deps "oops") []).2 = [] ++ evs /\
    Forall (fun e => isTailEvent e = false) evs /\
    ErrorOrigin (models.Provider (Demo.message "hello"))
      (models.UserNumber (Demo.message "hello"))
      (effectiveMessage (Demo.message "hello") (Demo.deps "oops") [])
      "failed to parse AI response JSON: invalid character 'o' looking for beginning of value"
      evs.
Proof.
  assert (He : (processUserMessageData (rt := Demo.runtime) (Demo.message "hello")
                  (Demo.deps "oops") []).1 =
               Err "failed to parse AI response JSON: invalid character 'o' looking for beginning of value")
    by (vm_compute; reflexivity).
  split; [exact He|].
  exact (processing_error_origin (rt := Demo.runtime) (Demo.message "hello")
           (Demo.deps "oops") [] _ He).
Defined.

Lemma handler_store_writes_witness :
  json_Unmarshal_QueueMessage (GoRuntime := Demo.runtime)
    (amqp.Body (Demo.delivery "hello")) = Ok (Demo.message "hello") /\
  wrapperObserves (Demo.deps "A") /\
  exists evs terminal,
    (CreateUserMessageHandler (rt := Demo.runtime) (Demo.deps "A")
       (Demo.delivery "hello") []).2 =
      [] ++ [Ev.SetTaskStatus "task-1" "processing" 3600] ++ evs ++ terminal /\
    Forall (fun e => isStoreWrite e = false) evs /\
    ((exists err,
         terminal = [Ev.Set_ ("task:error:" +:+ "task-1") err 3600;
                     Ev.SetTaskStatus "task-1" "failed" 3600]) \/
     (exists response,
         terminal = [Ev.SetTaskResult "task-1" response 7200;
                     Ev.SetTaskStatus "task-1" "completed" 3600])).
Proof.
  split; [reflexivity|]. split; [exact I|].
  exact (handler_store_writes (rt := Demo.runtime) (Demo.deps "A")
           (Demo.delivery "hello") (Demo.message "hello") [] eq_refl I).
Defined.

Lemma processed_response_fields_witness :
  exists h',
    processUserMessage (rt := Demo.runtime) (Demo.message "hello")
      (Demo.deps "A") [] = (("user_5521", None), h') /\
    exists processedData,
      processUserMessageData (rt := Demo.runtime) (Demo.message "hello")
        (Demo.deps "A") [] = (Ok processedData, h') /\
      json_Marshal (GoRuntime := Demo.runtime) processedData = Ok "user_5521" /\
      models.AgentID processedData
        = "user_" +:+ models.UserNumber (Demo.message "hello") /\
      models.ProcessedAt processedData = models.ID (Demo.message "hello") /\
      models.Status processedData = "done".
Proof.
  eexists. split; [vm_compute; reflexivity|].
  eapply (processed_response_fields (rt := Demo.runtime) (Demo.message "hello")
            (Demo.deps "A") []).
  vm_compute. reflexivity.
Defined.
